(** * Streaming evaluation metrics of [paddle.metric.metrics]

    A shallow embedding of the four metric classes of
    [python/paddle/metric/metrics.py] ([Accuracy], [Precision], [Recall] and
    [Auc]) and the properties their specification states, followed by the
    abstract class [Metric], the names of [Accuracy] and further properties
    of the code: its behaviour at the edges of its inputs, what [update]
    keeps, and how [reset], [update] and [accumulate] compose.

    - Python [float] and NumPy [float64] values are Rocq's primitive binary64
      floats: an addition, a product or a quotient of the source is the same
      IEEE operation in the model. A [float32] value is held as the binary64
      float of the same value. Where the source computes in the type of the
      array, the array carries its dtype: [Precision.update] adds 0.5 to the
      predictions, in [float32] for a [float32] array and in [float64] for a
      [float64] one. [Recall.update] rounds each prediction to an integer,
      which depends on its value alone. [Auc.update] is modelled for
      [float64] predictions, the dtype of its documented example. A
      correctness mask holds 0.0 and 1.0.
    - Python [int] values are [Z]; NumPy [int32] values are [Z] in the int32
      range.
    - Arrays are lists; an index out of range raises as it does in NumPy.
    - A method is a computation in a small state-and-exception monad: it reads
      and writes the fields of [self] and may raise; the state reached before a
      [raise] is kept, as it is in Python. *)

From Stdlib Require Import ZArith List String Floats Lia Bool Permutation.
From Stdlib Require Import DecimalString DecimalZ.
From stdpp Require Import base list.
Import ListNotations.

#[local] Open Scope Z_scope.
#[local] Set Warnings "-inexact-float".

(** ** Python exceptions and method results *)

Inductive exn : Type :=
| ValueError (msg : string)
| TypeError
| IndexError
| ZeroDivisionError
| OverflowError
| AssertionError.

Inductive result (A : Type) : Type :=
| Ok (a : A)
| Raise (e : exn).
Arguments Ok {A} a.
Arguments Raise {A} e.

Definition result_bind {A B} (r : result A) (k : A -> result B) : result B :=
  match r with
  | Ok a => k a
  | Raise e => Raise e
  end.

(** ** The method monad: state of [self], and exceptions *)

Module Py.

Definition M (St A : Type) : Type := St -> result A * St.

Definition ret {St A} (a : A) : M St A := fun s => (Ok a, s).

Definition bind {St A B} (c : M St A) (k : A -> M St B) : M St B :=
  fun s =>
    match c s with
    | (Ok a, s') => k a s'
    | (Raise e, s') => (Raise e, s')
    end.

Definition raise {St A} (e : exn) : M St A := fun s => (Raise e, s).
Definition get {St} : M St St := fun s => (Ok s, s).
Definition put {St} (s : St) : M St unit := fun _ => (Ok tt, s).
Definition lift {St A} (r : result A) : M St A := fun s => (r, s).

(** [for x in xs: body(x)] *)
Fixpoint for_each {St I} (xs : list I) (body : I -> M St unit) : M St unit :=
  match xs with
  | [] => ret tt
  | x :: xs' => bind (body x) (fun _ => for_each xs' body)
  end.

(** A [for] loop that threads a local variable [a] through its body. *)
Fixpoint fold_each {St I A} (xs : list I) (a : A) (body : A -> I -> M St A)
    : M St A :=
  match xs with
  | [] => ret a
  | x :: xs' => bind (body a x) (fun a' => fold_each xs' a' body)
  end.

End Py.

Declare Scope py_scope.
Delimit Scope py_scope with py.
Notation "'let*' x ':=' c 'in' k" := (Py.bind c (fun x => k))
  (at level 10, x name, c at level 100, k at level 200) : py_scope.

(** ** Numbers of the host language and of NumPy *)

(** The binary64 float nearest to an integer (round half to even). *)
Definition float_of_Z (z : Z) : float :=
  SF2Prim (binary_normalize prec emax z 0 false).

(** Python's [float(n)] and the coercion of an [int] operand in mixed
    arithmetic: [OverflowError] when [n] is too large for a binary64. *)
Definition py_float_of_int (z : Z) : result float :=
  match binary_normalize prec emax z 0 false with
  | S754_infinity _ => Raise OverflowError
  | sf => Ok (SF2Prim sf)
  end.

(** The integer part of a finite float, rounded toward zero. *)
Definition trunc_SF (x : spec_float) : option Z :=
  match x with
  | S754_zero _ => Some 0
  | S754_finite s m e => Some (cond_Zopp s (Z.shiftl (Zpos m) e))
  | _ => None
  end.

(** Python's [int(x)] on a float. *)
Definition py_int_of_float (x : float) : result Z :=
  match Prim2SF x with
  | S754_nan => Raise (ValueError "cannot convert float NaN to integer")
  | S754_infinity _ => Raise OverflowError
  | sf => match trunc_SF sf with Some z => Ok z | None => Raise OverflowError end
  end.

(** Python's [x / c] for a float [x] and an int [c]: the int is coerced, a zero
    divisor raises, otherwise the IEEE quotient. *)
Definition py_truediv_int (x : float) (c : Z) : result float :=
  result_bind (py_float_of_int c) (fun c' =>
    if (c' =? 0)%float then Raise ZeroDivisionError else Ok (x / c')%float).

(** A float division whose zero divisor is an error. *)
Definition py_truediv (x y : float) : result float :=
  if (y =? 0)%float then Raise ZeroDivisionError else Ok (x / y)%float.

(** [numpy.floor] on one element: the largest integral float below or equal. *)
Definition np_floor (x : float) : float :=
  match Prim2SF x with
  | S754_finite s m e =>
      if 0 <=? e then x
      else float_of_Z (Z.shiftl (cond_Zopp s (Zpos m)) e)
  | _ => x
  end.

(** The element types of an array of predictions. *)
Inductive dtype : Type := float32 | float64.

(** A float array: its dtype and its elements. The elements of a [float32]
    array are float32 values, each held as the binary64 float of the same
    value. *)
Record farray : Type := { dt : dtype; data : list float }.

(** [x + y] on float32 elements: the IEEE sum in binary32 (24 bits of
    precision), as sign, mantissa and exponent. The operands are given as
    binary64 floats; their sum is exact before it is rounded. *)
Definition add32 (x y : float) : spec_float :=
  SFadd 24 128 (Prim2SF x) (Prim2SF y).

(** [numpy.floor] on one float32 element, given as sign, mantissa and
    exponent: the largest integer below or equal, which is a float32 value
    again and is held as a binary64 float. *)
Definition np_floor32 (x : spec_float) : float :=
  match x with
  | S754_finite s m e => float_of_Z (Z.shiftl (cond_Zopp s (Zpos m)) e)
  | _ => SF2Prim x
  end.

(** [numpy.rint] on one element: the nearest integral float, ties to even. *)
Definition np_rint (x : float) : float :=
  match Prim2SF x with
  | S754_finite s m e =>
      if 0 <=? e then x
      else
        let q := Z.shiftr (Zpos m) (- e) in
        let r := Zpos m - Z.shiftl q (- e) in
        let half := 2 ^ (- e - 1) in
        let q' := if r <? half then q
                  else if half <? r then q + 1
                  else if Z.even q then q else q + 1 in
        if q' =? 0 then (if s then neg_zero else zero)
        else float_of_Z (cond_Zopp s q')
  | _ => x
  end.

(** [.astype("int32")] on one float element: the C conversion, which rounds
    toward zero; NaN and values outside the int32 range give the minimal
    int32, as NumPy's conversion does on x86-64. *)
Definition int32_min : Z := - 2 ^ 31.

Definition astype_int32 (x : float) : Z :=
  match trunc_SF (Prim2SF x) with
  | Some z => if (int32_min <=? z) && (z <? 2 ^ 31) then z else int32_min
  | None => int32_min
  end.

(** [enumerate(xs)] *)
Definition enumerate {A} (xs : list A) : list (nat * A) :=
  combine (seq 0 (length xs)) xs.

(** The slice [xs[:k]]: a negative [k] counts from the end. *)
Definition py_slice_to {A} (k : Z) (xs : list A) : list A :=
  if 0 <=? k then take (Z.to_nat k) xs
  else take (length xs - Z.to_nat (- k)) xs.

(** [a.sum()] of a two-dimensional float array, for arrays whose partial
    sums are all exact: NumPy adds in the type of the array (float32 for the
    mask that [compute] returns) and in an order of its own, and the model
    adds in binary64 row by row from the left. Where every partial sum is
    exact the two agree, as they do on a 0/1 mask of fewer than [2^24]
    cells; the properties below that give the value of a sum are stated for
    such masks. *)
Definition np_sum (a : list (list float)) : float :=
  fold_left PrimFloat.add (concat a) 0%float.

(** [numpy.zeros(n)], on a machine that has the memory for [n] floats: the
    model has no limit of memory, where NumPy raises on a size it cannot
    allocate. The properties below state what a constructed metric holds and
    do not promise that a construction of any size succeeds. *)
Definition np_zeros (n : Z) : result (list float) :=
  if n <? 0 then Raise (ValueError "negative dimensions are not allowed")
  else Ok (replicate (Z.to_nat n) 0%float).

(** The position that NumPy's [a[i]] denotes in an array of [len] slots: a
    negative [i] counts from the end. *)
Definition np_index (len : nat) (i : Z) : result nat :=
  if (0 <=? i) && (i <? Z.of_nat len) then Ok (Z.to_nat i)
  else if (- Z.of_nat len <=? i) && (i <? 0) then Ok (Z.to_nat (Z.of_nat len + i))
  else Raise IndexError.

(** ** Arguments of [update]: arrays, NumPy scalars, tensors, anything else *)

Inductive pyarg (A : Type) : Type :=
| NdArray (a : A)      (* a [numpy.ndarray] *)
| NpScalar             (* a NumPy float or integer such as
                          [np.float64(0.5)] or [np.int64(1)]: an
                          [np.generic], which is no array, has the shape
                          [()] and cannot be indexed or iterated *)
| Tensor (a : A)       (* a [paddle.Tensor], whose [.numpy()] is [a] *)
| NotArray.            (* any other Python object *)
Arguments NdArray {A} a.
Arguments NpScalar {A}.
Arguments Tensor {A} a.
Arguments NotArray {A}.

(** What the guard of [update] lets through: an array, or a NumPy scalar.
    The scalars of the model are the floats and the integers; the other
    instances of [np.generic] (complex numbers, strings, bytes, dates and
    records) pass the guard as well and are not modelled beyond it. *)
Inductive numpy (A : Type) : Type :=
| Array (a : A)
| Scalar.
Arguments Array {A} a.
Arguments Scalar {A}.



(** The message of the [ValueError] raised for argument [argname]. *)
Definition must_be_array (argname : string) : string :=
  ("The '" ++ argname ++ "' must be a numpy ndarray or Tensor.")%string.

(** The guard that opens [Precision.update], [Recall.update] and [Auc.update]:
<<
    if isinstance(x, paddle.Tensor):
        x = x.numpy()
    elif not _is_numpy_(x):
        raise ValueError("The '<argname>' must be a numpy ndarray or Tensor.")
>> *)
Definition as_numpy {St A} (argname : string) (x : pyarg A)
    : Py.M St (numpy A) :=
  match x with
  | Tensor a => Py.ret (Array a)
  | NdArray a => Py.ret (Array a)
  | NpScalar => Py.ret Scalar
  | NotArray => Py.raise (ValueError (must_be_array argname))
  end.

(** [a[i]] for [0 <= i]: [IndexError] out of range. *)
Definition getitem {St A} (a : list A) (i : nat) : Py.M St A :=
  match a !! i with
  | Some x => Py.ret x
  | None => Py.raise IndexError
  end.

#[local] Open Scope py_scope.

(** ** [class Precision] *)

Module Precision.

Record state : Type := { tp : Z; fp : Z }.

(** [__init__] and [reset]: both counters are zero. *)
Definition init : state := {| tp := 0; fp := 0 |}.

Definition reset : Py.M state unit := Py.put {| tp := 0; fp := 0 |}.

(** One element of [np.floor(preds + 0.5).astype("int32")]: for a float64
    array, and for a float32 array, where the sum is a float32 sum. *)
Definition decision (pred : float) : Z := astype_int32 (np_floor (pred + 0.5)).

Definition decision32 (pred : float) : Z :=
  astype_int32 (np_floor32 (add32 pred 0.5)).

Definition decision_in (d : dtype) (pred : float) : Z :=
  match d with
  | float64 => decision pred
  | float32 => decision32 pred
  end.

(** The body of [for i in range(sample_num)]. *)
Definition update_body (preds : list Z) (labels : list Z) (i : nat)
    : Py.M state unit :=
  let* pred := getitem preds i in
  let* label := getitem labels i in
  if pred =? 1 then
    if pred =? label then
      let* s := Py.get in Py.put {| tp := tp s + 1; fp := fp s |}
    else
      let* s := Py.get in Py.put {| tp := tp s; fp := fp s + 1 |}
  else Py.ret tt.

Definition update (preds : pyarg farray) (labels : pyarg (list Z))
    : Py.M state unit :=
  let* preds := as_numpy "preds" preds in
  let* labels := as_numpy "labels" labels in
  match labels with
  | Scalar => Py.raise IndexError     (* [labels.shape[0]]: the shape is [()] *)
  | Array labels =>
      let sample_num := length labels in
      match preds with
      | Array preds =>
          let preds := map (decision_in (dt preds)) (data preds) in
          Py.for_each (seq 0 sample_num) (update_body preds labels)
      | Scalar =>                     (* [preds[i]] on a scalar *)
          Py.for_each (seq 0 sample_num) (fun _ => Py.raise IndexError)
      end
  end.

Definition accumulate : Py.M state float :=
  let* s := Py.get in
  let ap := tp s + fp s in
  if negb (ap =? 0) then
    let* t := Py.lift (py_float_of_int (tp s)) in
    Py.lift (py_truediv_int t ap)
  else Py.ret 0%float.

(** What one sample does to the counters, in the words of the
    specification: a sample decided positive counts as a true positive when
    the decision equals its label and as a false positive otherwise; a sample
    decided otherwise counts nowhere. *)
Definition count_sample (d : dtype) (s : state) (sample : float * Z) : state :=
  let '(pred, label) := sample in
  if decision_in d pred =? 1 then
    if decision_in d pred =? label then {| tp := tp s + 1; fp := fp s |}
    else {| tp := tp s; fp := fp s + 1 |}
  else s.

(** [update] on a batch given as a list of samples (prediction, label), the
    predictions in an array of dtype [d]. *)
Definition update_batch (d : dtype) (batch : list (float * Z))
    : Py.M state unit :=
  update (NdArray {| dt := d; data := map fst batch |})
         (NdArray (map snd batch)).

End Precision.

(** ** [class Recall] *)

Module Recall.

Record state : Type := { tp : Z; fn : Z }.

Definition init : state := {| tp := 0; fn := 0 |}.

Definition reset : Py.M state unit := Py.put {| tp := 0; fn := 0 |}.

(** One element of [np.rint(preds).astype("int32")]. *)
Definition decision (pred : float) : Z := astype_int32 (np_rint pred).

Definition update_body (preds : list Z) (labels : list Z) (i : nat)
    : Py.M state unit :=
  let* pred := getitem preds i in
  let* label := getitem labels i in
  if label =? 1 then
    if pred =? label then
      let* s := Py.get in Py.put {| tp := tp s + 1; fn := fn s |}
    else
      let* s := Py.get in Py.put {| tp := tp s; fn := fn s + 1 |}
  else Py.ret tt.

Definition update (preds : pyarg (list float)) (labels : pyarg (list Z))
    : Py.M state unit :=
  let* preds := as_numpy "preds" preds in
  let* labels := as_numpy "labels" labels in
  match labels with
  | Scalar => Py.raise IndexError     (* [labels.shape[0]]: the shape is [()] *)
  | Array labels =>
      let sample_num := length labels in
      match preds with
      | Array preds =>
          let preds := map decision preds in
          Py.for_each (seq 0 sample_num) (update_body preds labels)
      | Scalar =>                     (* [preds[i]] on a scalar *)
          Py.for_each (seq 0 sample_num) (fun _ => Py.raise IndexError)
      end
  end.

Definition accumulate : Py.M state float :=
  let* s := Py.get in
  let recall := tp s + fn s in
  if negb (recall =? 0) then
    let* t := Py.lift (py_float_of_int (tp s)) in
    Py.lift (py_truediv_int t recall)
  else Py.ret 0%float.

(** What one sample does to the counters, in the words of the
    specification: a sample whose true label is 1 counts as a true positive
    when the rounded decision equals the label and as a false negative
    otherwise; a sample with another label counts nowhere. *)
Definition count_sample (s : state) (sample : float * Z) : state :=
  let '(pred, label) := sample in
  if label =? 1 then
    if decision pred =? label then {| tp := tp s + 1; fn := fn s |}
    else {| tp := tp s; fn := fn s + 1 |}
  else s.

(** [update] on a batch given as a list of samples (prediction, label). *)
Definition update_batch (batch : list (float * Z)) : Py.M state unit :=
  update (NdArray (map fst batch)) (NdArray (map snd batch)).

End Recall.

(** ** [class Accuracy] *)

(** What [accumulate] and [update] return: a float, or a list of floats when
    there are several cutoffs. *)
Inductive pyval : Type :=
| PyFloat (f : float)
| PyList (fs : list float).

Module Accuracy.

Record state : Type := {
  topk : list Z;
  maxk : Z;
  total : list float;
  count : list Z
}.

Definition reset : Py.M state unit :=
  let* s := Py.get in
  Py.put {| topk := topk s; maxk := maxk s;
            total := replicate (length (topk s)) 0%float;
            count := replicate (length (topk s)) 0 |}.

(** [__init__(topk)]: [max(topk)] raises on an empty tuple. *)
Definition init (topk : list Z) : result state :=
  match topk with
  | [] => Raise (ValueError "max() arg is an empty sequence")
  | k :: ks =>
      Ok (snd (reset {| topk := topk; maxk := fold_left Z.max ks k;
                        total := []; count := [] |}))
  end.

(** Insertion of an (index, score) pair into a list ranked by descending
    score, before the first pair whose score is not above it. *)
Fixpoint insert_desc (x : nat * float) (l : list (nat * float))
    : list (nat * float) :=
  match l with
  | [] => [x]
  | y :: l' => if (snd y <=? snd x)%float then x :: y :: l'
               else y :: insert_desc x l'
  end.

(** Modelled from the spec: [paddle.argsort(row, descending=True)] is not
    among the sources; the specification has it rank the class scores of a
    sample in descending order and yield the class indices in that order.
    Here equal scores keep the order of their indices. *)
Definition argsort_desc (row : list float) : list nat :=
  map fst (fold_right insert_desc [] (enumerate row)).

(** One row of [pred == label] cast to float ([float32] in the source; 0.0
    and 1.0 are the same numbers in binary64), for a label of the documented
    shape [[batch_size, 1]] with one row per row of [pred], each label
    broadcast along its row. For a label of another shape the comparison is
    decided by the broadcasting of [paddle], which is not among the sources;
    the model raises there, and no property below is about such a label. *)
Definition correct_row (ranked : list nat) (label : list Z)
    : result (list float) :=
  match label with
  | [l] => Ok (map (fun j => if Z.of_nat j =? l then 1%float else 0%float) ranked)
  | _ => Raise (ValueError "operands could not be broadcast together")
  end.

Fixpoint correct_rows (ranked : list (list nat)) (label : list (list Z))
    : result (list (list float)) :=
  match ranked, label with
  | [], [] => Ok []
  | r :: ranked', l :: label' =>
      result_bind (correct_row r l) (fun row =>
      result_bind (correct_rows ranked' label') (fun rows => Ok (row :: rows)))
  | _, _ => Raise (ValueError "operands could not be broadcast together")
  end.

Definition compute (pred : list (list float)) (label : list (list Z))
    : Py.M state (pyarg (list (list float))) :=
  let* s := Py.get in
  let pred := map (fun row => py_slice_to (maxk s) (argsort_desc row)) pred in
  let* correct := Py.lift (correct_rows pred label) in
  Py.ret (Tensor correct).

(** The body of [for i, k in enumerate(self.topk)], with the local [accs]. *)
Definition update_body (correct : list (list float)) (accs : list float)
    (ik : nat * Z) : Py.M state (list float) :=
  let '(i, k) := ik in
  let num_corrects := np_sum (map (py_slice_to k) correct) in
  let num_samples := Z.of_nat (length correct) in
  let* acc := Py.lift (py_truediv_int num_corrects num_samples) in
  let* s := Py.get in
  let* t := getitem (total s) i in
  let* _ := Py.put {| topk := topk s; maxk := maxk s;
                      total := <[i := (t + num_corrects)%float]> (total s);
                      count := count s |} in
  let* s := Py.get in
  let* c := getitem (count s) i in
  let* _ := Py.put {| topk := topk s; maxk := maxk s; total := total s;
                      count := <[i := c + num_samples]> (count s) |} in
  Py.ret (accs ++ [acc]).

(** [res[0] if len(self.topk) == 1 else res] *)
Definition collapse (res : list float) : Py.M state pyval :=
  let* s := Py.get in
  if (length (topk s) =? 1)%nat then
    let* r := getitem res 0 in Py.ret (PyFloat r)
  else Py.ret (PyList res).

Definition update (correct : pyarg (list (list float))) : Py.M state pyval :=
  let* correct :=
    match correct with
    | Tensor a => Py.ret a
    | NdArray a => Py.ret a
    | NpScalar => Py.raise IndexError     (* raised by [correct[:, :k]] *)
    | NotArray => Py.raise TypeError      (* raised by [correct[:, :k]] *)
    end in
  let* s := Py.get in
  let* accs := Py.fold_each (enumerate (topk s)) [] (update_body correct) in
  collapse accs.

Definition accumulate_body (res : list float) (tc : float * Z)
    : Py.M state (list float) :=
  let '(t, c) := tc in
  let* r := if 0 <? c then Py.lift (py_truediv_int t c) else Py.ret 0%float in
  Py.ret (res ++ [r]).

Definition accumulate : Py.M state pyval :=
  let* s := Py.get in
  let* res := Py.fold_each (combine (total s) (count s)) [] accumulate_body in
  collapse res.

(** A correctness mask, as [compute] produces it: a 0/1 matrix. *)
Definition mask_of (rows : list (list bool)) : list (list float) :=
  map (map (fun b : bool => if b then 1%float else 0%float)) rows.

(** [update] on a batch given as the rows of its correctness mask. *)
Definition update_batch (rows : list (list bool)) : Py.M state pyval :=
  update (NdArray (mask_of rows)).

(** The number of correct entries among the first [k] columns of the rows. *)
Definition count_true (l : list bool) : Z :=
  fold_right (fun (b : bool) n => if b then n + 1 else n) 0 l.

Definition ones (k : Z) (rows : list (list bool)) : Z :=
  fold_right (fun row n => count_true (py_slice_to k row) + n) 0 rows.

(** The state of a metric with cutoffs [topk] that has seen [rows] since its
    last [reset]. *)
Definition seen (topk : list Z) (maxk : Z) (rows : list (list bool)) : state :=
  {| topk := topk; maxk := maxk;
     total := map (fun k => float_of_Z (ones k rows)) topk;
     count := map (fun _ => Z.of_nat (length rows)) topk |}.

End Accuracy.

(** The example of the docstring of [Accuracy]. *)
Definition example_pred : list (list float) :=
  [[0.1; 0.2; 0.3; 0.4]; [0.1; 0.4; 0.3; 0.2];
   [0.1; 0.2; 0.4; 0.3]; [0.1; 0.2; 0.3; 0.4]]%float.

Definition example_label : list (list Z) := [[0]; [1]; [2]; [3]].

(** [m = Accuracy(); correct = m.compute(x, y); m.update(correct);
    res = m.accumulate()], giving [res] and the final state of [m]. *)
Definition example_run : result pyval * option Accuracy.state :=
  match Accuracy.init [1] with
  | Ok m =>
      let r := (let* correct := Accuracy.compute example_pred example_label in
                let* _ := Accuracy.update correct in
                Accuracy.accumulate) m in
      (fst r, Some (snd r))
  | Raise e => (Raise e, None)
  end.

(** ** [class Auc] *)

Module Auc.

Record state : Type := {
  num_thresholds : Z;
  stat_pos : list float;
  stat_neg : list float
}.

Definition reset : Py.M state unit :=
  let* s := Py.get in
  let _num_pred_buckets := num_thresholds s + 1 in
  let* z := Py.lift (np_zeros _num_pred_buckets) in
  let* _ := Py.put {| num_thresholds := num_thresholds s;
                      stat_pos := z; stat_neg := stat_neg s |} in
  let* s := Py.get in
  let* z := Py.lift (np_zeros _num_pred_buckets) in
  Py.put {| num_thresholds := num_thresholds s;
            stat_pos := stat_pos s; stat_neg := z |}.

(** [__init__(num_thresholds=4095)] *)
Definition init (num_thresholds : Z) : result state :=
  let _num_pred_buckets := num_thresholds + 1 in
  result_bind (np_zeros _num_pred_buckets) (fun zp =>
  result_bind (np_zeros _num_pred_buckets) (fun zn =>
  Ok {| num_thresholds := num_thresholds; stat_pos := zp; stat_neg := zn |})).

(** [int(value * self._num_thresholds)] *)
Definition bin_index (n : Z) (value : float) : result Z :=
  result_bind (py_float_of_int n) (fun n' =>
  py_int_of_float (value * n')%float).

(** [a[bin_idx] += 1.0] on a NumPy array. *)
Definition increment (a : list float) (bin_idx : Z) : result (list float) :=
  result_bind (np_index (length a) bin_idx) (fun j =>
  match a !! j with
  | Some x => Ok (<[j := (x + 1)%float]> a)
  | None => Raise IndexError
  end).

(** The body of [for i, lbl in enumerate(labels)]. *)
Definition update_body (preds : list (list float)) (ilbl : nat * Z)
    : Py.M state unit :=
  let '(i, lbl) := ilbl in
  let* row := getitem preds i in
  let* value := getitem row 1 in
  let* s := Py.get in
  let* bin_idx := Py.lift (bin_index (num_thresholds s) value) in
  if bin_idx <=? num_thresholds s then
    if negb (lbl =? 0) then
      let* a := Py.lift (increment (stat_pos s) bin_idx) in
      Py.put {| num_thresholds := num_thresholds s;
                stat_pos := a; stat_neg := stat_neg s |}
    else
      let* a := Py.lift (increment (stat_neg s) bin_idx) in
      Py.put {| num_thresholds := num_thresholds s;
                stat_pos := stat_pos s; stat_neg := a |}
  else Py.raise AssertionError.

Definition update (preds : pyarg (list (list float))) (labels : pyarg (list Z))
    : Py.M state unit :=
  let* labels := as_numpy "labels" labels in
  let* preds := as_numpy "preds" preds in
  match labels with
  | Scalar => Py.raise TypeError      (* [enumerate(labels)]: not iterable *)
  | Array labels =>
      match preds with
      | Array preds => Py.for_each (enumerate labels) (update_body preds)
      | Scalar =>                     (* [preds[i, 1]] on a scalar *)
          Py.for_each (enumerate labels) (fun _ => Py.raise IndexError)
      end
  end.

Definition trapezoid_area (x1 x2 y1 y2 : float) : float :=
  (abs (x1 - x2) * (y1 + y2) / 2)%float.

(** The locals [tot_pos], [tot_neg] and [auc] of [accumulate]. *)
Record locals : Type := { tot_pos : float; tot_neg : float; auc : float }.

(** One turn of [while idx >= 0], at bucket [idx]. *)
Definition accumulate_step (idx : nat) (l : locals) : Py.M state locals :=
  let tot_pos_prev := tot_pos l in
  let tot_neg_prev := tot_neg l in
  let* s := Py.get in
  let* p := getitem (stat_pos s) idx in
  let tot_pos := (tot_pos l + p)%float in
  let* q := getitem (stat_neg s) idx in
  let tot_neg := (tot_neg l + q)%float in
  let auc := (auc l + trapezoid_area tot_neg tot_neg_prev tot_pos tot_pos_prev)%float in
  Py.ret {| tot_pos := tot_pos; tot_neg := tot_neg; auc := auc |}.

(** The loop [while idx >= 0: ...; idx -= 1] with [k] turns left, that is,
    at [idx = k - 1]. *)
Fixpoint accumulate_loop (k : nat) (l : locals) : Py.M state locals :=
  match k with
  | O => Py.ret l
  | S idx => let* l' := accumulate_step idx l in accumulate_loop idx l'
  end.

(** The divisions of the last line; a zero divisor counts as an error (the
    [ZeroDivisionError] of Python floats, where NumPy would warn). *)
Definition accumulate : Py.M state float :=
  let* s := Py.get in
  let idx := num_thresholds s in
  let* l := accumulate_loop (Z.to_nat (idx + 1))
              {| tot_pos := 0; tot_neg := 0; auc := 0 |} in
  if (0 <? tot_pos l)%float && (0 <? tot_neg l)%float then
    let* a := Py.lift (py_truediv (auc l) (tot_pos l)) in
    Py.lift (py_truediv a (tot_neg l))
  else Py.ret 0%float.

(** The walk of [accumulate], in the words of the specification. The bucket
    index goes from [num_thresholds] down to 0. *)
Definition walk_indices (n : Z) : list nat := rev (seq 0 (Z.to_nat (n + 1))).

(** One step of the walk, at a bucket holding [p] positives and [q]
    negatives: the running totals grow by [p] and [q], and [auc] by the
    trapezoid between the previous and the current pair, with [x = tot_neg]
    and [y = tot_pos]: [|x1 - x2| * (y1 + y2) / 2]. *)
Definition walk_step (l : locals) (p q : float) : locals :=
  let x1 := (tot_neg l + q)%float in
  let x2 := tot_neg l in
  let y1 := (tot_pos l + p)%float in
  let y2 := tot_pos l in
  {| tot_pos := y1; tot_neg := x1;
     auc := (auc l + abs (x1 - x2) * (y1 + y2) / 2)%float |}.

Definition walk (s : state) : locals :=
  fold_left (fun l idx => walk_step l (nth idx (stat_pos s) 0%float)
                                      (nth idx (stat_neg s) 0%float))
            (walk_indices (num_thresholds s))
            {| tot_pos := 0; tot_neg := 0; auc := 0 |}.

(** The result: [auc / tot_pos / tot_neg] when both totals are strictly
    positive, [0.0] otherwise. *)
Definition accumulate_spec (s : state) : float :=
  let l := walk s in
  if (0 <? tot_pos l)%float && (0 <? tot_neg l)%float
  then (auc l / tot_pos l / tot_neg l)%float
  else 0%float.

(** The states that [__init__], [reset] and [update] produce: one slot per
    bucket in each array. *)
Definition well_formed (s : state) : Prop :=
  length (stat_pos s) = Z.to_nat (num_thresholds s + 1)
  /\ length (stat_neg s) = Z.to_nat (num_thresholds s + 1).

(** What [update] does with one sample on the path where nothing is raised:
    the bucket of the sample's positive-class probability gains one, in
    [stat_pos] when the label is truthy and in [stat_neg] otherwise. *)
Definition bump (a : list float) (j : nat) : list float :=
  match a !! j with
  | Some x => <[j := (x + 1)%float]> a
  | None => a
  end.

Definition bucket_of (n : Z) (value : float) : nat :=
  match bin_index n value with
  | Ok b => Z.to_nat b
  | Raise _ => 0
  end.

Definition count_sample (s : state) (sample : float * float * Z) : state :=
  let '(_, value, lbl) := sample in
  let j := bucket_of (num_thresholds s) value in
  if negb (lbl =? 0)
  then {| num_thresholds := num_thresholds s;
          stat_pos := bump (stat_pos s) j; stat_neg := stat_neg s |}
  else {| num_thresholds := num_thresholds s;
          stat_pos := stat_pos s; stat_neg := bump (stat_neg s) j |}.

(** A probability: a float between 0 and 1. *)
Definition probability (value : float) : Prop :=
  (0 <=? value)%float = true /\ (value <=? 1)%float = true.

(** [update] on a batch given as a list of samples: the probabilities of
    class 0 and class 1 (a row of [preds]) and the label. *)
Definition update_batch (batch : list (float * float * Z)) : Py.M state unit :=
  update (NdArray (map (fun x => [fst (fst x); snd (fst x)]) batch))
         (NdArray (map snd batch)).

End Auc.

(** ** Vocabulary of the further properties *)

(** The number of samples of an argument of [update]: the length of the
    array, and nothing for an object that is no array. *)
Definition samples_of {A} (x : pyarg (list A)) : Z :=
  match x with
  | NdArray a | Tensor a => Z.of_nat (length a)
  | NpScalar | NotArray => 0
  end.

(** What [update] and [accumulate] of [Accuracy] make of the list [res] of
    per-cutoff values: [res[0] if len(self.topk) == 1 else res]. *)
Definition collapsed (topk : list Z) (res : list float) : pyval :=
  if (length topk =? 1)%nat then PyFloat (nth 0 res 0%float) else PyList res.

(** The accuracy of one batch at cutoff [k]: the sum of the first [k] columns
    of its mask over its number of rows. *)
Definition accuracy_of_batch (correct : list (list float)) (k : Z) : float :=
  (np_sum (map (py_slice_to k) correct)
   / float_of_Z (Z.of_nat (length correct)))%float.

(** The running accuracy of one cutoff: its total over its count, and 0.0
    while the count is not positive. *)
Definition accuracy_so_far (tc : float * Z) : float :=
  if 0 <? snd tc then (fst tc / float_of_Z (snd tc))%float else 0%float.

(** What [update] keeps of an [Accuracy]: the cutoffs and the number of
    slots. *)
Definition same_shape (s s' : Accuracy.state) : Prop :=
  Accuracy.topk s' = Accuracy.topk s /\ Accuracy.maxk s' = Accuracy.maxk s
  /\ length (Accuracy.total s') = length (Accuracy.total s)
  /\ length (Accuracy.count s') = length (Accuracy.count s).

(** ** [class Metric] *)

Module Metric.

(** What a method of the abstract class does: it raises [NotImplementedError]
    with a message. *)
Inductive error : Type := NotImplementedError (msg : string).

(** The abstract methods, on an instance whose [__class__.__name__] is
    [class_name]. *)
Definition reset (class_name : string) : error :=
  NotImplementedError
    ("function 'reset' not implemented in " ++ class_name ++ ".").

Definition update (class_name : string) : error :=
  NotImplementedError
    ("function 'update' not implemented in " ++ class_name ++ ".").

Definition accumulate (class_name : string) : error :=
  NotImplementedError
    ("function 'accumulate' not implemented in " ++ class_name ++ ".").

Definition name (class_name : string) : error :=
  NotImplementedError
    ("function 'name' not implemented in " ++ class_name ++ ".").

End Metric.

(** ** The names of an [Accuracy] *)




(** What [update] keeps of an [Auc]: the number of thresholds and the number
    of slots of each array. *)
Definition same_buckets (s s' : Auc.state) : Prop :=
  Auc.num_thresholds s' = Auc.num_thresholds s
  /\ length (Auc.stat_pos s') = length (Auc.stat_pos s)
  /\ length (Auc.stat_neg s') = length (Auc.stat_neg s).

(** ** Vocabulary of the properties *)

(** Feeding a metric its batches, one call of [update] per batch. *)
Definition feed {St B A} (update : B -> Py.M St A) (batches : list B)
    : Py.M St unit :=
  Py.for_each batches (fun b => Py.bind (update b) (fun _ => Py.ret tt)).

(** Two groupings of batches fed to a metric in state [s] raise nothing,
    leave it in the same state, and make [accumulate] return the same. *)
Definition same_result {St B A R} (update : B -> Py.M St A)
    (accumulate : Py.M St R) (s : St) (bs1 bs2 : list B) : Prop :=
  exists s', feed update bs1 s = (Ok tt, s')
             /\ feed update bs2 s = (Ok tt, s')
             /\ Py.bind (feed update bs1) (fun _ => accumulate) s
                = Py.bind (feed update bs2) (fun _ => accumulate) s.

(** The size of a mask: its rows and its cells. *)
Definition mask_size (rows : list (list bool)) : Z :=
  Z.of_nat (length rows + length (concat rows)).

(** A computation that leaves [self] as it found it, whatever it returns. *)
Definition read_only {St A} (c : Py.M St A) : Prop :=
  forall s, snd (c s) = s.

(** ** Vocabulary of the validation of arguments *)


(** ** Vocabulary of the decision of [Precision] *)

(** Round half up, in the words of the specification: the integer
    [floor(x + 1/2)] of the exact sum, for a finite float [x]. *)
Definition round_half_up (x : float) : Z :=
  match Prim2SF x with
  | S754_finite s m e =>
      if 0 <=? e then cond_Zopp s (Zpos m * 2 ^ e)
      else (2 * cond_Zopp s (Zpos m) + 2 ^ (- e)) / 2 ^ (- e + 1)
  | _ => 0
  end.

(** The largest float64 below 0.5, [0.5 - 2^-54], and the largest float32
    below 0.5, [0.5 - 2^-25]. *)
Definition below_half64 : float := 0x1.fffffffffffffp-2.
Definition below_half32 : float := 0x1.fffffep-2.

(** Whether a float is a float32 value: a zero, an infinity, a NaN, or a
    finite float [m * 2^e] (with the 53-bit mantissa [m] of a binary64) that
    24 bits of mantissa hold at an exponent of the float32 range, from
    [2^-149] up; so the low 29 bits of [m] are zero, more of them in the
    subnormal range of float32, and the value is below [2^128]. *)
Definition fits_float32 (x : float) : bool :=
  match Prim2SF x with
  | S754_finite _ m e =>
      (e <=? 75) && (Zpos m mod 2 ^ Z.max 29 (- 149 - e) =? 0)
  | _ => true
  end.

(** The largest float below 0.5 in an array of dtype [d], and whether a
    float is a value of that dtype. *)
Definition below_half (d : dtype) : float :=
  match d with
  | float64 => below_half64
  | float32 => below_half32
  end.

Definition in_dtype (d : dtype) (x : float) : bool :=
  match d with
  | float64 => true
  | float32 => fits_float32 x
  end.

(** ** Vocabulary for the rounding lemmas *)

(** A mantissa [m] at exponent [e] whose value [m * 2^e] lies between
    [lo * 2^t] and [hi * 2^t], for an exponent [t] that is not below [e]. *)
Definition between (lo hi t m e : Z) : Prop :=
  e <= t /\ lo * 2 ^ (t - e) <= m <= hi * 2 ^ (t - e).

(** Whether bits were lost in the right shifts recorded by [x]. *)
Definition inexact (x : shr_record) : bool := shr_r x || shr_s x.

(** [y] is [x] shifted right by [j] bits. *)
Definition shifted (j : Z) (x y : shr_record) : Prop :=
  shr_m y = shr_m x / 2 ^ j /\
  inexact y = inexact x || negb (shr_m x mod 2 ^ j =? 0).

(** A mantissa [m] at a non-positive exponent [e] whose value [m * 2^e] is
    at most the integer [N]. *)
Definition below (N m e : Z) : Prop := e <= 0 /\ 0 <= m <= N * 2 ^ (- e).

(** The float that holds the positive integer [q] exactly: a 53-bit
    mantissa, the integer shifted left as far as it goes. *)
Definition is_int_SF (x : spec_float) (s : bool) (q : positive) : Prop :=
  exists m, x = S754_finite s m (Zpos (digits2_pos q) - 53) /\
            Zpos m = Zpos q * 2 ^ (53 - Zpos (digits2_pos q)).

(** What rounding makes of a nonzero integer: a valid finite float, or an
    infinity when the integer is too large; never a zero. *)
Definition finite_or_infinite (x : spec_float) : Prop :=
  match x with
  | S754_finite _ m e => bounded prec emax m e = true
  | S754_infinity _ => True
  | _ => False
  end.

(** * Properties

    ** Binary64 rounding on small integers

    The primitive float operations are specified by [SpecFloat]'s functions
    on sign, mantissa and exponent; the lemmas below follow those functions
    where the metrics need them: exact sums of counts, and products that stay
    below an integer. *)

Section Binary64.

Lemma digits2_pos_bounds (p : positive) :
  2 ^ (Zpos (digits2_pos p) - 1) <= Zpos p < 2 ^ Zpos (digits2_pos p).
Proof.
  induction p as [p IH | p IH |]; cbn [digits2_pos].
  - rewrite Pos2Z.inj_succ, Z.pow_succ_r by lia.
    replace (Z.succ (Zpos (digits2_pos p)) - 1) with (Z.succ (Zpos (digits2_pos p) - 1)) by lia.
    rewrite Z.pow_succ_r by lia. lia.
  - rewrite Pos2Z.inj_succ, Z.pow_succ_r by lia.
    replace (Z.succ (Zpos (digits2_pos p)) - 1) with (Z.succ (Zpos (digits2_pos p) - 1)) by lia.
    rewrite Z.pow_succ_r by lia. lia.
  - cbn. lia.
Qed.

Lemma digits2_pos_unique (p : positive) (d : Z) :
  2 ^ (d - 1) <= Zpos p < 2 ^ d -> Zpos (digits2_pos p) = d.
Proof.
  intros [Hlo Hhi]. pose proof (digits2_pos_bounds p) as [Blo Bhi].
  destruct (Z.lt_trichotomy (Zpos (digits2_pos p)) d) as [Hlt | [Heq | Hgt]]; [| exact Heq |].
  - exfalso. assert (2 ^ Zpos (digits2_pos p) <= 2 ^ (d - 1)) by (apply Z.pow_le_mono_r; lia). lia.
  - exfalso. assert (0 <= d \/ d < 0) as [Hd | Hd] by lia.
    + assert (2 ^ d <= 2 ^ (Zpos (digits2_pos p) - 1)) by (apply Z.pow_le_mono_r; lia). lia.
    + rewrite (Z.pow_neg_r 2 d) in Hhi by lia. lia.
Qed.

Lemma iter_xO_pow (p k : positive) :
  Zpos (Pos.iter xO p k) = Zpos p * 2 ^ Zpos k.
Proof.
  induction k as [| k IH] using Pos.peano_ind.
  - cbn. lia.
  - rewrite Pos.iter_succ, Pos2Z.inj_xO, IH, Pos2Z.inj_succ, Z.pow_succ_r by lia. lia.
Qed.

Lemma digits2_pos_shift (p : positive) (k c : Z) :
  0 <= k -> 0 < c -> Zpos p = c * 2 ^ k ->
  forall q, Zpos q = c -> Zpos (digits2_pos p) = Zpos (digits2_pos q) + k.
Proof.
  intros Hk Hc Hp q Hq. apply digits2_pos_unique.
  pose proof (digits2_pos_bounds q) as [Blo Bhi]. rewrite Hq in Blo, Bhi.
  replace (Zpos (digits2_pos q) + k - 1) with ((Zpos (digits2_pos q) - 1) + k) by lia.
  rewrite !Z.pow_add_r by lia. rewrite Hp.
  assert (0 < 2 ^ k) by (apply Z.pow_pos_nonneg; lia). nia.
Qed.



Lemma shifted_1 (x : shr_record) : 0 <= shr_m x -> shifted 1 x (shr_1 x).
Proof.
  destruct x as [m r s]. unfold shifted, inexact. cbn [shr_m shr_r shr_s].
  intros Hm. change (2 ^ 1) with 2.
  destruct m as [| [p | p |] | p]; try lia; cbn [shr_1 shr_m shr_r shr_s].
  - split; [reflexivity | destruct r, s; reflexivity].
  - split; [rewrite Pos2Z.inj_xI; apply Z.div_unique with 1; lia |].
    rewrite Pos2Z.inj_xI.
    replace ((2 * Zpos p + 1) mod 2) with 1
      by (apply Z.mod_unique with (Zpos p); lia).
    destruct r, s; reflexivity.
  - split; [rewrite Pos2Z.inj_xO; apply Z.div_unique with 0; lia |].
    rewrite Pos2Z.inj_xO.
    replace ((2 * Zpos p) mod 2) with 0
      by (apply Z.mod_unique with (Zpos p); lia).
    destruct r, s; reflexivity.
  - split; [reflexivity | destruct r, s; reflexivity].
Qed.

Lemma shifted_trans (j1 j2 : Z) (x y z : shr_record) :
  0 <= shr_m x -> 0 < j1 -> 0 < j2 ->
  shifted j1 x y -> shifted j2 y z -> shifted (j1 + j2) x z.
Proof.
  intros Hx H1 H2 [Hm1 Hi1] [Hm2 Hi2].
  assert (0 < 2 ^ j1) by (apply Z.pow_pos_nonneg; lia).
  assert (0 < 2 ^ j2) by (apply Z.pow_pos_nonneg; lia).
  split.
  - rewrite Hm2, Hm1, Z.pow_add_r, Z.div_div by lia. reflexivity.
  - rewrite Hi2, Hi1, Hm1, Z.pow_add_r, Z.rem_mul_r by lia.
    pose proof (Z.mod_pos_bound (shr_m x) (2 ^ j1) ltac:(lia)).
    pose proof (Z.mod_pos_bound (shr_m x / 2 ^ j1) (2 ^ j2) ltac:(lia)).
    destruct (inexact x); [reflexivity |]. cbn [orb].
    destruct (Z.eqb_spec (shr_m x mod 2 ^ j1) 0) as [E1 | E1];
    destruct (Z.eqb_spec ((shr_m x / 2 ^ j1) mod 2 ^ j2) 0) as [E2 | E2];
    destruct (Z.eqb_spec (shr_m x mod 2 ^ j1 + 2 ^ j1 * ((shr_m x / 2 ^ j1) mod 2 ^ j2)) 0);
      cbn; try reflexivity; exfalso; nia.
Qed.

Lemma shifted_nonneg (j : Z) (x y : shr_record) :
  0 <= shr_m x -> 0 <= j -> shifted j x y -> 0 <= shr_m y.
Proof.
  intros Hx Hj [Hm _]. rewrite Hm. apply Z.div_pos; [lia |].
  apply Z.pow_pos_nonneg; lia.
Qed.

Lemma iter_shr_1 (k : positive) (x : shr_record) :
  0 <= shr_m x -> shifted (Zpos k) x (SpecFloat.iter_pos shr_1 k x).
Proof.
  revert x. induction k as [k IH | k IH |]; intros x Hx; cbn [SpecFloat.iter_pos].
  - pose proof (shifted_1 x Hx) as S1.
    pose proof (shifted_nonneg 1 _ _ Hx ltac:(lia) S1) as N1.
    pose proof (IH _ N1) as S2.
    pose proof (shifted_nonneg (Zpos k) _ _ N1 ltac:(lia) S2) as N2.
    pose proof (IH _ N2) as S3.
    replace (Zpos k~1) with (1 + (Zpos k + Zpos k)) by lia.
    apply shifted_trans with (shr_1 x); try lia; try assumption.
    apply shifted_trans with (SpecFloat.iter_pos shr_1 k (shr_1 x)); try lia; assumption.
  - pose proof (IH _ Hx) as S2.
    pose proof (shifted_nonneg (Zpos k) _ _ Hx ltac:(lia) S2) as N2.
    pose proof (IH _ N2) as S3.
    replace (Zpos k~0) with (Zpos k + Zpos k) by lia.
    apply shifted_trans with (SpecFloat.iter_pos shr_1 k x); try lia; assumption.
  - apply shifted_1, Hx.
Qed.


Lemma fexp_eq (x : Z) : fexp prec emax x = Z.max (x - 53) (-1074).
Proof. reflexivity. Qed.

Lemma Zdigits2_nonneg_bound (m : Z) (b : Z) :
  0 <= m -> 0 <= b -> m < 2 ^ b -> Zdigits2 m <= b.
Proof.
  intros Hm Hb Hlt. destruct m as [| p | p]; cbn [Zdigits2]; try lia.
  pose proof (digits2_pos_bounds p) as [Blo _].
  destruct (Z_le_gt_dec (Zpos (digits2_pos p)) b) as [Hle | Hgt]; [exact Hle |].
  exfalso. assert (2 ^ b <= 2 ^ (Zpos (digits2_pos p) - 1))
    by (apply Z.pow_le_mono_r; lia). lia.
Qed.

(** The first step of rounding, on an exact mantissa: either nothing is
    shifted out, or [k] bits are. *)
Lemma shr_fexp_exact (m e : Z) :
  0 <= m ->
  let k := fexp prec emax (Zdigits2 m + e) - e in
  (k <= 0 /\
   shr_fexp prec emax m e loc_Exact = (Build_shr_record m false false, e)) \/
  (0 < k /\ exists y, shr_fexp prec emax m e loc_Exact = (y, e + k) /\
     shifted k (Build_shr_record m false false) y).
Proof.
  intros Hm k. unfold shr_fexp. fold k. cbn [shr_record_of_loc].
  destruct k as [| q | q] eqn:Ek; cbn [shr].
  - left. split; [lia | reflexivity].
  - right. split; [lia |]. eexists. split; [reflexivity |].
    apply iter_shr_1. exact Hm.
  - left. split; [lia | reflexivity].
Qed.

Lemma round_nearest_even_bounds (y : shr_record) :
  shr_m y <= round_nearest_even (shr_m y) (loc_of_shr_record y)
          <= shr_m y + (if inexact y then 1 else 0).
Proof.
  destruct y as [m [] []]; unfold inexact; cbn; try lia.
  destruct (Z.even m); lia.
Qed.

Section BelowInteger.

Variable N : Z.
Hypothesis N_pos : 0 < N.
Hypothesis N_small : N < 2 ^ 53.

Lemma shr_fexp_below (m e : Z) :
  below N m e ->
  exists y e', shr_fexp prec emax m e loc_Exact = (y, e') /\
    e' <= 0 /\ 0 <= shr_m y /\
    shr_m y + (if inexact y then 1 else 0) <= N * 2 ^ (- e').
Proof.
  intros [He [Hm HmN]].
  assert (Hpe : 0 < 2 ^ (- e)) by (apply Z.pow_pos_nonneg; lia).
  destruct (shr_fexp_exact m e Hm) as [[Hk E] | [Hk [y [E [Sm Si]]]]].
  - exists (Build_shr_record m false false), e. rewrite E.
    cbn [shr_m inexact shr_r shr_s orb]. repeat split; try lia.
  - set (k := fexp prec emax (Zdigits2 m + e) - e) in *.
    assert (He' : e + k <= 0).
    { unfold k. rewrite fexp_eq.
      assert (Zdigits2 m <= 53 - e).
      { apply Zdigits2_nonneg_bound; try lia.
        replace (53 - e) with (53 + - e) by lia. rewrite Z.pow_add_r by lia. nia. }
      lia. }
    exists y, (e + k). rewrite E. cbn [shr_m inexact shr_r shr_s orb] in Sm, Si.
    assert (Hpk : 0 < 2 ^ k) by (apply Z.pow_pos_nonneg; lia).
    assert (Hpe' : 0 < 2 ^ (- (e + k))) by (apply Z.pow_pos_nonneg; lia).
    assert (Hsplit : 2 ^ (- e) = 2 ^ (- (e + k)) * 2 ^ k).
    { rewrite <- Z.pow_add_r by lia. f_equal. lia. }
    pose proof (Z.div_mod m (2 ^ k) ltac:(lia)) as Hdm.
    pose proof (Z.mod_pos_bound m (2 ^ k) ltac:(lia)) as Hmb.
    assert (0 <= m / 2 ^ k) by (apply Z.div_pos; lia).
    split; [reflexivity |]. split; [exact He' |]. split; [lia |].
    rewrite Si, Sm. cbn [orb].
    destruct (Z.eqb_spec (m mod 2 ^ k) 0) as [E0 | E0]; cbn [negb]; nia.
Qed.

(** Rounding a positive value that is at most [N] gives zero or a finite
    float that is still at most [N]. *)
Lemma binary_round_aux_below (s : bool) (m e : Z) :
  below N m e ->
  match binary_round_aux prec emax s m e loc_Exact with
  | S754_zero s' => s' = s
  | S754_finite s' m' e' => s' = s /\ below N (Zpos m') e'
  | _ => False
  end.
Proof.
  intros Hb. unfold binary_round_aux.
  destruct (shr_fexp_below m e Hb) as [y [e1 [E1 [He1 [Hy0 HyN]]]]].
  rewrite E1.
  pose proof (round_nearest_even_bounds y) as [Rlo Rhi].
  set (m2 := round_nearest_even (shr_m y) (loc_of_shr_record y)) in *.
  assert (Hb2 : below N m2 e1) by (split; [exact He1 | lia]).
  destruct (shr_fexp_below m2 e1 Hb2) as [z [e2 [E2 [He2 [Hz0 HzN]]]]].
  rewrite E2.
  destruct (shr_m z) as [| p | p] eqn:Ez; try lia.
  - reflexivity.
  - replace (e2 <=? emax - prec) with true
      by (symmetry; apply Z.leb_le; change (emax - prec) with 971; lia).
    split; [reflexivity |]. split; [exact He2 |].
    destruct (inexact z); lia.
Qed.

End BelowInteger.


Lemma is_int_SF_unique (x y : spec_float) (s : bool) (q : positive) :
  is_int_SF x s q -> is_int_SF y s q -> x = y.
Proof.
  intros [m [-> Hm]] [m' [-> Hm']]. f_equal. apply Pos2Z.inj. congruence.
Qed.

Lemma shr_fexp_53 (m : positive) (t : Z) :
  Zpos (digits2_pos m) = 53 -> -1074 <= t ->
  shr_fexp prec emax (Zpos m) t loc_Exact
  = (Build_shr_record (Zpos m) false false, t).
Proof.
  intros Hd Ht.
  destruct (shr_fexp_exact (Zpos m) t ltac:(lia)) as [[_ E] | [Hk _]]; [exact E |].
  exfalso. rewrite fexp_eq in Hk. cbn [Zdigits2] in Hk. lia.
Qed.

Lemma binary_round_aux_53 (s : bool) (m : positive) (t : Z) :
  Zpos (digits2_pos m) = 53 -> -1074 <= t <= 971 ->
  binary_round_aux prec emax s (Zpos m) t loc_Exact = S754_finite s m t.
Proof.
  intros Hd Ht.
  pose proof (shr_fexp_53 m t Hd ltac:(lia)) as E.
  unfold binary_round_aux. rewrite E. cbn [shr_m loc_of_shr_record round_nearest_even].
  rewrite E. cbn [shr_m].
  replace (t <=? emax - prec) with true
    by (symmetry; apply Z.leb_le; change (emax - prec) with 971; lia).
  reflexivity.
Qed.

Lemma small_digits (q : positive) :
  Zpos q < 2 ^ 53 -> 1 <= Zpos (digits2_pos q) <= 53.
Proof.
  intros Hq. split; [lia |].
  apply (Zdigits2_nonneg_bound (Zpos q) 53); lia.
Qed.

(** Rounding is exact on an integer below [2^53], however it is scaled. *)
Lemma binary_round_int (s : bool) (M : positive) (e : Z) (q : positive) :
  e <= 0 -> Zpos q < 2 ^ 53 -> Zpos M = Zpos q * 2 ^ (- e) ->
  is_int_SF (binary_round prec emax s M e) s q.
Proof.
  intros He Hq HM.
  pose proof (small_digits q Hq) as Hdq.
  pose proof (digits2_pos_shift M (- e) (Zpos q) ltac:(lia) ltac:(lia) HM q eq_refl) as HdM.
  set (dq := Zpos (digits2_pos q)) in *.
  set (t := dq - 53).
  assert (Ht : fexp prec emax (Zpos (digits2_pos M) + e) = t)
    by (rewrite fexp_eq, HdM; unfold t; lia).
  unfold binary_round, shl_align. rewrite Ht.
  assert (Hdiv : forall m' : positive,
            Zpos m' = Zpos q * 2 ^ (- t) -> Zpos (digits2_pos m') = 53).
  { intros m' Hm'.
    rewrite (digits2_pos_shift m' (- t) (Zpos q) ltac:(unfold t; lia) ltac:(lia) Hm' q eq_refl).
    fold dq. unfold t. lia. }
  destruct (t - e) as [| d | d] eqn:Ed; cbv beta iota.
  - (* already aligned *)
    assert (e = t) by lia. subst e.
    rewrite (binary_round_aux_53 s M t); [| apply Hdiv; exact HM | unfold t; lia].
    exists M. split; [reflexivity |]. rewrite HM. f_equal. f_equal. unfold t. lia.
  - (* the mantissa carries [d] trailing zeros *)
    unfold binary_round_aux.
    destruct (shr_fexp_exact (Zpos M) e ltac:(lia)) as [[Hk _] | [Hk [y [E [Sm Si]]]]];
      cbn [Zdigits2] in *; rewrite Ht in *; [lia |].
    rewrite E. cbn [shr_m inexact shr_r shr_s orb] in Sm, Si.
    assert (Hsplit : 2 ^ (- e) = 2 ^ (- t) * 2 ^ (t - e)).
    { rewrite <- Z.pow_add_r by (unfold t; lia). f_equal. lia. }
    assert (Hp : 0 < 2 ^ (t - e)) by (apply Z.pow_pos_nonneg; lia).
    assert (Hy : shr_m y = Zpos q * 2 ^ (- t)).
    { rewrite Sm, HM, Hsplit, Z.mul_assoc, Z.div_mul by lia. reflexivity. }
    assert (Hi : inexact y = false).
    { rewrite Si, HM, Hsplit, Z.mul_assoc, Z.mod_mul by lia. reflexivity. }
    assert (Hloc : round_nearest_even (shr_m y) (loc_of_shr_record y) = shr_m y).
    { pose proof (round_nearest_even_bounds y). rewrite Hi in *. lia. }
    rewrite Hloc.
    assert (Hpt : 0 < 2 ^ (- t)) by (apply Z.pow_pos_nonneg; unfold t; lia).
    destruct (shr_m y) as [| m1 | m1] eqn:Ey; try lia.
    replace (e + (t - e)) with t by lia.
    rewrite (shr_fexp_53 m1 t); [| apply Hdiv; exact Hy | unfold t; lia].
    cbn [shr_m].
    replace (t <=? emax - prec) with true
      by (symmetry; apply Z.leb_le; change (emax - prec) with 971; unfold t; lia).
    exists m1. split; [reflexivity |]. rewrite Hy. f_equal. f_equal. unfold t. lia.
  - (* shift left by [d] *)
    assert (Hmz : Zpos (Pos.iter xO M d) = Zpos q * 2 ^ (- t)).
    { rewrite iter_xO_pow, HM, <- Z.mul_assoc, <- Z.pow_add_r by lia.
      f_equal. f_equal. lia. }
    rewrite (binary_round_aux_53 s (Pos.iter xO M d) t);
      [| apply Hdiv; exact Hmz | unfold t; lia].
    exists (Pos.iter xO M d). split; [reflexivity |]. rewrite Hmz.
    f_equal. f_equal. unfold t. lia.
Qed.


Lemma Prim2SF_zero : Prim2SF 0 = S754_zero false.
Proof. vm_compute. reflexivity. Qed.

Lemma Prim2SF_one : Prim2SF 1 = S754_finite false 4503599627370496 (-52).
Proof. vm_compute. reflexivity. Qed.

Lemma pow2_52 : 2 ^ 52 = 4503599627370496.
Proof. vm_compute. reflexivity. Qed.

Lemma is_int_SF_digits (x : spec_float) (s : bool) (q : positive) :
  Zpos q < 2 ^ 53 -> is_int_SF x s q ->
  exists m e, x = S754_finite s m e /\ -52 <= e <= 0 /\
    Zpos m = Zpos q * 2 ^ (- e) /\ Zpos (digits2_pos m) = 53.
Proof.
  intros Hq [m [-> Hm]]. pose proof (small_digits q Hq) as Hd.
  exists m, (Zpos (digits2_pos q) - 53). split; [reflexivity |]. split; [lia |].
  assert (E : - (Zpos (digits2_pos q) - 53) = 53 - Zpos (digits2_pos q)) by lia.
  rewrite E. split; [exact Hm |].
  rewrite (digits2_pos_shift m (53 - Zpos (digits2_pos q)) (Zpos q)
             ltac:(lia) ltac:(lia) Hm q eq_refl). lia.
Qed.

Lemma is_int_SF_valid (x : spec_float) (s : bool) (q : positive) :
  Zpos q < 2 ^ 53 -> is_int_SF x s q -> valid_binary x = true.
Proof.
  intros Hq H. destruct (is_int_SF_digits x s q Hq H) as [m [e [-> [He [_ Hd]]]]].
  cbn [SpecFloat.valid_binary]. unfold bounded, canonical_mantissa.
  rewrite fexp_eq, Hd. apply andb_true_intro. split.
  - apply Z.eqb_eq. lia.
  - apply Z.leb_le. change (emax - prec) with 971. lia.
Qed.

Lemma float_of_Z_pos (q : positive) :
  Zpos q < 2 ^ 53 -> is_int_SF (Prim2SF (float_of_Z (Zpos q))) false q.
Proof.
  intros Hq.
  assert (H : is_int_SF (binary_normalize prec emax (Zpos q) 0 false) false q).
  { cbn [binary_normalize]. apply binary_round_int; [lia | exact Hq |].
    change (- 0) with 0. rewrite Z.pow_0_r. lia. }
  unfold float_of_Z. rewrite Prim2SF_SF2Prim; [exact H |].
  apply (is_int_SF_valid _ false q Hq H).
Qed.

Lemma py_float_of_int_small (z : Z) :
  0 <= z < 2 ^ 53 -> py_float_of_int z = Ok (float_of_Z z).
Proof.
  intros Hz. unfold py_float_of_int, float_of_Z. destruct z as [| q | q]; try lia.
  - reflexivity.
  - assert (H : is_int_SF (binary_normalize prec emax (Zpos q) 0 false) false q).
    { cbn [binary_normalize]. apply binary_round_int; [lia | lia |].
      change (- 0) with 0. rewrite Z.pow_0_r. lia. }
    destruct H as [m [-> _]]. reflexivity.
Qed.

(** Float addition is exact on natural numbers whose sum is below [2^53]. *)
Lemma float_add_int (a b : Z) :
  0 <= a -> 0 <= b -> a + b < 2 ^ 53 ->
  (float_of_Z a + float_of_Z b)%float = float_of_Z (a + b).
Proof.
  intros Ha Hb Hab. apply Prim2SF_inj. rewrite add_spec.
  destruct a as [| qa | qa]; try lia; destruct b as [| qb | qb]; try lia.
  - reflexivity.
  - change (float_of_Z 0) with 0%float. rewrite Prim2SF_zero, Z.add_0_l.
    destruct (float_of_Z_pos qb ltac:(lia)) as [m [-> _]]. reflexivity.
  - change (float_of_Z 0) with 0%float. rewrite Prim2SF_zero, Z.add_0_r.
    destruct (float_of_Z_pos qa ltac:(lia)) as [m [-> _]]. reflexivity.
  - rewrite <- Pos2Z.inj_add.
    apply is_int_SF_unique with false (qa + qb)%positive;
      [| apply float_of_Z_pos; lia].
    destruct (is_int_SF_digits _ false qa ltac:(lia) (float_of_Z_pos qa ltac:(lia)))
      as [ma [ea [-> [Hea [Hma _]]]]].
    destruct (is_int_SF_digits _ false qb ltac:(lia) (float_of_Z_pos qb ltac:(lia)))
      as [mb [eb [-> [Heb [Hmb _]]]]].
    unfold SF64add, SFadd. cbn [cond_Zopp].
    set (ez := Z.min ea eb).
    assert (Hal : forall m e q, Zpos m = Zpos q * 2 ^ (- e) -> ez <= e <= 0 ->
              Zpos (fst (shl_align m e ez)) = Zpos q * 2 ^ (- ez)).
    { intros m e q Hm He. unfold shl_align.
      destruct (ez - e) as [| d | d] eqn:Ed; cbn [fst].
      - replace ez with e by lia. exact Hm.
      - lia.
      - rewrite iter_xO_pow, Hm, <- Z.mul_assoc, <- Z.pow_add_r by lia.
        f_equal. f_equal. lia. }
    rewrite (Hal ma ea qa Hma ltac:(unfold ez; lia)).
    rewrite (Hal mb eb qb Hmb ltac:(unfold ez; lia)).
    assert (Hpz : 0 < 2 ^ (- ez)) by (apply Z.pow_pos_nonneg; unfold ez; lia).
    destruct (Zpos qa * 2 ^ (- ez) + Zpos qb * 2 ^ (- ez)) as [| M | M] eqn:EM; try lia.
    cbn [binary_normalize]. apply binary_round_int; [unfold ez; lia | lia |].
    rewrite Pos2Z.inj_add. lia.
Qed.

(** *** Floats in the unit interval, and products with a small integer *)

Lemma SFleb_finite_pos (m1 m2 : positive) (e1 e2 : Z) :
  SFleb (S754_finite false m1 e1) (S754_finite false m2 e2) = true ->
  e1 < e2 \/ (e1 = e2 /\ Zpos m1 <= Zpos m2).
Proof.
  unfold SFleb, SFcompare.
  destruct (Z.compare_spec e1 e2) as [He | He | He]; intros H.
  - right. split; [exact He |].
    rewrite Pos.compare_cont_spec in H. unfold Pos.switch_Eq in H.
    destruct (Pos.compare_spec m1 m2) as [Hm | Hm | Hm]; [| | discriminate].
    + rewrite Hm. apply Z.le_refl.
    + apply Z.lt_le_incl. exact Hm.
  - left. exact He.
  - discriminate.
Qed.

Lemma unit_interval_SF (v : float) :
  (0 <=? v)%float = true -> (v <=? 1)%float = true ->
  (exists s, Prim2SF v = S754_zero s) \/
  (exists m e, Prim2SF v = S754_finite false m e /\ e <= -52 /\
               Zpos m <= 2 ^ (- e)).
Proof.
  rewrite !leb_spec, Prim2SF_zero, Prim2SF_one.
  pose proof (Prim2SF_valid v) as Hv.
  destruct (Prim2SF v) as [s | s | | s m e]; intros H0 H1.
  - left. exists s. reflexivity.
  - destruct s; discriminate.
  - discriminate.
  - right. destruct s; [discriminate |]. exists m, e. split; [reflexivity |].
    cbn [SpecFloat.valid_binary] in Hv. unfold bounded, canonical_mantissa in Hv.
    apply andb_prop in Hv as [Hc _]. apply Z.eqb_eq in Hc. rewrite fexp_eq in Hc.
    pose proof (digits2_pos_bounds m) as [_ Bhi].
    apply SFleb_finite_pos in H1 as [He | [-> Hm]].
    + split; [lia |].
      assert (2 ^ Zpos (digits2_pos m) <= 2 ^ (- e))
        by (apply Z.pow_le_mono_r; lia).
      lia.
    + split; [lia |].
      replace (- -52) with 52 by reflexivity. rewrite pow2_52. exact Hm.
Qed.

Lemma shiftl_nonpos (a e : Z) : e <= 0 -> Z.shiftl a e = a / 2 ^ (- e).
Proof.
  intros He. rewrite <- (Z.opp_involutive e) at 1.
  rewrite Z.shiftl_opp_r. apply Z.shiftr_div_pow2. lia.
Qed.

Lemma trunc_below (N : Z) (m : positive) (e : Z) :
  below N (Zpos m) e ->
  exists b, trunc_SF (S754_finite false m e) = Some b /\ 0 <= b <= N.
Proof.
  intros [He [_ Hm]]. cbn [trunc_SF cond_Zopp]. eexists. split; [reflexivity |].
  rewrite shiftl_nonpos by exact He.
  assert (0 < 2 ^ (- e)) by (apply Z.pow_pos_nonneg; lia).
  split.
  - apply Z.div_pos; lia.
  - apply Z.div_le_upper_bound; lia.
Qed.

(** The product of a float of the unit interval with a small positive
    integer, rounded and then truncated, lies between 0 and that integer. *)
Lemma mul_unit_interval (v : float) (n : Z) :
  (0 <=? v)%float = true -> (v <=? 1)%float = true -> 0 < n < 2 ^ 53 ->
  exists b, py_int_of_float (v * float_of_Z n) = Ok b /\ 0 <= b <= n.
Proof.
  intros H0 H1 Hn. destruct n as [| q | q]; try lia.
  unfold py_int_of_float. rewrite mul_spec.
  destruct (is_int_SF_digits _ false q ltac:(lia) (float_of_Z_pos q ltac:(lia)))
    as [mn [en [-> [Hen [Hmn _]]]]].
  destruct (unit_interval_SF v H0 H1) as [[s ->] | [m [e [-> [He Hm]]]]].
  - exists 0. cbn. split; [reflexivity | lia].
  - unfold SF64mul, SFmul. cbn [xorb].
    assert (Hb : below (Zpos q) (Zpos (m * mn)) (e + en)).
    { split; [lia |]. split; [lia |].
      replace (- (e + en)) with (- e + - en) by lia.
      rewrite Z.pow_add_r, Pos2Z.inj_mul, Hmn by lia.
      assert (0 < 2 ^ (- en)) by (apply Z.pow_pos_nonneg; lia).
      nia. }
    pose proof (binary_round_aux_below (Zpos q) ltac:(lia) ltac:(lia)
                  false (Zpos (m * mn)) (e + en) Hb) as Hr.
    destruct (binary_round_aux prec emax false (Zpos (m * mn)) (e + en) loc_Exact)
      as [s' | s' | | s' m' e']; try contradiction.
    + exists 0. cbn. split; [reflexivity | lia].
    + destruct Hr as [-> Hb']. destruct (trunc_below _ _ _ Hb') as [b [-> Hb2]].
      exists b. split; [reflexivity | exact Hb2].
Qed.

(** *** Converted integers are never zero unless the integer is *)

(** A mantissa of 54 bits or more is shifted down to 53 bits. *)
Lemma shr_fexp_big (p : positive) (e : Z) :
  2 ^ 53 <= Zpos p -> 0 <= e ->
  exists y, shr_fexp prec emax (Zpos p) e loc_Exact
            = (y, e + (Zpos (digits2_pos p) - 53)) /\
            2 ^ 52 <= shr_m y < 2 ^ 53.
Proof.
  intros Hp He. pose proof (digits2_pos_bounds p) as [Blo Bhi].
  assert (Hd : 53 < Zpos (digits2_pos p)).
  { destruct (Z_lt_le_dec 53 (Zpos (digits2_pos p))) as [H | H]; [exact H |].
    exfalso. assert (2 ^ Zpos (digits2_pos p) <= 2 ^ 53)
      by (apply Z.pow_le_mono_r; lia). lia. }
  destruct (shr_fexp_exact (Zpos p) e ltac:(lia)) as [[Hk _] | [Hk [y [E [Sm _]]]]];
    cbn [Zdigits2] in *; rewrite fexp_eq in *; [lia |].
  replace (Z.max (Zpos (digits2_pos p) + e - 53) (-1074) - e)
    with (Zpos (digits2_pos p) - 53) in * by lia.
  exists y. split; [exact E |]. cbn [shr_m] in Sm. rewrite Sm.
  set (k := Zpos (digits2_pos p) - 53) in *.
  assert (Hpk : 0 < 2 ^ k) by (apply Z.pow_pos_nonneg; lia).
  split.
  - apply Z.div_le_lower_bound; [exact Hpk |].
    rewrite <- Z.pow_add_r by lia.
    replace (k + 52) with (Zpos (digits2_pos p) - 1) by (unfold k; lia). exact Blo.
  - apply Z.div_lt_upper_bound; [exact Hpk |].
    rewrite <- Z.pow_add_r by lia.
    replace (k + 53) with (Zpos (digits2_pos p)) by (unfold k; lia). exact Bhi.
Qed.

Lemma bounded_53 (m : positive) (e : Z) :
  Zpos (digits2_pos m) = 53 -> -1074 <= e <= 971 -> bounded prec emax m e = true.
Proof.
  intros Hd He. unfold bounded, canonical_mantissa. rewrite fexp_eq, Hd.
  apply andb_true_intro. split.
  - apply Z.eqb_eq. lia.
  - apply Z.leb_le. change (emax - prec) with 971. lia.
Qed.

Lemma binary_round_nonzero (s : bool) (q : positive) :
  finite_or_infinite (binary_round prec emax s q 0).
Proof.
  destruct (Z_lt_le_dec (Zpos q) (2 ^ 53)) as [Hq | Hq].
  - assert (H : is_int_SF (binary_round prec emax s q 0) s q).
    { apply binary_round_int; [lia | exact Hq |].
      change (- 0) with 0. rewrite Z.pow_0_r. lia. }
    pose proof (is_int_SF_valid _ _ _ Hq H) as Hv.
    destruct H as [m [E _]]. rewrite E in *. exact Hv.
  - pose proof (digits2_pos_bounds q) as [Blo Bhi].
    assert (Hd : 53 < Zpos (digits2_pos q)).
    { destruct (Z_lt_le_dec 53 (Zpos (digits2_pos q))) as [H | H]; [exact H |].
      exfalso. assert (2 ^ Zpos (digits2_pos q) <= 2 ^ 53)
        by (apply Z.pow_le_mono_r; lia). lia. }
    unfold binary_round, shl_align. rewrite fexp_eq.
    destruct (Z.max (Zpos (digits2_pos q) + 0 - 53) (-1074) - 0) as [| d | d] eqn:Ed;
      try lia; cbv beta iota.
    unfold binary_round_aux.
    destruct (shr_fexp_big q 0 Hq ltac:(lia)) as [y [-> Hy]].
    pose proof (round_nearest_even_bounds y) as [Rlo Rhi].
    set (m2 := round_nearest_even (shr_m y) (loc_of_shr_record y)) in *.
    set (e1 := 0 + (Zpos (digits2_pos q) - 53)) in *.
    assert (Hm2 : 2 ^ 52 <= m2 <= 2 ^ 53) by (destruct (inexact y); lia).
    assert (0 < 2 ^ 52) by (apply Z.pow_pos_nonneg; lia).
    destruct m2 as [| p2 | p2] eqn:Em2; try lia.
    destruct (Z_lt_le_dec (Zpos p2) (2 ^ 53)) as [Hlt | Hge].
    + assert (Hd2 : Zpos (digits2_pos p2) = 53)
        by (apply digits2_pos_unique; change (53 - 1) with 52; lia).
      rewrite (shr_fexp_53 p2 e1 Hd2 ltac:(unfold e1; lia)). cbn [shr_m].
      change (emax - prec) with 971.
      destruct (Z.leb_spec e1 971); cbn [finite_or_infinite]; [| exact I].
      apply bounded_53; [exact Hd2 | unfold e1 in *; lia].
    + destruct (shr_fexp_big p2 e1 Hge ltac:(unfold e1; lia)) as [z [-> Hz]].
      destruct (shr_m z) as [| p3 | p3] eqn:Ez; try lia.
      assert (Hd3 : Zpos (digits2_pos p3) = 53)
        by (apply digits2_pos_unique; change (53 - 1) with 52; lia).
      change (emax - prec) with 971.
      match goal with |- context [?a <=? 971] => destruct (Z.leb_spec a 971) end;
        cbn [finite_or_infinite]; [| exact I].
      apply bounded_53; [exact Hd3 | unfold e1 in *; lia].
Qed.

Lemma py_float_of_int_nonzero (z : Z) (f : float) :
  z <> 0 -> py_float_of_int z = Ok f -> (f =? 0)%float = false.
Proof.
  intros Hz. unfold py_float_of_int.
  assert (H : finite_or_infinite (binary_normalize prec emax z 0 false)).
  { destruct z as [| q | q]; [contradiction | |]; apply binary_round_nonzero. }
  destruct (binary_normalize prec emax z 0 false) as [? | ? | | s m e];
    try contradiction; try discriminate.
  intros Hf. replace f with (SF2Prim (S754_finite s m e)) by congruence.
  rewrite FloatAxioms.eqb_spec, Prim2SF_zero.
  rewrite Prim2SF_SF2Prim by exact H. destruct s; reflexivity.
Qed.

(** A float above zero is not zero. *)
Lemma ltb_0_not_zero (x : float) :
  (0 <? x)%float = true -> (x =? 0)%float = false.
Proof.
  rewrite ltb_spec, FloatAxioms.eqb_spec, Prim2SF_zero.
  destruct (Prim2SF x) as [s | [] | | [] m e]; cbn; congruence.
Qed.

End Binary64.

(** ** Rounding in a format of any precision

    [P] bits of precision and the exponent range of [em]: a value that lies
    between two floats of the format is rounded to a float between them. *)

Section AnyFormat.

Variables P em : Z.

Lemma shr_fexp_any_exact (m e : Z) :
  0 <= m ->
  let k := fexp P em (Zdigits2 m + e) - e in
  (k <= 0 /\
   shr_fexp P em m e loc_Exact = (Build_shr_record m false false, e)) \/
  (0 < k /\ exists y, shr_fexp P em m e loc_Exact = (y, e + k) /\
     shifted k (Build_shr_record m false false) y).
Proof.
  intros Hm k. unfold shr_fexp. fold k. cbn [shr_record_of_loc].
  destruct k as [| q | q] eqn:Ek; cbn [shr].
  - left. split; [lia | reflexivity].
  - right. split; [lia |]. eexists. split; [reflexivity |].
    apply iter_shr_1. exact Hm.
  - left. split; [lia | reflexivity].
Qed.

Variables lo hi t : Z.
Hypothesis P_pos : 0 < P.
Hypothesis lo_pos : 0 < lo.
Hypothesis hi_small : hi < 2 ^ P.
Hypothesis t_min : 3 - em - P <= t.
Hypothesis t_max : t <= em - P.

Lemma shr_fexp_between (m e : Z) :
  between lo hi t m e ->
  exists y e', shr_fexp P em m e loc_Exact = (y, e') /\
    e' <= t /\ lo * 2 ^ (t - e') <= shr_m y /\
    shr_m y + (if inexact y then 1 else 0) <= hi * 2 ^ (t - e').
Proof.
  intros [He [Hlo Hhi]].
  assert (Hpe : 0 < 2 ^ (t - e)) by (apply Z.pow_pos_nonneg; lia).
  assert (Hm : 0 <= m) by nia.
  destruct (shr_fexp_any_exact m e Hm) as [[Hk E] | [Hk [y [E [Sm Si]]]]].
  - exists (Build_shr_record m false false), e. rewrite E.
    cbn [shr_m inexact shr_r shr_s orb]. repeat split; try lia.
  - set (k := fexp P em (Zdigits2 m + e) - e) in *.
    assert (He' : e + k <= t).
    { unfold k, fexp, emin.
      assert (Zdigits2 m <= P + (t - e)).
      { apply Zdigits2_nonneg_bound; try lia.
        rewrite Z.pow_add_r by lia. nia. }
      lia. }
    exists y, (e + k). rewrite E. cbn [shr_m inexact shr_r shr_s orb] in Sm, Si.
    assert (Hpk : 0 < 2 ^ k) by (apply Z.pow_pos_nonneg; lia).
    assert (Hpe' : 0 < 2 ^ (t - (e + k))) by (apply Z.pow_pos_nonneg; lia).
    assert (Hsplit : 2 ^ (t - e) = 2 ^ (t - (e + k)) * 2 ^ k).
    { rewrite <- Z.pow_add_r by lia. f_equal. lia. }
    pose proof (Z.div_mod m (2 ^ k) ltac:(lia)) as Hdm.
    pose proof (Z.mod_pos_bound m (2 ^ k) ltac:(lia)) as Hmb.
    assert (0 <= m / 2 ^ k) by (apply Z.div_pos; lia).
    split; [reflexivity |]. split; [exact He' |].
    rewrite Si, Sm. cbn [orb]. rewrite Hsplit in Hlo, Hhi.
    set (a := 2 ^ (t - (e + k))) in *. set (b := 2 ^ k) in *.
    set (q := m / b) in *. set (r := m mod b) in *.
    split.
    + destruct (Z_lt_le_dec q (lo * a)) as [Hlt | Hge]; [exfalso | exact Hge].
      assert ((q + 1) * b <= lo * a * b) by nia. nia.
    + destruct (Z.eqb_spec r 0) as [E0 | E0]; cbn [negb].
      * rewrite Z.add_0_r.
        destruct (Z_le_gt_dec q (hi * a)) as [Hle | Hgt]; [exact Hle | exfalso].
        assert ((hi * a + 1) * b <= q * b) by nia. nia.
      * destruct (Z_le_gt_dec (q + 1) (hi * a)) as [Hle | Hgt]; [exact Hle | exfalso].
        assert (hi * a * b <= q * b) by nia. nia.
Qed.

(** Rounding a value between [lo * 2^t] and [hi * 2^t], two floats of the
    format, gives a finite float between them. *)
Lemma binary_round_aux_between (s : bool) (m e : Z) :
  between lo hi t m e ->
  exists m' e', binary_round_aux P em s m e loc_Exact = S754_finite s m' e'
                /\ between lo hi t (Zpos m') e'.
Proof.
  intros Hb. unfold binary_round_aux.
  destruct (shr_fexp_between m e Hb) as [y [e1 [E1 [He1 [Hylo Hyhi]]]]].
  rewrite E1.
  pose proof (round_nearest_even_bounds y) as [Rlo Rhi].
  set (m2 := round_nearest_even (shr_m y) (loc_of_shr_record y)) in *.
  assert (Hb2 : between lo hi t m2 e1) by (split; [exact He1 | lia]).
  destruct (shr_fexp_between m2 e1 Hb2) as [z [e2 [E2 [He2 [Hzlo Hzhi]]]]].
  rewrite E2.
  assert (0 < 2 ^ (t - e2)) by (apply Z.pow_pos_nonneg; lia).
  destruct (shr_m z) as [| p | p] eqn:Ez; try nia.
  replace (e2 <=? em - P) with true by (symmetry; apply Z.leb_le; lia).
  exists p, e2. split; [reflexivity |]. split; [exact He2 |].
  destruct (inexact z); lia.
Qed.

Lemma shl_align_down (m : positive) (e e' : Z) :
  e' <= e ->
  snd (shl_align m e e') <= e /\
  Zpos (fst (shl_align m e e'))
  = Zpos m * 2 ^ (e - snd (shl_align m e e')).
Proof.
  intros He. unfold shl_align.
  destruct (e' - e) as [| d | d] eqn:Ed; cbn [fst snd]; try lia.
  - rewrite Z.sub_diag. cbn. lia.
  - split; [lia |]. rewrite iter_xO_pow. f_equal. f_equal. lia.
Qed.

Lemma shl_align_any (m : positive) (e e' : Z) :
  snd (shl_align m e e') <= e /\
  Zpos (fst (shl_align m e e'))
  = Zpos m * 2 ^ (e - snd (shl_align m e e')).
Proof.
  unfold shl_align.
  destruct (e' - e) as [| d | d] eqn:Ed; cbn [fst snd].
  - rewrite Z.sub_diag. cbn. lia.
  - rewrite Z.sub_diag. cbn. lia.
  - split; [lia |]. rewrite iter_xO_pow. f_equal. f_equal. lia.
Qed.

Lemma between_shift (m m' e e' : Z) :
  e' <= e -> m' = m * 2 ^ (e - e') ->
  between lo hi t m e -> between lo hi t m' e'.
Proof.
  intros He -> [Het [Hlo Hhi]]. split; [lia |].
  assert (0 < 2 ^ (e - e')) by (apply Z.pow_pos_nonneg; lia).
  replace (t - e') with ((t - e) + (e - e')) by lia.
  rewrite Z.pow_add_r by lia. nia.
Qed.

Lemma binary_round_between (s : bool) (m : positive) (e : Z) :
  between lo hi t (Zpos m) e ->
  exists m' e', binary_round P em s m e = S754_finite s m' e'
                /\ between lo hi t (Zpos m') e'.
Proof.
  intros Hb. unfold binary_round.
  pose proof (shl_align_any m e (fexp P em (Zpos (digits2_pos m) + e)))
    as [He Hm].
  destruct (shl_align m e (fexp P em (Zpos (digits2_pos m) + e))) as [mz ez].
  cbn [fst snd] in He, Hm.
  apply binary_round_aux_between.
  exact (between_shift _ _ _ _ He Hm Hb).
Qed.

(** The sum of two positive floats whose exact value lies between
    [lo * 2^t] and [hi * 2^t]. *)
Lemma SFadd_between (mx my : positive) (ex ey : Z) :
  between lo hi t
    (Zpos mx * 2 ^ (ex - Z.min ex ey) + Zpos my * 2 ^ (ey - Z.min ex ey))
    (Z.min ex ey) ->
  exists m' e',
    SFadd P em (S754_finite false mx ex) (S754_finite false my ey)
    = S754_finite false m' e'
    /\ between lo hi t (Zpos m') e'.
Proof.
  intros Hb. unfold SFadd. cbn [cond_Zopp].
  set (ez := Z.min ex ey) in *.
  pose proof (shl_align_down mx ex ez ltac:(lia)) as [_ Hx].
  pose proof (shl_align_down my ey ez ltac:(lia)) as [_ Hy].
  assert (Sx : snd (shl_align mx ex ez) = ez).
  { unfold shl_align. destruct (ez - ex) eqn:E; cbn [snd]; lia. }
  assert (Sy : snd (shl_align my ey ez) = ez).
  { unfold shl_align. destruct (ez - ey) eqn:E; cbn [snd]; lia. }
  rewrite Sx in Hx. rewrite Sy in Hy.
  set (ax := fst (shl_align mx ex ez)) in *.
  set (ay := fst (shl_align my ey ez)) in *.
  change (Zpos ax + Zpos ay) with (Zpos (ax + ay)). cbn [binary_normalize].
  apply binary_round_between. rewrite Pos2Z.inj_add, Hx, Hy. exact Hb.
Qed.

End AnyFormat.

(** ** [floor(p + 0.5)] on a probability, in either float type *)

Lemma Prim2SF_half : Prim2SF 0.5 = S754_finite false 4503599627370496 (-53).
Proof. vm_compute. reflexivity. Qed.

Lemma floor_between_one (P : Z) (m : positive) (e : Z) :
  2 <= P ->
  between (2 ^ (P - 1)) (2 ^ P - 1) (1 - P) (Zpos m) e ->
  e < 0 /\ Z.shiftl (Zpos m) e = 1.
Proof.
  intros HP [He [Hlo Hhi]]. split; [lia |].
  rewrite shiftl_nonpos by lia.
  assert (Ha : 0 < 2 ^ (1 - P - e)) by (apply Z.pow_pos_nonneg; lia).
  assert (Hp : 0 < 2 ^ (P - 1)) by (apply Z.pow_pos_nonneg; lia).
  assert (E1 : 2 ^ (- e) = 2 ^ (P - 1) * 2 ^ (1 - P - e)).
  { rewrite <- Z.pow_add_r by lia. f_equal. lia. }
  assert (E2 : 2 ^ P = 2 * 2 ^ (P - 1)).
  { rewrite <- Z.pow_succ_r by lia. f_equal. lia. }
  rewrite E1. rewrite E2 in Hhi.
  set (a := 2 ^ (1 - P - e)) in *. set (b := 2 ^ (P - 1)) in *.
  symmetry. apply Z.div_unique with (Zpos m - b * a); [left; nia | lia].
Qed.

Lemma floor_between_zero (P : Z) (m : positive) (e : Z) :
  1 <= P ->
  between (2 ^ (P - 1)) (2 ^ P - 1) (- P) (Zpos m) e ->
  e < 0 /\ Z.shiftl (Zpos m) e = 0.
Proof.
  intros HP [He [Hlo Hhi]]. split; [lia |].
  rewrite shiftl_nonpos by lia.
  assert (Ha : 0 < 2 ^ (- P - e)) by (apply Z.pow_pos_nonneg; lia).
  assert (Hp : 0 < 2 ^ P) by (apply Z.pow_pos_nonneg; lia).
  assert (E1 : 2 ^ (- e) = 2 ^ P * 2 ^ (- P - e)).
  { rewrite <- Z.pow_add_r by lia. f_equal. lia. }
  rewrite E1.
  set (a := 2 ^ (- P - e)) in *. set (b := 2 ^ P) in *.
  apply Z.div_small. nia.
Qed.

Section AddHalf.

Variables P em : Z.
Hypothesis P_bounds : 2 <= P <= 53.
Hypothesis em_bound : 3 <= em.

(** A probability of at least 0.5: the sum lies between 1 and 1.5. *)
Lemma add_half_upper (m : positive) (e : Z) :
  -53 <= e <= -52 -> 2 ^ 52 <= Zpos m -> Zpos m <= 2 ^ (- e) ->
  exists m' e',
    SFadd P em (S754_finite false m e) (S754_finite false 4503599627370496 (-53))
    = S754_finite false m' e'
    /\ e' < 0 /\ Z.shiftl (Zpos m') e' = 1.
Proof.
  intros He Hlo Hhi.
  assert (Hp : 0 < 2 ^ (P - 1)) by (apply Z.pow_pos_nonneg; lia).
  assert (E2 : 2 ^ P = 2 * 2 ^ (P - 1)).
  { rewrite <- Z.pow_succ_r by lia. f_equal. lia. }
  assert (E3 : 2 ^ (P - 1) * 2 ^ (54 - P) = 2 ^ 53).
  { rewrite <- Z.pow_add_r by lia. f_equal. lia. }
  assert (E4 : 2 ^ (54 - P) <= 2 ^ 52) by (apply Z.pow_le_mono_r; lia).
  assert (E5 : 0 < 2 ^ (54 - P)) by (apply Z.pow_pos_nonneg; lia).
  destruct (SFadd_between P em (2 ^ (P - 1)) (2 ^ P - 1) (1 - P)
              ltac:(lia) Hp ltac:(lia) ltac:(lia) ltac:(lia) m 4503599627370496 e (-53))
    as (m' & e' & E & Hb).
  { replace (Z.min e (-53)) with (-53) by lia.
    replace (-53 - -53) with 0 by lia. rewrite Z.pow_0_r, Z.mul_1_r.
    rewrite <- pow2_52.
    split; [lia |].
    replace (1 - P - -53) with (54 - P) by lia.
    assert (Hs : 2 ^ 52 <= Zpos m * 2 ^ (e - -53) <= 2 ^ 53).
    { assert (e = -53 \/ e = -52) as [-> | ->] by lia.
      - replace (-53 - -53) with 0 by lia. rewrite Z.pow_0_r.
        replace (- -53) with 53 in Hhi by lia. lia.
      - replace (-52 - -53) with 1 by lia. rewrite Z.pow_1_r.
        replace (- -52) with 52 in Hhi by lia. lia. }
    change (2 ^ 53) with (2 * 2 ^ 52) in *.
    set (h := 2 ^ 52) in *. set (x := Zpos m * 2 ^ (e - -53)) in *.
    set (c := 2 ^ (54 - P)) in *. set (b := 2 ^ (P - 1)) in *.
    rewrite E2. nia. }
  exists m', e'. split; [exact E |].
  apply (floor_between_one P); [lia | exact Hb].
Qed.

(** A probability below 0.5 whose sum with 0.5 is at most the largest float
    below 1. *)
Lemma add_half_lower (m : positive) (e : Z) :
  e <= -54 ->
  Zpos m + 2 ^ (54 - P) * 2 ^ (- 54 - e) <= 2 ^ 53 * 2 ^ (- 54 - e) ->
  exists m' e',
    SFadd P em (S754_finite false m e) (S754_finite false 4503599627370496 (-53))
    = S754_finite false m' e'
    /\ e' < 0 /\ Z.shiftl (Zpos m') e' = 0.
Proof.
  intros He Hm.
  assert (Hp : 0 < 2 ^ (P - 1)) by (apply Z.pow_pos_nonneg; lia).
  assert (E2 : 2 ^ P = 2 * 2 ^ (P - 1)).
  { rewrite <- Z.pow_succ_r by lia. f_equal. lia. }
  assert (E3 : 2 ^ (P - 1) * 2 ^ (54 - P) = 2 ^ 53).
  { rewrite <- Z.pow_add_r by lia. f_equal. lia. }
  assert (E5 : 0 < 2 ^ (54 - P)) by (apply Z.pow_pos_nonneg; lia).
  assert (Ha : 0 < 2 ^ (- 54 - e)) by (apply Z.pow_pos_nonneg; lia).
  destruct (SFadd_between P em (2 ^ (P - 1)) (2 ^ P - 1) (- P)
              ltac:(lia) Hp ltac:(lia) ltac:(lia) ltac:(lia) m 4503599627370496 e (-53))
    as (m' & e' & E & Hb).
  { replace (Z.min e (-53)) with e by lia.
    rewrite Z.sub_diag, Z.pow_0_r, Z.mul_1_r. rewrite <- pow2_52.
    split; [lia |].
    replace (-53 - e) with (1 + (- 54 - e)) by lia.
    replace (- P - e) with ((54 - P) + (- 54 - e)) by lia.
    rewrite !Z.pow_add_r by lia. rewrite Z.pow_1_r.
    change (2 ^ 53) with (2 * 2 ^ 52) in *.
    set (h := 2 ^ 52) in *. set (a := 2 ^ (- 54 - e)) in *.
    set (c := 2 ^ (54 - P)) in *. set (b := 2 ^ (P - 1)) in *.
    rewrite E2. nia. }
  exists m', e'. split; [exact E |].
  apply (floor_between_zero P); [lia | exact Hb].
Qed.

End AddHalf.

Lemma SFleb_finite_pos_eq (m1 m2 : positive) (e1 e2 : Z) :
  SFleb (S754_finite false m1 e1) (S754_finite false m2 e2)
  = if e1 <? e2 then true
    else if e1 =? e2 then Zpos m1 <=? Zpos m2 else false.
Proof.
  unfold SFleb, SFcompare.
  destruct (Z.compare_spec e1 e2) as [He | He | He].
  - subst e2. rewrite Z.ltb_irrefl, Z.eqb_refl.
    rewrite Pos.compare_cont_spec. unfold Pos.switch_Eq.
    destruct (Pos.compare_spec m1 m2) as [Hm | Hm | Hm].
    + subst m2. rewrite Z.leb_refl. reflexivity.
    + symmetry. apply Z.leb_le. apply Z.lt_le_incl. exact Hm.
    + symmetry. apply Z.leb_gt. exact Hm.
  - destruct (Z.ltb_spec e1 e2); [reflexivity | lia].
  - destruct (Z.ltb_spec e1 e2); [lia |].
    destruct (Z.eqb_spec e1 e2); [lia | reflexivity].
Qed.

Lemma SFeqb_finite_pos (m1 m2 : positive) (e1 e2 : Z) :
  SFeqb (S754_finite false m1 e1) (S754_finite false m2 e2)
  = (e1 =? e2) && (Zpos m1 =? Zpos m2).
Proof.
  unfold SFeqb, SFcompare.
  destruct (Z.compare_spec e1 e2) as [He | He | He].
  - subst e2. rewrite Z.eqb_refl. cbn [andb].
    rewrite Pos.compare_cont_spec. unfold Pos.switch_Eq.
    destruct (Pos.compare_spec m1 m2) as [Hm | Hm | Hm].
    + subst m2. rewrite Z.eqb_refl. reflexivity.
    + symmetry. apply Z.eqb_neq. lia.
    + symmetry. apply Z.eqb_neq. lia.
  - destruct (Z.eqb_spec e1 e2); [lia | reflexivity].
  - destruct (Z.eqb_spec e1 e2); [lia | reflexivity].
Qed.

(** A probability, as sign, mantissa and exponent: a zero, or a positive
    mantissa below [2^53] (of 53 bits unless the float is subnormal) at an
    exponent of at most -52, with a value of at most 1. *)
Lemma probability_SF (p : float) :
  Auc.probability p ->
  (exists s, Prim2SF p = S754_zero s) \/
  (exists m e, Prim2SF p = S754_finite false m e /\ e <= -52 /\
     Zpos m <= 2 ^ (- e) /\ Zpos m < 2 ^ 53 /\
     (-1074 < e -> 2 ^ 52 <= Zpos m)).
Proof.
  intros [H0 H1]. pose proof (Prim2SF_valid p) as Hv.
  destruct (unit_interval_SF p H0 H1) as [Hz | [m [e [Ev [He Hm]]]]];
    [left; exact Hz | right].
  exists m, e. rewrite Ev in Hv.
  cbn [SpecFloat.valid_binary] in Hv. unfold bounded, canonical_mantissa in Hv.
  apply andb_prop in Hv as [Hc _]. apply Z.eqb_eq in Hc. rewrite fexp_eq in Hc.
  pose proof (digits2_pos_bounds m) as [Blo Bhi].
  assert (Hd : Zpos (digits2_pos m) <= 53) by lia.
  repeat split; try assumption.
  - assert (2 ^ Zpos (digits2_pos m) <= 2 ^ 53) by (apply Z.pow_le_mono_r; lia).
    lia.
  - intros Hn. assert (Ed : Zpos (digits2_pos m) = 53) by lia.
    rewrite Ed in Blo. exact Blo.
Qed.

Lemma SFadd_zero_l (P em : Z) (s s' : bool) (m : positive) (e : Z) :
  SFadd P em (S754_zero s) (S754_finite s' m e) = S754_finite s' m e.
Proof. reflexivity. Qed.

Lemma SFleb_finite_zero (s : bool) (m : positive) (e : Z) :
  SFleb (S754_finite false m e) (S754_zero s) = false.
Proof. reflexivity. Qed.

Lemma SFeqb_zero_finite (s : bool) (m : positive) (e : Z) :
  SFeqb (S754_zero s) (S754_finite false m e) = false.
Proof. reflexivity. Qed.

Lemma Prim2SF_below_half64 :
  Prim2SF below_half64 = S754_finite false 9007199254740991 (-54).
Proof. vm_compute. reflexivity. Qed.

Lemma Prim2SF_below_half32 :
  Prim2SF below_half32 = S754_finite false 9007198717870080 (-54).
Proof. vm_compute. reflexivity. Qed.

Lemma pow2_53 : 2 ^ 53 = 9007199254740992.
Proof. reflexivity. Qed.

Lemma Precision_decision_below_half64 : Precision.decision below_half64 = 1.
Proof. vm_compute. reflexivity. Qed.

Lemma Precision_decision32_below_half32 : Precision.decision32 below_half32 = 1.
Proof. vm_compute. reflexivity. Qed.

Lemma astype_int32_of_0 : astype_int32 (float_of_Z 0) = 0.
Proof. vm_compute. reflexivity. Qed.

Lemma astype_int32_of_1 : astype_int32 (float_of_Z 1) = 1.
Proof. vm_compute. reflexivity. Qed.

Lemma Precision_floor_half : astype_int32 (np_floor 0.5) = 0.
Proof. vm_compute. reflexivity. Qed.

Lemma Precision_floor32_half :
  astype_int32 (np_floor32 (S754_finite false 4503599627370496 (-53))) = 0.
Proof. vm_compute. reflexivity. Qed.

Section DecisionOfProbability.

Variables P em : Z.
Hypothesis P_bounds : 2 <= P <= 53.
Hypothesis em_bound : 3 <= em.

(** The floor of the sum of a positive probability and 0.5, rounded to [P]
    bits: 1 from 0.5 on, and 0 below it as long as the probability is not
    above [0.5 - 2^-P]. *)
Lemma floor_add_half (m : positive) (e : Z) :
  e <= -52 -> Zpos m <= 2 ^ (- e) -> Zpos m < 2 ^ 53 ->
  (-1074 < e -> 2 ^ 52 <= Zpos m) ->
  (e = -54 -> Zpos m <= 2 ^ 53 - 2 ^ (54 - P)) ->
  exists m' e',
    SFadd P em (S754_finite false m e) (S754_finite false 4503599627370496 (-53))
    = S754_finite false m' e'
    /\ e' < 0
    /\ Z.shiftl (Zpos m') e' = if -53 <=? e then 1 else 0.
Proof.
  intros He Hm Hlt Hn Hx.
  destruct (Z.leb_spec (-53) e) as [Hup | Hdown].
  - apply (add_half_upper P em P_bounds em_bound); [lia | apply Hn; lia | exact Hm].
  - apply (add_half_lower P em P_bounds em_bound); [lia |].
    assert (E4 : 2 ^ (54 - P) <= 2 ^ 52) by (apply Z.pow_le_mono_r; lia).
    assert (E5 : 0 < 2 ^ (54 - P)) by (apply Z.pow_pos_nonneg; lia).
    change (2 ^ 53) with (2 * 2 ^ 52) in *.
    set (h := 2 ^ 52) in *. set (c := 2 ^ (54 - P)) in *.
    destruct (Z.eq_dec e (-54)) as [-> | Hne].
    + change (2 ^ (-54 - -54)) with 1. specialize (Hx eq_refl). lia.
    + assert (Ha : 2 ^ (- 54 - e) = 2 * 2 ^ (- 55 - e)).
      { rewrite <- Z.pow_succ_r by lia. f_equal. lia. }
      assert (0 < 2 ^ (- 55 - e)) by (apply Z.pow_pos_nonneg; lia).
      rewrite Ha. set (a := 2 ^ (- 55 - e)) in *. nia.
Qed.

End DecisionOfProbability.

(** The decision of [Precision] on a probability held in a float64 array:
    1 from 0.5 on and at the largest float below 0.5, where the sum with
    0.5 is rounded up to 1.0; and 0 elsewhere. *)
Lemma Precision_decision_probability (p : float) :
  Auc.probability p ->
  Precision.decision p
  = if ((0.5 <=? p) || (p =? below_half64))%float then 1 else 0.
Proof.
  intros Hp.
  rewrite leb_spec, FloatAxioms.eqb_spec, Prim2SF_half, Prim2SF_below_half64.
  destruct (probability_SF p Hp) as [[s Es] | (m & e & Ep & He & Hm & Hlt & Hn)].
  - rewrite Es, SFleb_finite_zero, SFeqb_zero_finite. cbn [orb].
    unfold Precision.decision.
    replace (p + 0.5)%float with 0.5%float; [exact Precision_floor_half |].
    apply Prim2SF_inj. rewrite add_spec, Es, Prim2SF_half. reflexivity.
  - rewrite Ep, SFleb_finite_pos_eq, SFeqb_finite_pos.
    destruct (Z.eq_dec e (-54)) as [E54 | E54];
      [destruct (Z.eq_dec (Zpos m) 9007199254740991) as [Em | Em] |].
    + assert (p = below_half64) as ->.
      { apply Prim2SF_inj. rewrite Ep, Prim2SF_below_half64. subst e.
        f_equal. apply Pos2Z.inj. exact Em. }
      rewrite Precision_decision_below_half64. subst e. rewrite Em. reflexivity.
    + subst e. rewrite pow2_53 in Hlt.
      destruct (floor_add_half prec emax ltac:(change prec with 53; lia)
                  ltac:(change emax with 1024; lia) m (-54) He Hm
                  ltac:(rewrite pow2_53; exact Hlt) Hn
                  ltac:(intros _; change prec with 53; rewrite pow2_53;
                        change (2 ^ (54 - 53)) with 2; lia))
        as (m' & e' & E & He' & Hs).
      unfold Precision.decision, np_floor. rewrite add_spec, Ep, Prim2SF_half.
      unfold SF64add. rewrite E.
      destruct (Z.leb_spec 0 e') as [? | _]; [lia |].
      cbn [cond_Zopp]. rewrite Hs.
      change (-53 <=? -54) with false. cbv iota.
      rewrite astype_int32_of_0.
      change (-53 <? -54) with false. change (-53 =? -54) with false.
      rewrite Z.eqb_refl. cbn [andb orb].
      destruct (Z.eqb_spec (Zpos m) 9007199254740991) as [? | _];
        [contradiction | reflexivity].
    + destruct (floor_add_half prec emax ltac:(change prec with 53; lia)
                  ltac:(change emax with 1024; lia) m e He Hm Hlt Hn
                  ltac:(intros ?; contradiction))
        as (m' & e' & E & He' & Hs).
      unfold Precision.decision, np_floor. rewrite add_spec, Ep, Prim2SF_half.
      unfold SF64add. rewrite E.
      destruct (Z.leb_spec 0 e') as [? | _]; [lia |].
      cbn [cond_Zopp]. rewrite Hs.
      destruct (Z.eqb_spec e (-54)) as [? | _]; [contradiction |].
      cbn [andb]. rewrite orb_false_r.
      destruct (Z.leb_spec (-53) e) as [Hup | Hdown].
      * rewrite astype_int32_of_1.
        destruct (Z.ltb_spec (-53) e) as [_ | Hge]; [reflexivity |].
        assert (e = -53) by lia. subst e. rewrite Z.eqb_refl.
        specialize (Hn ltac:(lia)). rewrite pow2_52 in Hn.
        destruct (Z.leb_spec 4503599627370496 (Zpos m)); [reflexivity | lia].
      * rewrite astype_int32_of_0.
        destruct (Z.ltb_spec (-53) e); [lia |].
        destruct (Z.eqb_spec (-53) e); [lia | reflexivity].
Qed.

(** The same on a probability held in a float32 array, where the sum is
    rounded to 24 bits: 1 from 0.5 on and at the largest float32 below 0.5,
    and 0 elsewhere. *)
Lemma Precision_decision32_probability (p : float) :
  Auc.probability p -> fits_float32 p = true ->
  Precision.decision32 p
  = if ((0.5 <=? p) || (p =? below_half32))%float then 1 else 0.
Proof.
  intros Hp Hf.
  rewrite leb_spec, FloatAxioms.eqb_spec, Prim2SF_half, Prim2SF_below_half32.
  unfold Precision.decision32, add32. rewrite Prim2SF_half.
  unfold fits_float32 in Hf.
  destruct (probability_SF p Hp) as [[s Es] | (m & e & Ep & He & Hm & Hlt & Hn)].
  - rewrite Es, SFleb_finite_zero, SFeqb_zero_finite, SFadd_zero_l. cbn [orb].
    exact Precision_floor32_half.
  - rewrite Ep in Hf |- *. rewrite SFleb_finite_pos_eq, SFeqb_finite_pos.
    apply andb_prop in Hf as [_ Hf]. apply Z.eqb_eq in Hf.
    destruct (Z.eq_dec e (-54)) as [E54 | E54];
      [destruct (Z.eq_dec (Zpos m) 9007198717870080) as [Em | Em] |].
    + assert (p = below_half32) as Eb.
      { apply Prim2SF_inj. rewrite Ep, Prim2SF_below_half32. subst e.
        f_equal. apply Pos2Z.inj. exact Em. }
      pose proof Precision_decision32_below_half32 as Hd.
      unfold Precision.decision32, add32 in Hd.
      rewrite Prim2SF_half, <- Eb, Ep in Hd. rewrite Hd.
      subst e. rewrite Em. reflexivity.
    + subst e. rewrite pow2_53 in Hlt.
      change (Z.max 29 (-149 - -54)) with 29 in Hf.
      change (2 ^ 29) with 536870912 in Hf.
      pose proof (Z.div_mod (Zpos m) 536870912 ltac:(lia)) as Hdm.
      rewrite Hf in Hdm.
      destruct (floor_add_half 24 128 ltac:(lia) ltac:(lia) m (-54) He Hm
                  ltac:(rewrite pow2_53; exact Hlt) Hn
                  ltac:(intros _; rewrite pow2_53;
                        change (2 ^ (54 - 24)) with 1073741824; lia))
        as (m' & e' & E & He' & Hs).
      rewrite E. unfold np_floor32. cbn [cond_Zopp]. rewrite Hs.
      change (-53 <=? -54) with false. cbv iota.
      rewrite astype_int32_of_0.
      change (-53 <? -54) with false. change (-53 =? -54) with false.
      rewrite Z.eqb_refl. cbn [andb orb].
      destruct (Z.eqb_spec (Zpos m) 9007198717870080) as [? | _];
        [contradiction | reflexivity].
    + destruct (floor_add_half 24 128 ltac:(lia) ltac:(lia) m e He Hm Hlt Hn
                  ltac:(intros ?; contradiction))
        as (m' & e' & E & He' & Hs).
      rewrite E. unfold np_floor32. cbn [cond_Zopp]. rewrite Hs.
      destruct (Z.eqb_spec e (-54)) as [? | _]; [contradiction |].
      cbn [andb]. rewrite orb_false_r.
      destruct (Z.leb_spec (-53) e) as [Hup | Hdown].
      * rewrite astype_int32_of_1.
        destruct (Z.ltb_spec (-53) e) as [_ | Hge]; [reflexivity |].
        assert (e = -53) by lia. subst e. rewrite Z.eqb_refl.
        specialize (Hn ltac:(lia)). rewrite pow2_52 in Hn.
        destruct (Z.leb_spec 4503599627370496 (Zpos m)); [reflexivity | lia].
      * rewrite astype_int32_of_0.
        destruct (Z.ltb_spec (-53) e); [lia |].
        destruct (Z.eqb_spec (-53) e); [lia | reflexivity].
Qed.

(** Round half up on a probability: 1 from 0.5 on, 0 below. *)
Lemma round_half_up_probability (p : float) :
  Auc.probability p ->
  round_half_up p = if (0.5 <=? p)%float then 1 else 0.
Proof.
  intros Hp. rewrite leb_spec, Prim2SF_half. unfold round_half_up.
  destruct (probability_SF p Hp) as [[s Es] | (m & e & Ep & He & Hm & Hlt & Hn)].
  - rewrite Es, SFleb_finite_zero. reflexivity.
  - rewrite Ep, SFleb_finite_pos_eq.
    destruct (Z.leb_spec 0 e) as [? | _]; [lia |]. cbn [cond_Zopp].
    assert (Hpe : 0 < 2 ^ (- e)) by (apply Z.pow_pos_nonneg; lia).
    assert (E2 : 2 ^ (- e + 1) = 2 * 2 ^ (- e)).
    { rewrite Z.pow_add_r by lia. rewrite Z.pow_1_r. lia. }
    rewrite E2.
    destruct (Z.ltb_spec (-53) e) as [Hup | Hdown];
      [| destruct (Z.eqb_spec (-53) e) as [E53 | E53]].
    + specialize (Hn ltac:(lia)). assert (e = -52) by lia. subst e.
      replace (- -52) with 52 in * by reflexivity.
      symmetry. apply Z.div_unique with (2 * Zpos m - 2 ^ 52); [left | ]; lia.
    + subst e. specialize (Hn ltac:(lia)). rewrite pow2_52 in Hn.
      replace (- -53) with 53 in * by reflexivity. rewrite pow2_53 in *.
      destruct (Z.leb_spec 4503599627370496 (Zpos m)); [| lia].
      symmetry.
      apply Z.div_unique with (2 * Zpos m - 9007199254740992); [left |]; lia.
    + apply Z.div_small.
      assert (2 ^ 54 <= 2 ^ (- e)) by (apply Z.pow_le_mono_r; lia).
      change (2 ^ 54) with (2 * 2 ^ 53) in *. lia.
Qed.


(** ** The method monad *)

Section Monad.

Context {St : Type}.

Lemma bind_ok {A B} (c : Py.M St A) (k : A -> Py.M St B) (s s' : St) (a : A) :
  c s = (Ok a, s') -> Py.bind c k s = k a s'.
Proof. intros E. unfold Py.bind. rewrite E. reflexivity. Qed.

Lemma bind_raise {A B} (c : Py.M St A) (k : A -> Py.M St B) (s s' : St) (e : exn) :
  c s = (Raise e, s') -> Py.bind c k s = (Raise e, s').
Proof. intros E. unfold Py.bind. rewrite E. reflexivity. Qed.

Lemma getitem_lookup {A} (a : list A) (i : nat) (x : A) (s : St) :
  a !! i = Some x -> getitem a i s = (Ok x, s).
Proof. intros E. unfold getitem. rewrite E. reflexivity. Qed.

Lemma for_each_app {I} (xs ys : list I) (body : I -> Py.M St unit) (s : St) :
  Py.for_each (xs ++ ys) body s
  = Py.bind (Py.for_each xs body) (fun _ => Py.for_each ys body) s.
Proof.
  revert s. induction xs as [| x xs IH]; intros s; cbn [app Py.for_each].
  - reflexivity.
  - unfold Py.bind in *. destruct (body x s) as [[[] | e] s1]; [| reflexivity].
    apply IH.
Qed.

(** A loop over the indices of a list whose body only looks at the element
    at its index acts as a fold over the list. *)
Lemma for_each_seq_fold {A} (step : St -> A -> St) (body : list A -> nat -> Py.M St unit) :
  (forall (l : list A) (i : nat) (x : A) (s : St),
      l !! i = Some x -> body l i s = (Ok tt, step s x)) ->
  forall (pre rest : list A) (s : St),
    Py.for_each (seq (length pre) (length rest)) (body (pre ++ rest)) s
    = (Ok tt, fold_left step rest s).
Proof.
  intros Hbody pre rest. revert pre.
  induction rest as [| x rest IH]; intros pre s; cbn [length seq Py.for_each fold_left].
  - reflexivity.
  - rewrite (bind_ok _ _ s (step s x) tt).
    + replace (pre ++ x :: rest) with ((pre ++ [x]) ++ rest)
        by (rewrite <- app_assoc; reflexivity).
      replace (S (length pre)) with (length (pre ++ [x]))
        by (rewrite length_app; cbn; lia).
      apply IH.
    + apply Hbody. rewrite lookup_app_r by lia.
      replace (length pre - length pre)%nat with 0%nat by lia. reflexivity.
Qed.

End Monad.

Lemma lookup_map {A B} (f : A -> B) (l : list A) (i : nat) :
  map f l !! i = option_map f (l !! i).
Proof.
  revert i. induction l as [| x l IH]; intros [| i]; cbn; try reflexivity. apply IH.
Qed.

(** ** [Precision] *)

Lemma Precision_update_arrays (preds : farray) (labels : list Z)
    (s : Precision.state) :
  Precision.update (NdArray preds) (NdArray labels) s
  = Py.for_each (seq 0 (length labels))
      (Precision.update_body (map (Precision.decision_in (dt preds)) (data preds))
                             labels) s.
Proof. reflexivity. Qed.

Lemma Precision_update_body_sample (d : dtype) (samples : list (float * Z))
    (i : nat) (sample : float * Z) (s : Precision.state) :
  samples !! i = Some sample ->
  Precision.update_body (map (Precision.decision_in d) (map fst samples))
                        (map snd samples) i s
  = (Ok tt, Precision.count_sample d s sample).
Proof.
  intros E. destruct sample as [p l]. unfold Precision.update_body.
  rewrite (bind_ok _ _ s s (Precision.decision_in d p));
    [| apply getitem_lookup; rewrite !lookup_map, E; reflexivity].
  rewrite (bind_ok _ _ s s l);
    [| apply getitem_lookup; rewrite lookup_map, E; reflexivity].
  unfold Precision.count_sample.
  destruct (Precision.decision_in d p =? 1); [| reflexivity].
  destruct (Precision.decision_in d p =? l); reflexivity.
Qed.

Lemma Precision_update_samples (d : dtype) (samples : list (float * Z))
    (s : Precision.state) :
  Precision.update (NdArray {| dt := d; data := map fst samples |})
                   (NdArray (map snd samples)) s
  = (Ok tt, fold_left (Precision.count_sample d) samples s).
Proof.
  rewrite Precision_update_arrays. cbn [dt data]. rewrite length_map.
  apply (for_each_seq_fold (Precision.count_sample d)
           (fun l => Precision.update_body
                       (map (Precision.decision_in d) (map fst l)) (map snd l))
           (Precision_update_body_sample d) [] samples s).
Qed.

Lemma Precision_accumulate_zero (s : Precision.state) :
  Precision.tp s + Precision.fp s = 0 -> Precision.accumulate s = (Ok 0%float, s).
Proof.
  intros E. unfold Precision.accumulate, Py.bind, Py.get. rewrite E. reflexivity.
Qed.

(** The quotient of two counters, as [accumulate] computes it. *)
Lemma truediv_counters (t d : Z) :
  0 <= t < 2 ^ 53 -> 0 < d < 2 ^ 53 ->
  result_bind (py_float_of_int t) (fun t' => py_truediv_int t' d)
  = Ok (float_of_Z t / float_of_Z d)%float.
Proof.
  intros Ht Hd. rewrite (py_float_of_int_small t Ht). cbn [result_bind].
  unfold py_truediv_int.
  pose proof (py_float_of_int_small d ltac:(lia)) as Ed. rewrite Ed.
  cbn [result_bind].
  rewrite (py_float_of_int_nonzero d (float_of_Z d) ltac:(lia) Ed). reflexivity.
Qed.

Lemma Precision_accumulate_ratio (s : Precision.state) :
  0 <= Precision.tp s -> 0 <= Precision.fp s ->
  0 < Precision.tp s + Precision.fp s < 2 ^ 53 ->
  Precision.accumulate s
  = (Ok (float_of_Z (Precision.tp s)
         / float_of_Z (Precision.tp s + Precision.fp s))%float, s).
Proof.
  intros Ht Hf Hap. unfold Precision.accumulate, Py.bind, Py.get, Py.lift.
  destruct (Z.eqb_spec (Precision.tp s + Precision.fp s) 0) as [E | _]; [lia |].
  cbn [negb].
  pose proof (truediv_counters (Precision.tp s) (Precision.tp s + Precision.fp s)
                ltac:(lia) Hap) as E.
  destruct (py_float_of_int (Precision.tp s)) as [t |]; cbn [result_bind] in E.
  - rewrite E. reflexivity.
  - discriminate.
Qed.

(** The decision on a probability held in an array of dtype [d]. *)
Lemma Precision_decision_in_probability (d : dtype) (p : float) :
  Auc.probability p -> in_dtype d p = true ->
  Precision.decision_in d p
  = if ((0.5 <=? p) || (p =? below_half d))%float then 1 else 0.
Proof.
  destruct d; cbn [in_dtype Precision.decision_in below_half]; intros Hp Hd.
  - exact (Precision_decision32_probability p Hp Hd).
  - exact (Precision_decision_probability p Hp).
Qed.

(** C3 (amended). [Precision.update] decides every prediction by
    [floor(pred + 0.5)], where the sum is the floating-point sum in the type
    of the array of predictions, float64 or float32. On a probability (a
    prediction between 0 and 1, the documented input) this decision is 1
    from 0.5 on and also at the largest float of that type below 0.5, whose
    sum with 0.5 is rounded up to 1.0, and it is 0 elsewhere; so it is round
    half up (the floor of the exact sum) at every probability but that one
    float, where round half up gives 0 and the code decides 1. The ties 0.5,
    1.5 and 2.5 go up. [update] on arrays of as many predictions as labels
    returns and is the fold of the rule for one sample: a sample decided 1
    increments [tp] when its label is 1 and [fp] otherwise, a sample decided
    otherwise changes neither counter. [accumulate] returns 0.0 when
    [tp + fp = 0] and [tp / (tp + fp)] otherwise (counters below [2^53], so
    that their conversion to float is exact) and leaves the counters as they
    are. On the documented example, predictions 0.1, 0.5, 0.6, 0.7 with
    labels 0, 1, 1, 1, [accumulate] returns 1.0. *)
Theorem precision_update_accumulate :
  (forall d p, Auc.probability p -> in_dtype d p = true ->
     Precision.decision_in d p
     = if ((0.5 <=? p) || (p =? below_half d))%float then 1 else 0)
  /\ (forall d p, Auc.probability p -> in_dtype d p = true ->
        (p =? below_half d)%float = false ->
        Precision.decision_in d p = round_half_up p)
  /\ (forall d, Auc.probability (below_half d)
                /\ in_dtype d (below_half d) = true
                /\ Precision.decision_in d (below_half d) = 1
                /\ round_half_up (below_half d) = 0)
  /\ (forall d, Precision.decision_in d 0.5 = 1 /\ Precision.decision_in d 1.5 = 2
                /\ Precision.decision_in d 2.5 = 3)
  /\ (forall d (samples : list (float * Z)) (s : Precision.state),
        Precision.update (NdArray {| dt := d; data := map fst samples |})
                         (NdArray (map snd samples)) s
        = (Ok tt, fold_left (Precision.count_sample d) samples s))
  /\ (forall d s pred label,
        Precision.decision_in d pred = 1 -> label = 1 ->
        Precision.count_sample d s (pred, label)
        = {| Precision.tp := Precision.tp s + 1; Precision.fp := Precision.fp s |})
  /\ (forall d s pred label,
        Precision.decision_in d pred = 1 -> label <> 1 ->
        Precision.count_sample d s (pred, label)
        = {| Precision.tp := Precision.tp s; Precision.fp := Precision.fp s + 1 |})
  /\ (forall d s pred label,
        Precision.decision_in d pred <> 1 ->
        Precision.count_sample d s (pred, label) = s)
  /\ (forall s, Precision.tp s + Precision.fp s = 0 ->
        Precision.accumulate s = (Ok 0%float, s))
  /\ (forall s, 0 <= Precision.tp s -> 0 <= Precision.fp s ->
        0 < Precision.tp s + Precision.fp s < 2 ^ 53 ->
        Precision.accumulate s
        = (Ok (float_of_Z (Precision.tp s)
               / float_of_Z (Precision.tp s + Precision.fp s))%float, s))
  /\ fst (Precision.accumulate
            (snd (Precision.update
                    (NdArray {| dt := float64; data := [0.1; 0.5; 0.6; 0.7]%float |})
                    (NdArray [0; 1; 1; 1]) Precision.init)))
     = Ok 1%float.
Proof.
  split; [exact Precision_decision_in_probability |].
  split.
  { intros d p Hp Hd Hb.
    rewrite (Precision_decision_in_probability d p Hp Hd), Hb, orb_false_r.
    symmetry. apply round_half_up_probability. exact Hp. }
  split; [intros []; vm_compute; repeat split |].
  split; [intros []; vm_compute; repeat split |].
  split; [exact Precision_update_samples |].
  split.
  { intros d s pred label Hd ->. unfold Precision.count_sample. rewrite Hd. reflexivity. }
  split.
  { intros d s pred label Hd Hl. unfold Precision.count_sample. rewrite Hd.
    destruct (Z.eqb_spec 1 label) as [E | _]; [congruence | reflexivity]. }
  split.
  { intros d s pred label Hd. unfold Precision.count_sample.
    destruct (Z.eqb_spec (Precision.decision_in d pred) 1) as [E | _];
      [contradiction | reflexivity]. }
  split; [exact Precision_accumulate_zero |].
  split; [exact Precision_accumulate_ratio |].
  vm_compute. reflexivity.
Qed.

Lemma precision_update_accumulate_witness :
  Precision.decision_in float32 0.75
  = (if ((0.5 <=? 0.75) || (0.75 =? below_half float32))%float then 1 else 0)
  /\ Precision.decision_in float64 0.25 = round_half_up 0.25
  /\ Precision.count_sample float32 Precision.init (0.75%float, 1)
     = {| Precision.tp := 1; Precision.fp := 0 |}
  /\ Precision.accumulate {| Precision.tp := 3; Precision.fp := 1 |}
     = (Ok (float_of_Z 3 / float_of_Z 4)%float,
        {| Precision.tp := 3; Precision.fp := 1 |}).
Proof.
  destruct precision_update_accumulate
    as (Hdec & Hrhu & _ & _ & _ & Htp & _ & _ & _ & Hacc & _).
  split; [| split; [| split]].
  - apply (Hdec float32 0.75%float); [split; reflexivity | reflexivity].
  - apply (Hrhu float64 0.25%float); [split; reflexivity | reflexivity | reflexivity].
  - apply (Htp float32 Precision.init 0.75%float 1);
      [vm_compute; reflexivity | reflexivity].
  - apply (Hacc {| Precision.tp := 3; Precision.fp := 1 |}); cbn; lia.
Defined.

(** The claim as it is written fails at the largest float64 below 0.5:
    round half up of [0.49999999999999994] is 0, and the code decides 1,
    because the float64 sum with 0.5 is 1.0; with the label 1 the sample is
    counted as a true positive. *)
Lemma precision_update_accumulate_counterexample :
  (below_half64 <? 0.5)%float = true
  /\ round_half_up below_half64 = 0
  /\ (below_half64 + 0.5)%float = 1%float
  /\ Precision.decision below_half64 = 1
  /\ Precision.update (NdArray {| dt := float64; data := [below_half64] |})
                      (NdArray [1]) Precision.init
     = (Ok tt, {| Precision.tp := 1; Precision.fp := 0 |}).
Proof. vm_compute. repeat split. Qed.

(** ** [Recall] *)

Lemma Recall_update_body_sample (samples : list (float * Z)) (i : nat)
    (sample : float * Z) (s : Recall.state) :
  samples !! i = Some sample ->
  Recall.update_body (map Recall.decision (map fst samples))
                     (map snd samples) i s
  = (Ok tt, Recall.count_sample s sample).
Proof.
  intros E. destruct sample as [p l]. unfold Recall.update_body.
  rewrite (bind_ok _ _ s s (Recall.decision p));
    [| apply getitem_lookup; rewrite !lookup_map, E; reflexivity].
  rewrite (bind_ok _ _ s s l);
    [| apply getitem_lookup; rewrite lookup_map, E; reflexivity].
  unfold Recall.count_sample.
  destruct (l =? 1); [| reflexivity].
  destruct (Recall.decision p =? l); reflexivity.
Qed.

Lemma Recall_update_arrays (preds : list float) (labels : list Z)
    (s : Recall.state) :
  Recall.update (NdArray preds) (NdArray labels) s
  = Py.for_each (seq 0 (length labels))
      (Recall.update_body (map Recall.decision preds) labels) s.
Proof. reflexivity. Qed.

Lemma Recall_update_samples (samples : list (float * Z)) (s : Recall.state) :
  Recall.update (NdArray (map fst samples)) (NdArray (map snd samples)) s
  = (Ok tt, fold_left Recall.count_sample samples s).
Proof.
  rewrite Recall_update_arrays, length_map.
  apply (for_each_seq_fold Recall.count_sample
           (fun l => Recall.update_body (map Recall.decision (map fst l))
                                        (map snd l))
           Recall_update_body_sample [] samples s).
Qed.

Lemma Recall_accumulate_zero (s : Recall.state) :
  Recall.tp s + Recall.fn s = 0 -> Recall.accumulate s = (Ok 0%float, s).
Proof.
  intros E. unfold Recall.accumulate, Py.bind, Py.get. rewrite E. reflexivity.
Qed.

Lemma Recall_accumulate_ratio (s : Recall.state) :
  0 <= Recall.tp s -> 0 <= Recall.fn s ->
  0 < Recall.tp s + Recall.fn s < 2 ^ 53 ->
  Recall.accumulate s
  = (Ok (float_of_Z (Recall.tp s)
         / float_of_Z (Recall.tp s + Recall.fn s))%float, s).
Proof.
  intros Ht Hf Hap. unfold Recall.accumulate, Py.bind, Py.get, Py.lift.
  destruct (Z.eqb_spec (Recall.tp s + Recall.fn s) 0) as [E | _]; [lia |].
  cbn [negb].
  pose proof (truediv_counters (Recall.tp s) (Recall.tp s + Recall.fn s)
                ltac:(lia) Hap) as E.
  destruct (py_float_of_int (Recall.tp s)) as [t |]; cbn [result_bind] in E.
  - rewrite E. reflexivity.
  - discriminate.
Qed.

(** C4. [Recall.update] decides every prediction by NumPy's [rint], the
    nearest integer with ties to the even one (0.5 and 2.5 go down, 1.5 goes
    up); a sample whose label is 1 adds one to [tp] when its decision is 1
    too and one to [fn] otherwise, and a sample with another label changes no
    counter; [Recall.accumulate] returns [tp / (tp + fn)] when [tp + fn > 0]
    and [0.0] when it is zero, leaving the counters as they are; on
    [preds = [0.1, 0.5, 0.6, 0.7]] and [labels = [1, 0, 1, 1]] the result is
    the float [2.0 / 3.0]. *)
Theorem recall_update_accumulate :
  (forall pred, Recall.decision pred = astype_int32 (np_rint pred))
  /\ Recall.decision 0.5 = 0 /\ Recall.decision 1.5 = 2
  /\ Recall.decision 2.5 = 2
  /\ (forall (samples : list (float * Z)) (s : Recall.state),
        Recall.update (NdArray (map fst samples)) (NdArray (map snd samples)) s
        = (Ok tt, fold_left Recall.count_sample samples s))
  /\ (forall s pred label,
        label = 1 -> Recall.decision pred = 1 ->
        Recall.count_sample s (pred, label)
        = {| Recall.tp := Recall.tp s + 1; Recall.fn := Recall.fn s |})
  /\ (forall s pred label,
        label = 1 -> Recall.decision pred <> 1 ->
        Recall.count_sample s (pred, label)
        = {| Recall.tp := Recall.tp s; Recall.fn := Recall.fn s + 1 |})
  /\ (forall s pred label,
        label <> 1 -> Recall.count_sample s (pred, label) = s)
  /\ (forall s, Recall.tp s + Recall.fn s = 0 ->
        Recall.accumulate s = (Ok 0%float, s))
  /\ (forall s, 0 <= Recall.tp s -> 0 <= Recall.fn s ->
        0 < Recall.tp s + Recall.fn s < 2 ^ 53 ->
        Recall.accumulate s
        = (Ok (float_of_Z (Recall.tp s)
               / float_of_Z (Recall.tp s + Recall.fn s))%float, s))
  /\ fst (Recall.accumulate
            (snd (Recall.update (NdArray [0.1; 0.5; 0.6; 0.7]%float)
                                (NdArray [1; 0; 1; 1]) Recall.init)))
     = Ok (2 / 3)%float.
Proof.
  split; [reflexivity |].
  split; [vm_compute; reflexivity |].
  split; [vm_compute; reflexivity |].
  split; [vm_compute; reflexivity |].
  split; [exact Recall_update_samples |].
  split.
  { intros s pred label -> Hd. unfold Recall.count_sample. rewrite Hd. reflexivity. }
  split.
  { intros s pred label -> Hd. unfold Recall.count_sample. cbn [Z.eqb Pos.eqb].
    destruct (Z.eqb_spec (Recall.decision pred) 1) as [E | _];
      [contradiction | reflexivity]. }
  split.
  { intros s pred label Hl. unfold Recall.count_sample.
    destruct (Z.eqb_spec label 1) as [E | _]; [contradiction | reflexivity]. }
  split; [exact Recall_accumulate_zero |].
  split; [exact Recall_accumulate_ratio |].
  vm_compute. reflexivity.
Qed.

Lemma recall_update_accumulate_witness :
  Recall.count_sample Recall.init (0.7%float, 1)
  = {| Recall.tp := 1; Recall.fn := 0 |}
  /\ Recall.accumulate {| Recall.tp := 2; Recall.fn := 1 |}
     = (Ok (float_of_Z 2 / float_of_Z 3)%float,
        {| Recall.tp := 2; Recall.fn := 1 |}).
Proof.
  destruct recall_update_accumulate
    as (_ & _ & _ & _ & _ & Htp & _ & _ & _ & Hacc & _).
  split.
  - apply (Htp Recall.init 0.7%float 1); [reflexivity | vm_compute; reflexivity].
  - apply (Hacc {| Recall.tp := 2; Recall.fn := 1 |}); cbn; lia.
Defined.

(** ** Argument validation *)


Lemma as_numpy_tensor {St A} (argname : string) (a : A) (s : St) :
  as_numpy argname (Tensor a) s = as_numpy argname (NdArray a) s.
Proof. reflexivity. Qed.






(** ** Computations that only read [self] *)

Section ReadOnly.

Context {St : Type}.

Lemma read_only_ret {A} (a : A) : read_only (Py.ret (St := St) a).
Proof. intros s. reflexivity. Qed.

Lemma read_only_raise {A} (e : exn) : read_only (Py.raise (St := St) (A := A) e).
Proof. intros s. reflexivity. Qed.

Lemma read_only_get : read_only (Py.get (St := St)).
Proof. intros s. reflexivity. Qed.

Lemma read_only_lift {A} (r : result A) : read_only (Py.lift (St := St) r).
Proof. intros s. reflexivity. Qed.

Lemma read_only_getitem {A} (a : list A) (i : nat) :
  read_only (getitem (St := St) a i).
Proof. intros s. unfold getitem. destruct (a !! i); reflexivity. Qed.

Lemma read_only_bind {A B} (c : Py.M St A) (k : A -> Py.M St B) :
  read_only c -> (forall a, read_only (k a)) -> read_only (Py.bind c k).
Proof.
  intros Hc Hk s. unfold Py.bind. specialize (Hc s).
  destruct (c s) as [[a | e] s1]; cbn [snd] in *; subst s1.
  - apply Hk.
  - reflexivity.
Qed.

Lemma read_only_fold_each {I A} (xs : list I) (a : A) (body : A -> I -> Py.M St A) :
  (forall a x, read_only (body a x)) -> read_only (Py.fold_each xs a body).
Proof.
  intros Hb. revert a. induction xs as [| x xs IH]; intros a; cbn [Py.fold_each].
  - apply read_only_ret.
  - apply read_only_bind; [apply Hb | exact IH].
Qed.

Lemma read_only_if {A} (b : bool) (c1 c2 : Py.M St A) :
  read_only c1 -> read_only c2 -> read_only (if b then c1 else c2).
Proof. destruct b; auto. Qed.

(** Calling a read-only computation again gives the same result. *)
Lemma read_only_twice {A} (c : Py.M St A) (s : St) :
  read_only c -> c (snd (c s)) = c s.
Proof. intros H. rewrite (H s). reflexivity. Qed.

End ReadOnly.

Ltac read_only_step :=
  first [ apply read_only_ret | apply read_only_raise | apply read_only_get
        | apply read_only_lift | apply read_only_getitem
        | apply read_only_if
        | apply read_only_bind; [| intros ? ]
        | apply read_only_fold_each; intros ? ? ].

Lemma Precision_accumulate_read_only : read_only Precision.accumulate.
Proof. unfold Precision.accumulate. repeat read_only_step. Qed.

Lemma Recall_accumulate_read_only : read_only Recall.accumulate.
Proof. unfold Recall.accumulate. repeat read_only_step. Qed.

Lemma Accuracy_collapse_read_only (res : list float) :
  read_only (Accuracy.collapse res).
Proof. unfold Accuracy.collapse. repeat read_only_step. Qed.

Lemma Accuracy_accumulate_read_only : read_only Accuracy.accumulate.
Proof.
  unfold Accuracy.accumulate. repeat read_only_step.
  unfold Accuracy.accumulate_body. destruct x as [t c]. repeat read_only_step.
Qed.

Lemma Auc_accumulate_loop_read_only (k : nat) (l : Auc.locals) :
  read_only (Auc.accumulate_loop k l).
Proof.
  revert l. induction k as [| idx IH]; intros l; cbn [Auc.accumulate_loop].
  - apply read_only_ret.
  - apply read_only_bind; [| exact IH].
    unfold Auc.accumulate_step. repeat read_only_step.
Qed.

Lemma Auc_accumulate_read_only : read_only Auc.accumulate.
Proof.
  unfold Auc.accumulate. apply read_only_bind; [apply read_only_get | intros s].
  apply read_only_bind; [apply Auc_accumulate_loop_read_only | intros l].
  repeat read_only_step.
Qed.

(** C8. For each of the four metrics and every state, [accumulate] leaves
    the state as it found it, and a second [accumulate] right after the
    first returns the same value. *)
Theorem accumulate_is_a_pure_read :
  (forall s, snd (Accuracy.accumulate s) = s
             /\ Accuracy.accumulate (snd (Accuracy.accumulate s))
                = Accuracy.accumulate s)
  /\ (forall s, snd (Precision.accumulate s) = s
                /\ Precision.accumulate (snd (Precision.accumulate s))
                   = Precision.accumulate s)
  /\ (forall s, snd (Recall.accumulate s) = s
                /\ Recall.accumulate (snd (Recall.accumulate s))
                   = Recall.accumulate s)
  /\ (forall s, snd (Auc.accumulate s) = s
                /\ Auc.accumulate (snd (Auc.accumulate s)) = Auc.accumulate s).
Proof.
  repeat split;
    first [ apply Accuracy_accumulate_read_only
          | apply Precision_accumulate_read_only
          | apply Recall_accumulate_read_only
          | apply Auc_accumulate_read_only
          | apply read_only_twice ];
    first [ apply Accuracy_accumulate_read_only
          | apply Precision_accumulate_read_only
          | apply Recall_accumulate_read_only
          | apply Auc_accumulate_read_only ].
Qed.

(** ** Guarded divisions *)

Lemma py_float_of_int_raise (z : Z) (e : exn) :
  py_float_of_int z = Raise e -> e = OverflowError.
Proof.
  unfold py_float_of_int.
  destruct (binary_normalize prec emax z 0 false); congruence.
Qed.

Lemma py_truediv_int_guarded (x : float) (c : Z) :
  c <> 0 -> py_truediv_int x c <> Raise ZeroDivisionError.
Proof.
  intros Hc. unfold py_truediv_int.
  destruct (py_float_of_int c) as [c' | e] eqn:E; cbn [result_bind].
  - rewrite (py_float_of_int_nonzero c c' Hc E). discriminate.
  - apply py_float_of_int_raise in E. subst e. discriminate.
Qed.

Lemma py_truediv_guarded (x y : float) :
  (0 <? y)%float = true -> py_truediv x y = Ok (x / y)%float.
Proof.
  intros Hy. unfold py_truediv. rewrite (ltb_0_not_zero y Hy). reflexivity.
Qed.

Lemma Precision_accumulate_guarded (s : Precision.state) :
  fst (Precision.accumulate s) <> Raise ZeroDivisionError.
Proof.
  unfold Precision.accumulate, Py.bind, Py.get, Py.lift, Py.ret.
  destruct (Z.eqb_spec (Precision.tp s + Precision.fp s) 0) as [E | E];
    cbn [negb]; [discriminate |].
  destruct (py_float_of_int (Precision.tp s)) as [t | e] eqn:Et; cbn [fst].
  - apply py_truediv_int_guarded. exact E.
  - apply py_float_of_int_raise in Et. subst e. discriminate.
Qed.

Lemma Recall_accumulate_guarded (s : Recall.state) :
  fst (Recall.accumulate s) <> Raise ZeroDivisionError.
Proof.
  unfold Recall.accumulate, Py.bind, Py.get, Py.lift, Py.ret.
  destruct (Z.eqb_spec (Recall.tp s + Recall.fn s) 0) as [E | E];
    cbn [negb]; [discriminate |].
  destruct (py_float_of_int (Recall.tp s)) as [t | e] eqn:Et; cbn [fst].
  - apply py_truediv_int_guarded. exact E.
  - apply py_float_of_int_raise in Et. subst e. discriminate.
Qed.

Lemma Accuracy_accumulate_body_guarded (res : list float) (tc : float * Z)
    (s : Accuracy.state) :
  fst (Accuracy.accumulate_body res tc s) <> Raise ZeroDivisionError.
Proof.
  destruct tc as [t c]. unfold Accuracy.accumulate_body, Py.bind, Py.lift, Py.ret.
  destruct (Z.ltb_spec 0 c) as [Hc | Hc]; [| discriminate].
  pose proof (py_truediv_int_guarded t c ltac:(lia)) as H.
  destruct (py_truediv_int t c) as [r | e]; cbn [fst]; [discriminate |].
  intros [= ->]. apply H. reflexivity.
Qed.

Lemma Accuracy_accumulate_loop_guarded (xs : list (float * Z)) (res : list float)
    (s : Accuracy.state) :
  fst (Py.fold_each xs res Accuracy.accumulate_body s) <> Raise ZeroDivisionError.
Proof.
  revert res s. induction xs as [| x xs IH]; intros res s; cbn [Py.fold_each].
  - discriminate.
  - unfold Py.bind.
    pose proof (Accuracy_accumulate_body_guarded res x s) as Hb.
    destruct (Accuracy.accumulate_body res x s) as [[r | e] s1]; cbn [fst] in *.
    + apply IH.
    + exact Hb.
Qed.

Lemma Accuracy_accumulate_guarded (s : Accuracy.state) :
  fst (Accuracy.accumulate s) <> Raise ZeroDivisionError.
Proof.
  unfold Accuracy.accumulate. unfold Py.bind at 1. cbn [Py.get]. unfold Py.bind.
  pose proof (Accuracy_accumulate_loop_guarded
                (combine (Accuracy.total s) (Accuracy.count s)) [] s) as Hl.
  destruct (Py.fold_each (combine (Accuracy.total s) (Accuracy.count s)) []
              Accuracy.accumulate_body s) as [[res | e] s1]; cbn [fst] in *;
    [| intros [= ->]; apply Hl; reflexivity].
  unfold Accuracy.collapse, Py.bind, Py.get, Py.ret, getitem, Py.raise.
  destruct (length (Accuracy.topk s1) =? 1)%nat; [| discriminate].
  destruct (res !! 0%nat); discriminate.
Qed.

Lemma Auc_accumulate_step_raise (idx : nat) (l : Auc.locals) (s s1 : Auc.state)
    (e : exn) :
  Auc.accumulate_step idx l s = (Raise e, s1) -> e = IndexError.
Proof.
  unfold Auc.accumulate_step, Py.bind, Py.get, getitem, Py.ret, Py.raise.
  destruct (Auc.stat_pos s !! idx); [| congruence].
  destruct (Auc.stat_neg s !! idx); congruence.
Qed.

Lemma Auc_accumulate_loop_guarded (k : nat) (l : Auc.locals) (s : Auc.state) :
  fst (Auc.accumulate_loop k l s) <> Raise ZeroDivisionError.
Proof.
  revert l s. induction k as [| idx IH]; intros l s; cbn [Auc.accumulate_loop].
  - discriminate.
  - unfold Py.bind.
    destruct (Auc.accumulate_step idx l s) as [[l' | e] s1] eqn:E; cbn [fst].
    + apply IH.
    + apply Auc_accumulate_step_raise in E. subst e. discriminate.
Qed.

Lemma Auc_accumulate_guarded (s : Auc.state) :
  fst (Auc.accumulate s) <> Raise ZeroDivisionError.
Proof.
  unfold Auc.accumulate. unfold Py.bind at 1. cbn [Py.get]. unfold Py.bind at 1.
  pose proof (Auc_accumulate_loop_guarded (Z.to_nat (Auc.num_thresholds s + 1))
                {| Auc.tot_pos := 0; Auc.tot_neg := 0; Auc.auc := 0 |} s) as Hl.
  destruct (Auc.accumulate_loop _ _ s) as [[l | e] s1]; cbn [fst] in *;
    [| intros [= ->]; apply Hl; reflexivity].
  destruct (0 <? Auc.tot_pos l)%float eqn:Hp; cbn [andb]; [| discriminate].
  destruct (0 <? Auc.tot_neg l)%float eqn:Hn; [| discriminate].
  unfold Py.bind, Py.lift.
  rewrite (py_truediv_guarded _ _ Hp), (py_truediv_guarded _ _ Hn). discriminate.
Qed.

(** ** [accumulate] right after [reset] *)

Lemma Accuracy_accumulate_loop_fresh (n : nat) (res : list float)
    (s : Accuracy.state) :
  Py.fold_each (combine (replicate n 0%float) (replicate n 0)) res
    Accuracy.accumulate_body s
  = (Ok (res ++ replicate n 0%float), s).
Proof.
  revert res. induction n as [| n IH]; intros res;
    cbn [replicate combine Py.fold_each].
  - rewrite app_nil_r. reflexivity.
  - rewrite (bind_ok _ _ s s (res ++ [0%float])) by reflexivity.
    rewrite IH, <- app_assoc. reflexivity.
Qed.

Lemma Accuracy_reset_accumulate (s : Accuracy.state) :
  Py.bind Accuracy.reset (fun _ => Accuracy.accumulate) s
  = (Ok (if (length (Accuracy.topk s) =? 1)%nat then PyFloat 0
         else PyList (replicate (length (Accuracy.topk s)) 0%float)),
     snd (Accuracy.reset s)).
Proof.
  unfold Accuracy.reset, Accuracy.accumulate.
  unfold Py.bind at 1 2. cbn [Py.get Py.put snd].
  unfold Py.bind at 1. cbn [Py.get Accuracy.total Accuracy.count].
  rewrite (bind_ok _ _ _ _ _ (Accuracy_accumulate_loop_fresh _ [] _)).
  cbn [app]. unfold Accuracy.collapse, Py.bind, Py.get, Py.put, Py.ret, getitem.
  cbn [snd Accuracy.topk].
  destruct (length (Accuracy.topk s)) as [| [| n]]; reflexivity.
Qed.

Lemma Precision_reset_accumulate (s : Precision.state) :
  Py.bind Precision.reset (fun _ => Precision.accumulate) s
  = (Ok 0%float, Precision.init).
Proof. reflexivity. Qed.

Lemma Recall_reset_accumulate (s : Recall.state) :
  Py.bind Recall.reset (fun _ => Recall.accumulate) s = (Ok 0%float, Recall.init).
Proof. reflexivity. Qed.

Lemma Auc_accumulate_loop_zeros (m k : nat) (s : Auc.state) :
  Auc.stat_pos s = replicate m 0%float -> Auc.stat_neg s = replicate m 0%float ->
  (k <= m)%nat ->
  Auc.accumulate_loop k {| Auc.tot_pos := 0; Auc.tot_neg := 0; Auc.auc := 0 |} s
  = (Ok {| Auc.tot_pos := 0; Auc.tot_neg := 0; Auc.auc := 0 |}, s).
Proof.
  intros Hp Hn. induction k as [| idx IH]; intros Hk; cbn [Auc.accumulate_loop].
  - reflexivity.
  - rewrite (bind_ok _ _ s s {| Auc.tot_pos := 0; Auc.tot_neg := 0; Auc.auc := 0 |}).
    + apply IH. lia.
    + unfold Auc.accumulate_step.
      rewrite (bind_ok _ _ s s s) by reflexivity.
      rewrite (bind_ok _ _ s s 0%float)
        by (apply getitem_lookup; rewrite Hp; apply lookup_replicate_2; lia).
      rewrite (bind_ok _ _ s s 0%float)
        by (apply getitem_lookup; rewrite Hn; apply lookup_replicate_2; lia).
      reflexivity.
Qed.

Lemma Auc_reset_accumulate (s : Auc.state) :
  -1 <= Auc.num_thresholds s ->
  Py.bind Auc.reset (fun _ => Auc.accumulate) s
  = (Ok 0%float,
     {| Auc.num_thresholds := Auc.num_thresholds s;
        Auc.stat_pos := replicate (Z.to_nat (Auc.num_thresholds s + 1)) 0%float;
        Auc.stat_neg := replicate (Z.to_nat (Auc.num_thresholds s + 1)) 0%float |}).
Proof.
  intros Hn.
  set (s' := {| Auc.num_thresholds := Auc.num_thresholds s;
                Auc.stat_pos := replicate (Z.to_nat (Auc.num_thresholds s + 1)) 0%float;
                Auc.stat_neg := replicate (Z.to_nat (Auc.num_thresholds s + 1)) 0%float |}).
  assert (Er : Auc.reset s = (Ok tt, s')).
  { unfold Auc.reset, Py.bind, Py.get, Py.lift, Py.put, np_zeros.
    destruct (Z.ltb_spec (Auc.num_thresholds s + 1) 0); [lia | reflexivity]. }
  rewrite (bind_ok _ _ _ _ _ Er).
  unfold Auc.accumulate. rewrite (bind_ok _ _ s' s' s') by reflexivity.
  rewrite (bind_ok _ _ s' s' {| Auc.tot_pos := 0; Auc.tot_neg := 0; Auc.auc := 0 |}).
  - reflexivity.
  - apply (Auc_accumulate_loop_zeros (Z.to_nat (Auc.num_thresholds s + 1)));
      reflexivity || (cbn [Auc.num_thresholds s']; lia).
Qed.

(** C7. For each of the four metrics, [reset()] followed by [accumulate()]
    raises nothing and returns [0.0] (for [Accuracy], [0.0] with one cutoff
    and the list of zeros otherwise); and in no state at all does
    [accumulate] raise a division by zero: its divisions are guarded. *)
Theorem reset_then_accumulate_is_zero :
  (forall s, Py.bind Accuracy.reset (fun _ => Accuracy.accumulate) s
             = (Ok (if (length (Accuracy.topk s) =? 1)%nat then PyFloat 0
                    else PyList (replicate (length (Accuracy.topk s)) 0%float)),
                snd (Accuracy.reset s)))
  /\ (forall s, Py.bind Precision.reset (fun _ => Precision.accumulate) s
                = (Ok 0%float, Precision.init))
  /\ (forall s, Py.bind Recall.reset (fun _ => Recall.accumulate) s
                = (Ok 0%float, Recall.init))
  /\ (forall s, -1 <= Auc.num_thresholds s ->
                fst (Py.bind Auc.reset (fun _ => Auc.accumulate) s) = Ok 0%float)
  /\ (forall s, fst (Accuracy.accumulate s) <> Raise ZeroDivisionError)
  /\ (forall s, fst (Precision.accumulate s) <> Raise ZeroDivisionError)
  /\ (forall s, fst (Recall.accumulate s) <> Raise ZeroDivisionError)
  /\ (forall s, fst (Auc.accumulate s) <> Raise ZeroDivisionError).
Proof.
  split; [exact Accuracy_reset_accumulate |].
  split; [exact Precision_reset_accumulate |].
  split; [exact Recall_reset_accumulate |].
  split; [intros s Hn; rewrite (Auc_reset_accumulate s Hn); reflexivity |].
  split; [exact Accuracy_accumulate_guarded |].
  split; [exact Precision_accumulate_guarded |].
  split; [exact Recall_accumulate_guarded |].
  exact Auc_accumulate_guarded.
Qed.

Lemma reset_then_accumulate_is_zero_witness :
  fst (Py.bind Auc.reset (fun _ => Auc.accumulate)
         {| Auc.num_thresholds := 4095; Auc.stat_pos := [1; 2]%float;
            Auc.stat_neg := [3]%float |})
  = Ok 0%float.
Proof.
  destruct reset_then_accumulate_is_zero as (_ & _ & _ & Hauc & _).
  apply Hauc. cbn. lia.
Defined.

(** ** [Accuracy.update] on an empty batch *)

Lemma py_truediv_int_by_zero (x : float) :
  py_truediv_int x 0 = Raise ZeroDivisionError.
Proof. reflexivity. Qed.

Lemma Accuracy_update_body_empty (accs : list float) (ik : nat * Z)
    (s : Accuracy.state) :
  Accuracy.update_body [] accs ik s = (Raise ZeroDivisionError, s).
Proof.
  destruct ik as [i k]. unfold Accuracy.update_body.
  apply bind_raise. cbn [length Z.of_nat]. unfold Py.lift.
  rewrite py_truediv_int_by_zero. reflexivity.
Qed.

Lemma Accuracy_update_array_empty (s : Accuracy.state) :
  Accuracy.topk s <> [] ->
  Py.fold_each (enumerate (Accuracy.topk s)) [] (Accuracy.update_body []) s
  = (Raise ZeroDivisionError, s).
Proof.
  intros Hk. destruct (Accuracy.topk s) as [| k ks]; [contradiction |].
  unfold enumerate. cbn [length seq combine Py.fold_each].
  apply bind_raise. apply Accuracy_update_body_empty.
Qed.

(** C10. [Accuracy.update] on a correctness mask with zero rows raises
    [ZeroDivisionError] (from the ratio of the first cutoff) and leaves the
    totals and counts as they were: it returns no [0.0], unlike
    [accumulate], which right after [reset] returns zeros. *)
Theorem accuracy_update_empty_batch (s : Accuracy.state) :
  Accuracy.topk s <> [] ->
  Accuracy.update (NdArray []) s = (Raise ZeroDivisionError, s)
  /\ Accuracy.update (Tensor []) s = (Raise ZeroDivisionError, s)
  /\ fst (Py.bind Accuracy.reset (fun _ => Accuracy.update (NdArray [])) s)
     = Raise ZeroDivisionError
  /\ fst (Py.bind Accuracy.reset (fun _ => Accuracy.accumulate) s)
     = Ok (if (length (Accuracy.topk s) =? 1)%nat then PyFloat 0
           else PyList (replicate (length (Accuracy.topk s)) 0%float)).
Proof.
  intros Hk.
  assert (Hu : forall s0, Accuracy.topk s0 <> [] ->
            Accuracy.update (NdArray []) s0 = (Raise ZeroDivisionError, s0)).
  { intros s0 H0. unfold Accuracy.update.
    rewrite (bind_ok _ _ s0 s0 []) by reflexivity.
    rewrite (bind_ok _ _ s0 s0 s0) by reflexivity.
    apply bind_raise. apply Accuracy_update_array_empty. exact H0. }
  split; [apply Hu; exact Hk |].
  split; [apply (Hu s); exact Hk |].
  split.
  - rewrite (bind_ok _ _ s (snd (Accuracy.reset s)) tt) by reflexivity.
    rewrite Hu; [reflexivity | exact Hk].
  - rewrite Accuracy_reset_accumulate. reflexivity.
Qed.

Lemma accuracy_update_empty_batch_witness :
  Accuracy.update (NdArray [])
    {| Accuracy.topk := [1; 5]; Accuracy.maxk := 5;
       Accuracy.total := [3; 4]%float; Accuracy.count := [4; 4] |}
  = (Raise ZeroDivisionError,
     {| Accuracy.topk := [1; 5]; Accuracy.maxk := 5;
        Accuracy.total := [3; 4]%float; Accuracy.count := [4; 4] |}).
Proof.
  apply (accuracy_update_empty_batch
           {| Accuracy.topk := [1; 5]; Accuracy.maxk := 5;
              Accuracy.total := [3; 4]%float; Accuracy.count := [4; 4] |}).
  discriminate.
Defined.

(** ** The documented example of [Accuracy] *)

(** C2. With [topk = (1,)], [compute], [update] and [accumulate] on the
    documented predictions and labels give exactly [0.75]: [compute] ranks the
    scores of a sample in descending order, keeps the best [maxk = 1] class
    and compares it with the label (mask [[0], [1], [1], [1]]); [update] adds
    the three correct samples to [total] and the four samples to [count];
    [accumulate] returns [total / count]. *)
Theorem accuracy_example_is_075 :
  example_run
  = (Ok (PyFloat 0.75),
     Some {| Accuracy.topk := [1]; Accuracy.maxk := 1;
             Accuracy.total := [3%float]; Accuracy.count := [4] |})
  /\ map Accuracy.argsort_desc example_pred
     = [[3; 2; 1; 0]; [1; 2; 3; 0]; [2; 3; 1; 0]; [3; 2; 1; 0]]%nat
  /\ (forall m, Accuracy.maxk m = 1 ->
        fst (Accuracy.compute example_pred example_label m)
        = Ok (Tensor [[0]; [1]; [1]; [1]]%float))
  /\ (forall m, Accuracy.topk m = [1] ->
        Accuracy.total m = [0%float] -> Accuracy.count m = [0] ->
        Accuracy.update (Tensor [[0]; [1]; [1]; [1]]%float) m
        = (Ok (PyFloat 0.75),
           {| Accuracy.topk := [1]; Accuracy.maxk := Accuracy.maxk m;
              Accuracy.total := [3%float]; Accuracy.count := [4] |})).
Proof.
  split; [vm_compute; reflexivity |].
  split; [vm_compute; reflexivity |].
  split.
  - intros m Hm. unfold Accuracy.compute, Py.bind, Py.get. rewrite Hm.
    vm_compute. reflexivity.
  - intros [tk mk tot cnt]. cbn [Accuracy.topk Accuracy.total Accuracy.count
                                   Accuracy.maxk].
    intros -> -> ->. vm_compute. reflexivity.
Qed.

Lemma accuracy_example_is_075_witness :
  fst (Accuracy.compute example_pred example_label
         {| Accuracy.topk := [1]; Accuracy.maxk := 1;
            Accuracy.total := [0%float]; Accuracy.count := [0] |})
  = Ok (Tensor [[0]; [1]; [1]; [1]]%float).
Proof.
  destruct accuracy_example_is_075 as (_ & _ & Hc & _).
  apply Hc. reflexivity.
Defined.

(** ** [Auc.accumulate] *)

Lemma Auc_accumulate_step_walk (idx : nat) (l : Auc.locals) (s : Auc.state) :
  (idx < length (Auc.stat_pos s))%nat -> (idx < length (Auc.stat_neg s))%nat ->
  Auc.accumulate_step idx l s
  = (Ok (Auc.walk_step l (nth idx (Auc.stat_pos s) 0%float)
                         (nth idx (Auc.stat_neg s) 0%float)), s).
Proof.
  intros Hp Hn.
  destruct (lookup_lt_is_Some_2 _ _ Hp) as [p Ep].
  destruct (lookup_lt_is_Some_2 _ _ Hn) as [q Eq].
  rewrite !nth_lookup, Ep, Eq. cbn [default].
  unfold Auc.accumulate_step.
  rewrite (bind_ok _ _ s s s) by reflexivity.
  rewrite (bind_ok _ _ s s p) by (apply getitem_lookup; exact Ep).
  rewrite (bind_ok _ _ s s q) by (apply getitem_lookup; exact Eq).
  reflexivity.
Qed.

Lemma Auc_accumulate_loop_walk (k : nat) (l : Auc.locals) (s : Auc.state) :
  (k <= length (Auc.stat_pos s))%nat -> (k <= length (Auc.stat_neg s))%nat ->
  Auc.accumulate_loop k l s
  = (Ok (fold_left (fun l idx =>
                      Auc.walk_step l (nth idx (Auc.stat_pos s) 0%float)
                                      (nth idx (Auc.stat_neg s) 0%float))
                   (rev (seq 0 k)) l), s).
Proof.
  revert l. induction k as [| idx IH]; intros l Hp Hn; cbn [Auc.accumulate_loop].
  - reflexivity.
  - rewrite seq_S, rev_app_distr. cbn [rev app fold_left Nat.add].
    rewrite (bind_ok _ _ _ _ _ (Auc_accumulate_step_walk idx l s ltac:(lia) ltac:(lia))).
    apply IH; lia.
Qed.

Lemma Auc_accumulate_refines (s : Auc.state) :
  Auc.well_formed s -> Auc.accumulate s = (Ok (Auc.accumulate_spec s), s).
Proof.
  intros [Hp Hn]. unfold Auc.accumulate.
  rewrite (bind_ok _ _ s s s) by reflexivity.
  rewrite (bind_ok _ _ _ _ _
             (Auc_accumulate_loop_walk (Z.to_nat (Auc.num_thresholds s + 1))
                {| Auc.tot_pos := 0; Auc.tot_neg := 0; Auc.auc := 0 |} s
                ltac:(lia) ltac:(lia))).
  unfold Auc.accumulate_spec.
  change (fold_left _ (rev (seq 0 (Z.to_nat (Auc.num_thresholds s + 1)))) _)
    with (Auc.walk s).
  destruct (0 <? Auc.tot_pos (Auc.walk s))%float eqn:Epos; cbn [andb];
    [| reflexivity].
  destruct (0 <? Auc.tot_neg (Auc.walk s))%float eqn:Eneg; [| reflexivity].
  unfold Py.bind, Py.lift.
  rewrite (py_truediv_guarded _ _ Epos), (py_truediv_guarded _ _ Eneg).
  reflexivity.
Qed.

(** The running totals of the walk are the sums of the buckets visited. *)
Lemma Auc_walk_totals_from (s : Auc.state) (idxs : list nat) (l : Auc.locals) :
  let l' := fold_left (fun l idx =>
                         Auc.walk_step l (nth idx (Auc.stat_pos s) 0%float)
                                         (nth idx (Auc.stat_neg s) 0%float))
                      idxs l in
  Auc.tot_pos l'
  = fold_left PrimFloat.add
      (map (fun idx => nth idx (Auc.stat_pos s) 0%float) idxs) (Auc.tot_pos l)
  /\ Auc.tot_neg l'
     = fold_left PrimFloat.add
         (map (fun idx => nth idx (Auc.stat_neg s) 0%float) idxs) (Auc.tot_neg l).
Proof.
  revert l. induction idxs as [| idx idxs IH]; intros l; cbn [fold_left map].
  - split; reflexivity.
  - apply IH.
Qed.

Lemma Auc_walk_totals (s : Auc.state) :
  Auc.tot_pos (Auc.walk s)
  = fold_left PrimFloat.add
      (map (fun idx => nth idx (Auc.stat_pos s) 0%float)
           (Auc.walk_indices (Auc.num_thresholds s))) 0%float
  /\ Auc.tot_neg (Auc.walk s)
     = fold_left PrimFloat.add
         (map (fun idx => nth idx (Auc.stat_neg s) 0%float)
              (Auc.walk_indices (Auc.num_thresholds s))) 0%float.
Proof.
  apply (Auc_walk_totals_from s (Auc.walk_indices (Auc.num_thresholds s))
           {| Auc.tot_pos := 0; Auc.tot_neg := 0; Auc.auc := 0 |}).
Qed.

(** C1. On a state with one slot per bucket, [Auc.accumulate] returns what
    the walk of the specification computes, and changes nothing: the bucket
    index goes from [num_thresholds] down to 0; [tot_pos] and [tot_neg] are
    the running sums of [stat_pos] and [stat_neg]; each step adds the
    trapezoid [|x1 - x2| * (y1 + y2) / 2] with [x = tot_neg], [y = tot_pos]
    between the previous and the current pair; the result is
    [auc / tot_pos / tot_neg] when both totals are above zero and [0.0]
    otherwise. *)
Theorem auc_accumulate_walks_buckets (s : Auc.state) :
  Auc.well_formed s ->
  Auc.accumulate s = (Ok (Auc.accumulate_spec s), s)
  /\ Auc.walk_indices (Auc.num_thresholds s)
     = rev (seq 0 (Z.to_nat (Auc.num_thresholds s + 1)))
  /\ (forall l p q,
        Auc.walk_step l p q
        = {| Auc.tot_pos := (Auc.tot_pos l + p)%float;
             Auc.tot_neg := (Auc.tot_neg l + q)%float;
             Auc.auc := (Auc.auc l
                         + Auc.trapezoid_area (Auc.tot_neg l + q) (Auc.tot_neg l)
                             (Auc.tot_pos l + p) (Auc.tot_pos l))%float |})
  /\ (forall x1 x2 y1 y2,
        Auc.trapezoid_area x1 x2 y1 y2 = (abs (x1 - x2) * (y1 + y2) / 2)%float)
  /\ Auc.tot_pos (Auc.walk s)
     = fold_left PrimFloat.add
         (map (fun idx => nth idx (Auc.stat_pos s) 0%float)
              (Auc.walk_indices (Auc.num_thresholds s))) 0%float
  /\ Auc.tot_neg (Auc.walk s)
     = fold_left PrimFloat.add
         (map (fun idx => nth idx (Auc.stat_neg s) 0%float)
              (Auc.walk_indices (Auc.num_thresholds s))) 0%float
  /\ Auc.accumulate_spec s
     = (if (0 <? Auc.tot_pos (Auc.walk s))%float
           && (0 <? Auc.tot_neg (Auc.walk s))%float
        then (Auc.auc (Auc.walk s) / Auc.tot_pos (Auc.walk s)
              / Auc.tot_neg (Auc.walk s))%float
        else 0%float).
Proof.
  intros Hwf.
  split; [apply Auc_accumulate_refines; exact Hwf |].
  split; [reflexivity |].
  split; [reflexivity |].
  split; [reflexivity |].
  destruct (Auc_walk_totals s) as [E1 E2].
  split; [exact E1 |]. split; [exact E2 | reflexivity].
Qed.

Lemma auc_accumulate_walks_buckets_witness :
  Auc.accumulate {| Auc.num_thresholds := 3;
                    Auc.stat_pos := [0; 1; 0; 2]%float;
                    Auc.stat_neg := [2; 0; 1; 0]%float |}
  = (Ok (Auc.accumulate_spec {| Auc.num_thresholds := 3;
                                Auc.stat_pos := [0; 1; 0; 2]%float;
                                Auc.stat_neg := [2; 0; 1; 0]%float |}),
     {| Auc.num_thresholds := 3;
        Auc.stat_pos := [0; 1; 0; 2]%float;
        Auc.stat_neg := [2; 0; 1; 0]%float |}).
Proof.
  apply (auc_accumulate_walks_buckets
           {| Auc.num_thresholds := 3;
              Auc.stat_pos := [0; 1; 0; 2]%float;
              Auc.stat_neg := [2; 0; 1; 0]%float |}).
  split; reflexivity.
Defined.

(** ** The bucket of a probability *)

Lemma Auc_bin_index_bound (n : Z) (value : float) :
  Auc.probability value -> 0 < n < 2 ^ 53 ->
  exists b, Auc.bin_index n value = Ok b /\ 0 <= b <= n.
Proof.
  intros [H0 H1] Hn. unfold Auc.bin_index.
  rewrite (py_float_of_int_small n ltac:(lia)). cbn [result_bind].
  apply mul_unit_interval; assumption.
Qed.

Lemma Auc_increment_bump (a : list float) (b : Z) :
  0 <= b < Z.of_nat (length a) ->
  Auc.increment a b = Ok (Auc.bump a (Z.to_nat b)).
Proof.
  intros Hb. unfold Auc.increment, np_index, Auc.bump.
  destruct (Z.leb_spec 0 b); [| lia].
  destruct (Z.ltb_spec b (Z.of_nat (length a))); [| lia].
  cbn [andb result_bind].
  destruct (lookup_lt_is_Some_2 a (Z.to_nat b) ltac:(lia)) as [x Ex].
  rewrite Ex. reflexivity.
Qed.

Lemma Auc_bump_length (a : list float) (j : nat) :
  length (Auc.bump a j) = length a.
Proof.
  unfold Auc.bump. destruct (a !! j); [apply length_insert | reflexivity].
Qed.

Lemma Auc_count_sample_well_formed (s : Auc.state) (sample : float * float * Z) :
  Auc.well_formed s -> Auc.well_formed (Auc.count_sample s sample).
Proof.
  intros [Hp Hn]. destruct sample as [[p0 value] lbl]. unfold Auc.count_sample.
  destruct (negb (lbl =? 0)); split;
    cbn [Auc.stat_pos Auc.stat_neg Auc.num_thresholds];
    rewrite ?Auc_bump_length; assumption.
Qed.

(** One sample with a probability in column 1, in a state with one slot per
    bucket: the body of the loop raises nothing and counts the sample. *)
Lemma Auc_update_body_sample (preds : list (list float)) (i : nat)
    (p0 value : float) (lbl : Z) (s : Auc.state) :
  Auc.well_formed s -> 0 < Auc.num_thresholds s < 2 ^ 53 ->
  Auc.probability value ->
  preds !! i = Some [p0; value] ->
  Auc.update_body preds (i, lbl) s
  = (Ok tt, Auc.count_sample s (p0, value, lbl)).
Proof.
  intros [Hp Hn] Hrange Hv Erow. unfold Auc.update_body.
  rewrite (bind_ok _ _ s s [p0; value]) by (apply getitem_lookup; exact Erow).
  rewrite (bind_ok _ _ s s value) by reflexivity.
  rewrite (bind_ok _ _ s s s) by reflexivity.
  destruct (Auc_bin_index_bound (Auc.num_thresholds s) value Hv Hrange)
    as [b [Eb Hb]].
  rewrite (bind_ok _ _ s s b) by (unfold Py.lift; rewrite Eb; reflexivity).
  destruct (Z.leb_spec b (Auc.num_thresholds s)); [| lia].
  unfold Auc.count_sample, Auc.bucket_of. rewrite Eb.
  destruct (negb (lbl =? 0)).
  - rewrite (bind_ok _ _ s s (Auc.bump (Auc.stat_pos s) (Z.to_nat b)));
      [reflexivity |].
    unfold Py.lift. rewrite Auc_increment_bump by lia. reflexivity.
  - rewrite (bind_ok _ _ s s (Auc.bump (Auc.stat_neg s) (Z.to_nat b)));
      [reflexivity |].
    unfold Py.lift. rewrite Auc_increment_bump by lia. reflexivity.
Qed.

(** C6. For a probability [value] (a float between 0 and 1) and a positive
    [num_thresholds] (below [2^53], as the number of slots of an array is),
    the bucket index [int(value * num_thresholds)] is computed without error
    and lies between 0 and [num_thresholds]; so on a state with one slot per
    bucket the assertion of [Auc.update] holds and the sample is counted. *)
Theorem auc_bucket_index_in_range (n : Z) (value : float) :
  Auc.probability value -> 0 < n < 2 ^ 53 ->
  (exists b, Auc.bin_index n value = Ok b /\ 0 <= b <= n)
  /\ (forall s preds i p0 lbl,
        Auc.num_thresholds s = n -> Auc.well_formed s ->
        preds !! i = Some [p0; value] ->
        Auc.update_body preds (i, lbl) s
        = (Ok tt, Auc.count_sample s (p0, value, lbl))).
Proof.
  intros Hv Hn. split.
  - apply Auc_bin_index_bound; assumption.
  - intros s preds i p0 lbl En Hwf Erow.
    apply Auc_update_body_sample; try assumption. rewrite En. exact Hn.
Qed.

Lemma auc_bucket_index_in_range_witness :
  exists b, Auc.bin_index 4095 1%float = Ok b /\ 0 <= b <= 4095.
Proof.
  apply (auc_bucket_index_in_range 4095 1%float).
  - split; vm_compute; reflexivity.
  - split; [reflexivity | vm_compute; reflexivity].
Defined.

(** ** Batches: the same samples, grouped differently *)

Section Feeding.

Context {St X A : Type}.
Variable update : list X -> Py.M St A.
Variable step : St -> X -> St.
Variable Inv : St -> Prop.
Variable P : X -> Prop.

Hypothesis update_fold : forall b s, Inv s -> Forall P b ->
  exists v, update b s = (Ok v, fold_left step b s).
Hypothesis step_Inv : forall s x, Inv s -> P x -> Inv (step s x).

Lemma fold_left_Inv (l : list X) (s : St) :
  Inv s -> Forall P l -> Inv (fold_left step l s).
Proof.
  revert s. induction l as [| x l IH]; intros s Hs Hl; cbn [fold_left].
  - exact Hs.
  - inversion Hl; subst. apply IH; [apply step_Inv |]; assumption.
Qed.

(** Feeding batch after batch is feeding their concatenation at once. *)
Lemma feed_concat (bs : list (list X)) (s : St) :
  Inv s -> Forall P (concat bs) ->
  feed update bs s = (Ok tt, fold_left step (concat bs) s).
Proof.
  revert s. induction bs as [| b bs IH]; intros s Hs Hall;
    cbn [concat feed Py.for_each].
  - reflexivity.
  - apply Forall_app in Hall as [Hb Hbs].
    destruct (update_fold b s Hs Hb) as [v Ev].
    rewrite (bind_ok _ _ s (fold_left step b s) tt)
      by (rewrite (bind_ok _ _ _ _ _ Ev); reflexivity).
    rewrite fold_left_app. apply IH; [apply fold_left_Inv |]; assumption.
Qed.

Hypothesis step_comm : forall s x y, step (step s x) y = step (step s y) x.

Lemma fold_left_permutation (l l' : list X) :
  Permutation l l' -> forall s, fold_left step l s = fold_left step l' s.
Proof.
  induction 1 as [| x l l' _ IH | x y l | l l' l'' _ IH1 _ IH2]; intros s;
    cbn [fold_left].
  - reflexivity.
  - apply IH.
  - rewrite step_comm. reflexivity.
  - rewrite IH1. apply IH2.
Qed.

(** Two groupings of the same samples leave the metric in the same state. *)
Lemma feed_regroup (bs1 bs2 : list (list X)) (s : St) :
  Inv s -> Forall P (concat bs1) -> Permutation (concat bs1) (concat bs2) ->
  exists s', feed update bs1 s = (Ok tt, s') /\ feed update bs2 s = (Ok tt, s').
Proof.
  intros Hs Hall Hperm. exists (fold_left step (concat bs1) s). split.
  - apply feed_concat; assumption.
  - rewrite (fold_left_permutation _ _ Hperm s).
    apply feed_concat; [exact Hs |].
    eapply Permutation_Forall; eassumption.
Qed.

End Feeding.

Lemma Precision_count_sample_comm (d : dtype) (s : Precision.state)
    (x y : float * Z) :
  Precision.count_sample d (Precision.count_sample d s x) y
  = Precision.count_sample d (Precision.count_sample d s y) x.
Proof.
  destruct x as [p1 l1], y as [p2 l2]. unfold Precision.count_sample.
  destruct (Precision.decision_in d p1 =? 1), (Precision.decision_in d p1 =? l1),
    (Precision.decision_in d p2 =? 1), (Precision.decision_in d p2 =? l2);
    cbn [Precision.tp Precision.fp]; f_equal; lia.
Qed.

Lemma Recall_count_sample_comm (s : Recall.state) (x y : float * Z) :
  Recall.count_sample (Recall.count_sample s x) y
  = Recall.count_sample (Recall.count_sample s y) x.
Proof.
  destruct x as [p1 l1], y as [p2 l2]. unfold Recall.count_sample.
  destruct (l1 =? 1), (Recall.decision p1 =? l1),
    (l2 =? 1), (Recall.decision p2 =? l2);
    cbn [Recall.tp Recall.fn]; f_equal; lia.
Qed.

Lemma Precision_regroup (d : dtype) (bs1 bs2 : list (list (float * Z)))
    (s : Precision.state) :
  Permutation (concat bs1) (concat bs2) ->
  exists s', feed (Precision.update_batch d) bs1 s = (Ok tt, s')
             /\ feed (Precision.update_batch d) bs2 s = (Ok tt, s').
Proof.
  intros Hperm.
  apply (feed_regroup (Precision.update_batch d) (Precision.count_sample d)
           (fun _ => True) (fun _ => True)); auto.
  - intros b s0 _ _. exists tt. apply Precision_update_samples.
  - apply Precision_count_sample_comm.
  - apply Forall_forall. auto.
Qed.

Lemma Recall_regroup (bs1 bs2 : list (list (float * Z))) (s : Recall.state) :
  Permutation (concat bs1) (concat bs2) ->
  exists s', feed Recall.update_batch bs1 s = (Ok tt, s')
             /\ feed Recall.update_batch bs2 s = (Ok tt, s').
Proof.
  intros Hperm.
  apply (feed_regroup Recall.update_batch Recall.count_sample
           (fun _ => True) (fun _ => True)); auto.
  - intros b s0 _ _. exists tt. apply Recall_update_samples.
  - apply Recall_count_sample_comm.
  - apply Forall_forall. auto.
Qed.

Lemma for_each_enumerate_fold {St X B} (Inv : St -> Prop) (P : X -> Prop)
    (step : St -> X -> St) (proj : X -> B)
    (body : list X -> nat * B -> Py.M St unit) :
  (forall l i x s, Inv s -> P x -> l !! i = Some x ->
     body l (i, proj x) s = (Ok tt, step s x)) ->
  (forall s x, Inv s -> P x -> Inv (step s x)) ->
  forall (pre rest : list X) (s : St),
    Inv s -> Forall P rest ->
    Py.for_each (combine (seq (length pre) (length rest)) (map proj rest))
                (body (pre ++ rest)) s
    = (Ok tt, fold_left step rest s).
Proof.
  intros Hbody Hinv pre rest. revert pre.
  induction rest as [| x rest IH]; intros pre s Hs Hall;
    cbn [length seq map combine Py.for_each fold_left].
  - reflexivity.
  - inversion Hall as [| ? ? Hx Hrest]; subst.
    rewrite (bind_ok _ _ s (step s x) tt).
    + replace (pre ++ x :: rest) with ((pre ++ [x]) ++ rest)
        by (rewrite <- app_assoc; reflexivity).
      replace (S (length pre)) with (length (pre ++ [x]))
        by (rewrite length_app; cbn; lia).
      apply IH; [apply Hinv |]; assumption.
    + apply Hbody; try assumption. rewrite lookup_app_r by lia.
      replace (length pre - length pre)%nat with 0%nat by lia. reflexivity.
Qed.

Lemma Auc_bump_comm (a : list float) (i j : nat) :
  Auc.bump (Auc.bump a i) j = Auc.bump (Auc.bump a j) i.
Proof.
  destruct (Nat.eq_dec i j) as [-> | Hij]; [reflexivity |].
  unfold Auc.bump.
  destruct (a !! i) as [x |] eqn:Ei; destruct (a !! j) as [y |] eqn:Ej;
    rewrite ?list_lookup_insert_ne by congruence; rewrite ?Ei, ?Ej;
    try reflexivity.
  apply list_insert_insert_ne. congruence.
Qed.

Lemma Auc_count_sample_comm (s : Auc.state) (x y : float * float * Z) :
  Auc.count_sample (Auc.count_sample s x) y
  = Auc.count_sample (Auc.count_sample s y) x.
Proof.
  destruct x as [[p1 v1] l1], y as [[p2 v2] l2]. unfold Auc.count_sample.
  destruct (negb (l1 =? 0)), (negb (l2 =? 0));
    cbn [Auc.num_thresholds Auc.stat_pos Auc.stat_neg];
    f_equal; apply Auc_bump_comm.
Qed.

Lemma Auc_update_arrays (preds : list (list float)) (labels : list Z)
    (s : Auc.state) :
  Auc.update (NdArray preds) (NdArray labels) s
  = Py.for_each (enumerate labels) (Auc.update_body preds) s.
Proof. reflexivity. Qed.

(** The states [update] can work on: one slot per bucket, and a positive
    number of thresholds that an array can have. *)
Lemma Auc_update_samples (batch : list (float * float * Z)) (s : Auc.state) :
  Auc.well_formed s /\ 0 < Auc.num_thresholds s < 2 ^ 53 ->
  Forall (fun x => Auc.probability (snd (fst x))) batch ->
  Auc.update_batch batch s = (Ok tt, fold_left Auc.count_sample batch s).
Proof.
  intros Hs Hall. unfold Auc.update_batch. rewrite Auc_update_arrays.
  unfold enumerate. rewrite length_map.
  apply (for_each_enumerate_fold
           (fun s => Auc.well_formed s /\ 0 < Auc.num_thresholds s < 2 ^ 53)
           (fun x => Auc.probability (snd (fst x)))
           Auc.count_sample snd
           (fun l => Auc.update_body (map (fun x => [fst (fst x); snd (fst x)]) l))
           ) with (pre := []); try assumption.
  - intros l i [[p0 v] lbl] s0 [Hwf Hn] Hv El. cbn [fst snd] in *.
    apply Auc_update_body_sample; try assumption.
    rewrite lookup_map, El. reflexivity.
  - intros s0 x [Hwf Hn] _. split.
    + apply Auc_count_sample_well_formed. exact Hwf.
    + destruct x as [[p0 v] lbl]. unfold Auc.count_sample.
      destruct (negb (lbl =? 0)); exact Hn.
Qed.

Lemma Auc_regroup (bs1 bs2 : list (list (float * float * Z))) (s : Auc.state) :
  Auc.well_formed s -> 0 < Auc.num_thresholds s < 2 ^ 53 ->
  Forall (fun x => Auc.probability (snd (fst x))) (concat bs1) ->
  Permutation (concat bs1) (concat bs2) ->
  exists s', feed Auc.update_batch bs1 s = (Ok tt, s')
             /\ feed Auc.update_batch bs2 s = (Ok tt, s').
Proof.
  intros Hwf Hn Hall Hperm.
  apply (feed_regroup Auc.update_batch Auc.count_sample
           (fun s => Auc.well_formed s /\ 0 < Auc.num_thresholds s < 2 ^ 53)
           (fun x => Auc.probability (snd (fst x)))); auto.
  - intros b s0 Hs0 Hb. exists tt. apply Auc_update_samples; assumption.
  - intros s0 x [Hwf0 Hn0] _. split.
    + apply Auc_count_sample_well_formed. exact Hwf0.
    + destruct x as [[p0 v] lbl]. unfold Auc.count_sample.
      destruct (negb (lbl =? 0)); exact Hn0.
  - apply Auc_count_sample_comm.
Qed.

(** ** [Accuracy.update] on correctness masks *)

Lemma float_of_Z_0 : float_of_Z 0 = 0%float.
Proof. vm_compute. reflexivity. Qed.

Lemma float_of_Z_1 : float_of_Z 1 = 1%float.
Proof. vm_compute. reflexivity. Qed.

Lemma py_slice_to_map {A B} (f : A -> B) (k : Z) (l : list A) :
  py_slice_to k (map f l) = map f (py_slice_to k l).
Proof.
  unfold py_slice_to. rewrite length_map.
  destruct (0 <=? k); apply firstn_map.
Qed.

Lemma py_slice_to_length {A} (k : Z) (l : list A) :
  (length (py_slice_to k l) <= length l)%nat.
Proof.
  unfold py_slice_to. destruct (0 <=? k); rewrite length_take; lia.
Qed.

Lemma Accuracy_mask_slice (k : Z) (rows : list (list bool)) :
  map (py_slice_to k) (Accuracy.mask_of rows)
  = Accuracy.mask_of (map (py_slice_to k) rows).
Proof.
  unfold Accuracy.mask_of. rewrite !map_map.
  apply map_ext. intros row. apply py_slice_to_map.
Qed.

Lemma count_true_bounds (l : list bool) :
  0 <= Accuracy.count_true l <= Z.of_nat (length l).
Proof.
  unfold Accuracy.count_true.
  induction l as [| [] l IH]; cbn [fold_right length]; lia.
Qed.

Lemma count_true_app (l1 l2 : list bool) :
  Accuracy.count_true (l1 ++ l2)
  = Accuracy.count_true l1 + Accuracy.count_true l2.
Proof.
  unfold Accuracy.count_true.
  induction l1 as [| [] l1 IH]; cbn [app fold_right]; lia.
Qed.

(** The float sum of a 0/1 list is the number of its ones, as long as the
    running sum stays below [2^53]. *)
Lemma sum_bits (l : list bool) (a : Z) :
  0 <= a -> a + Z.of_nat (length l) < 2 ^ 53 ->
  fold_left PrimFloat.add
    (map (fun b : bool => if b then 1%float else 0%float) l) (float_of_Z a)
  = float_of_Z (a + Accuracy.count_true l).
Proof.
  revert a. induction l as [| b l IH]; intros a Ha Hb.
  { cbn. rewrite Z.add_0_r. reflexivity. }
  cbn [map fold_left length] in *.
  change (Accuracy.count_true (b :: l))
    with (if b then Accuracy.count_true l + 1 else Accuracy.count_true l).
  pose proof (count_true_bounds l) as Hc.
  destruct b.
  - rewrite <- float_of_Z_1, float_add_int by lia.
    rewrite IH by lia. f_equal. lia.
  - rewrite <- float_of_Z_0, float_add_int by lia.
    rewrite IH by lia. f_equal. lia.
Qed.

Lemma ones_concat (k : Z) (rows : list (list bool)) :
  Accuracy.count_true (concat (map (py_slice_to k) rows)) = Accuracy.ones k rows.
Proof.
  induction rows as [| row rows IH]; cbn [map concat Accuracy.ones fold_right].
  - reflexivity.
  - rewrite count_true_app, IH. reflexivity.
Qed.

Lemma ones_app (k : Z) (rows1 rows2 : list (list bool)) :
  Accuracy.ones k (rows1 ++ rows2) = Accuracy.ones k rows1 + Accuracy.ones k rows2.
Proof.
  unfold Accuracy.ones. induction rows1 as [| row rows1 IH]; cbn [app fold_right].
  - reflexivity.
  - rewrite IH. lia.
Qed.

Lemma sliced_cells (k : Z) (rows : list (list bool)) :
  (length (concat (map (py_slice_to k) rows)) <= length (concat rows))%nat.
Proof.
  induction rows as [| row rows IH]; cbn [map concat]; [lia |].
  rewrite !length_app. pose proof (py_slice_to_length k row). lia.
Qed.

Lemma ones_bounds (k : Z) (rows : list (list bool)) :
  0 <= Accuracy.ones k rows <= Z.of_nat (length (concat rows)).
Proof.
  rewrite <- ones_concat.
  pose proof (count_true_bounds (concat (map (py_slice_to k) rows))).
  pose proof (sliced_cells k rows). lia.
Qed.

Lemma ones_permutation (k : Z) (rows1 rows2 : list (list bool)) :
  Permutation rows1 rows2 -> Accuracy.ones k rows1 = Accuracy.ones k rows2.
Proof.
  unfold Accuracy.ones.
  induction 1 as [| x l l' _ IH | x y l | l l' l'' _ IH1 _ IH2]; cbn [fold_right];
    lia.
Qed.

(** [correct[:, :k].sum()] on a mask counts its ones. *)
Lemma np_sum_mask (k : Z) (rows : list (list bool)) :
  Z.of_nat (length (concat rows)) < 2 ^ 53 ->
  np_sum (map (py_slice_to k) (Accuracy.mask_of rows))
  = float_of_Z (Accuracy.ones k rows).
Proof.
  intros Hsize. unfold np_sum. rewrite Accuracy_mask_slice.
  unfold Accuracy.mask_of. rewrite <- concat_map, <- float_of_Z_0.
  rewrite sum_bits; [rewrite Z.add_0_l, ones_concat; reflexivity | lia |].
  pose proof (sliced_cells k rows). lia.
Qed.

Section AccuracyBatch.

Variables (prev rows : list (list bool)).
Hypothesis rows_nonempty : rows <> [].
Hypothesis size_small :
  Z.of_nat (length (prev ++ rows) + length (concat (prev ++ rows))) < 2 ^ 53.

Lemma batch_ratio (x : float) :
  py_truediv_int x (Z.of_nat (length (Accuracy.mask_of rows)))
  = Ok (x / float_of_Z (Z.of_nat (length rows)))%float.
Proof.
  unfold Accuracy.mask_of. rewrite length_map. unfold py_truediv_int.
  assert (Hlen : 0 < Z.of_nat (length rows) < 2 ^ 53).
  { rewrite length_app in size_small. destruct rows; [contradiction |].
    cbn [length] in *. lia. }
  pose proof (py_float_of_int_small (Z.of_nat (length rows)) ltac:(lia)) as E.
  rewrite E. cbn [result_bind].
  rewrite (py_float_of_int_nonzero (Z.of_nat (length rows)) _ ltac:(lia) E).
  reflexivity.
Qed.

Lemma batch_total (k : Z) :
  (float_of_Z (Accuracy.ones k prev)
   + np_sum (map (py_slice_to k) (Accuracy.mask_of rows)))%float
  = float_of_Z (Accuracy.ones k (prev ++ rows)).
Proof.
  rewrite concat_app, !length_app in size_small.
  pose proof (ones_bounds k prev). pose proof (ones_bounds k rows).
  rewrite np_sum_mask by lia.
  rewrite float_add_int by lia. rewrite ones_app. reflexivity.
Qed.

(** The loop of [update] over the cutoffs still to do, [ks], when the
    cutoffs before them are done. *)
Lemma Accuracy_update_loop (ks : list Z) :
  forall (tdone : list float) (cdone : list Z) (accs : list float)
         (s : Accuracy.state),
    length tdone = length cdone ->
    Accuracy.total s
    = tdone ++ map (fun k => float_of_Z (Accuracy.ones k prev)) ks ->
    Accuracy.count s = cdone ++ map (fun _ => Z.of_nat (length prev)) ks ->
    exists accs',
      Py.fold_each (combine (seq (length tdone) (length ks)) ks) accs
        (Accuracy.update_body (Accuracy.mask_of rows)) s
      = (Ok accs',
         {| Accuracy.topk := Accuracy.topk s; Accuracy.maxk := Accuracy.maxk s;
            Accuracy.total :=
              tdone ++ map (fun k => float_of_Z (Accuracy.ones k (prev ++ rows))) ks;
            Accuracy.count :=
              cdone ++ map (fun _ => Z.of_nat (length (prev ++ rows))) ks |})
      /\ length accs' = (length accs + length ks)%nat.
Proof.
  induction ks as [| k ks IH]; intros tdone cdone accs s Hlen Ht Hc;
    cbn [length seq combine map Py.fold_each] in *.
  - exists accs. rewrite <- Ht, <- Hc. destruct s; split; [reflexivity | lia].
  - set (acc := (np_sum (map (py_slice_to k) (Accuracy.mask_of rows))
                 / float_of_Z (Z.of_nat (length rows)))%float).
    set (s1 := {| Accuracy.topk := Accuracy.topk s;
                  Accuracy.maxk := Accuracy.maxk s;
                  Accuracy.total :=
                    (tdone ++ [float_of_Z (Accuracy.ones k (prev ++ rows))])
                    ++ map (fun k => float_of_Z (Accuracy.ones k prev)) ks;
                  Accuracy.count :=
                    (cdone ++ [Z.of_nat (length (prev ++ rows))])
                    ++ map (fun _ => Z.of_nat (length prev)) ks |}).
    assert (Ebody : Accuracy.update_body (Accuracy.mask_of rows) accs
                      (length tdone, k) s = (Ok (accs ++ [acc]), s1)).
    { assert (Et : Accuracy.total s !! length tdone
                   = Some (float_of_Z (Accuracy.ones k prev))).
      { rewrite Ht, lookup_app_r by lia.
        replace (length tdone - length tdone)%nat with 0%nat by lia. reflexivity. }
      assert (Ec : Accuracy.count s !! length tdone
                   = Some (Z.of_nat (length prev))).
      { rewrite Hc, Hlen, lookup_app_r by lia.
        replace (length cdone - length cdone)%nat with 0%nat by lia. reflexivity. }
      unfold Accuracy.update_body.
      rewrite (bind_ok _ _ s s acc)
        by (unfold Py.lift; rewrite batch_ratio; reflexivity).
      unfold Py.bind, Py.get, Py.put, getitem.
      rewrite Et. unfold Py.ret at 1.
      cbn [Accuracy.count Accuracy.total Accuracy.topk Accuracy.maxk].
      rewrite Ec. unfold Py.ret. rewrite batch_total.
      replace (length (Accuracy.mask_of rows)) with (length rows)
        by (unfold Accuracy.mask_of; rewrite length_map; reflexivity).
      unfold s1. f_equal. f_equal.
      - rewrite Ht, insert_app_r_alt by lia.
        replace (length tdone - length tdone)%nat with 0%nat by lia.
        cbn [insert list_insert]. rewrite <- app_assoc. reflexivity.
      - rewrite Hc, Hlen, insert_app_r_alt by lia.
        replace (length cdone - length cdone)%nat with 0%nat by lia.
        cbn [insert list_insert]. rewrite <- app_assoc.
        rewrite !length_app. cbn [app]. do 2 f_equal. lia. }
    rewrite (bind_ok _ _ _ _ _ Ebody).
    destruct (IH (tdone ++ [float_of_Z (Accuracy.ones k (prev ++ rows))])
                 (cdone ++ [Z.of_nat (length (prev ++ rows))])
                 (accs ++ [acc]) s1) as [accs' [E Hl]].
    + rewrite !length_app. cbn [length]. lia.
    + reflexivity.
    + reflexivity.
    + exists accs'. split.
      * replace (S (length tdone))
          with (length (tdone ++ [float_of_Z (Accuracy.ones k (prev ++ rows))]))
          by (rewrite length_app; cbn [length]; lia).
        rewrite E. cbn [Accuracy.topk Accuracy.maxk s1].
        rewrite <- !app_assoc. reflexivity.
      * rewrite Hl, length_app. cbn [length]. lia.
Qed.

(** One batch, on a metric that has seen [prev]: [update] raises nothing
    and the metric has then seen [prev ++ rows]. *)
Lemma Accuracy_update_seen (topk : list Z) (maxk : Z) :
  exists v,
    Accuracy.update_batch rows (Accuracy.seen topk maxk prev)
    = (Ok v, Accuracy.seen topk maxk (prev ++ rows)).
Proof.
  unfold Accuracy.update_batch, Accuracy.update.
  set (s0 := Accuracy.seen topk maxk prev).
  set (s1 := Accuracy.seen topk maxk (prev ++ rows)).
  rewrite (bind_ok _ _ s0 s0 (Accuracy.mask_of rows)) by reflexivity.
  rewrite (bind_ok _ _ s0 s0 s0) by reflexivity.
  destruct (Accuracy_update_loop topk [] [] [] s0 eq_refl eq_refl eq_refl)
    as [accs [E Hl]].
  unfold enumerate. cbn [length app] in E.
  change (Accuracy.topk s0) with topk in *.
  change (Accuracy.maxk s0) with maxk in *.
  change {| Accuracy.topk := topk; Accuracy.maxk := maxk;
            Accuracy.total :=
              map (fun k => float_of_Z (Accuracy.ones k (prev ++ rows))) topk;
            Accuracy.count :=
              map (fun _ => Z.of_nat (length (prev ++ rows))) topk |}
    with s1 in E.
  rewrite (bind_ok _ _ s0 s1 accs E).
  unfold Accuracy.collapse.
  rewrite (bind_ok _ _ s1 s1 s1) by reflexivity.
  change (Accuracy.topk s1) with topk.
  destruct (length topk =? 1)%nat eqn:E1.
  - apply Nat.eqb_eq in E1. cbn [length Nat.add] in Hl.
    destruct accs as [| a accs]; [cbn [length] in Hl; lia |].
    exists (PyFloat a). reflexivity.
  - exists (PyList accs). reflexivity.
Qed.

End AccuracyBatch.

Lemma mask_size_app (rows1 rows2 : list (list bool)) :
  mask_size (rows1 ++ rows2) = mask_size rows1 + mask_size rows2.
Proof. unfold mask_size. rewrite concat_app, !length_app. lia. Qed.

Lemma mask_size_nonneg (rows : list (list bool)) : 0 <= mask_size rows.
Proof. unfold mask_size. lia. Qed.

Lemma Accuracy_feed_seen (topk : list Z) (maxk : Z) (bs : list (list (list bool))) :
  forall prev,
    Forall (fun b => b <> []) bs ->
    mask_size (prev ++ concat bs) < 2 ^ 53 ->
    feed Accuracy.update_batch bs (Accuracy.seen topk maxk prev)
    = (Ok tt, Accuracy.seen topk maxk (prev ++ concat bs)).
Proof.
  induction bs as [| b bs IH]; intros prev Hne Hsize;
    cbn [concat feed Py.for_each].
  - rewrite app_nil_r. reflexivity.
  - inversion Hne as [| ? ? Hb Hbs]; subst.
    cbn [concat] in Hsize. rewrite app_assoc in Hsize.
    pose proof (mask_size_app (prev ++ b) (concat bs)) as Happ.
    pose proof (mask_size_nonneg (concat bs)).
    destruct (Accuracy_update_seen prev b Hb ltac:(unfold mask_size in *; lia)
                topk maxk) as [v Ev].
    rewrite (bind_ok _ _ (Accuracy.seen topk maxk prev)
               (Accuracy.seen topk maxk (prev ++ b)) tt)
      by (rewrite (bind_ok _ _ _ _ _ Ev); reflexivity).
    rewrite app_assoc. apply IH; assumption.
Qed.

Lemma Accuracy_seen_permutation (topk : list Z) (maxk : Z)
    (rows1 rows2 : list (list bool)) :
  Permutation rows1 rows2 ->
  Accuracy.seen topk maxk rows1 = Accuracy.seen topk maxk rows2.
Proof.
  intros Hperm. unfold Accuracy.seen. f_equal.
  - apply map_ext. intros k. rewrite (ones_permutation k _ _ Hperm). reflexivity.
  - rewrite (Permutation_length Hperm). reflexivity.
Qed.

Lemma mask_size_permutation (rows1 rows2 : list (list bool)) :
  Permutation rows1 rows2 -> mask_size rows1 = mask_size rows2.
Proof.
  intros Hperm. unfold mask_size.
  rewrite (Permutation_length Hperm).
  assert (E : length (concat rows1) = length (concat rows2)).
  { clear -Hperm.
    induction Hperm as [| x l l' _ IH | x y l | l l' l'' _ IH1 _ IH2];
      cbn [concat]; rewrite ?length_app; lia. }
  rewrite E. reflexivity.
Qed.

Lemma Accuracy_reset_seen (s : Accuracy.state) :
  snd (Accuracy.reset s) = Accuracy.seen (Accuracy.topk s) (Accuracy.maxk s) [].
Proof.
  unfold Accuracy.reset, Py.bind, Py.get, Py.put, Accuracy.seen. cbn [snd].
  f_equal.
  - induction (Accuracy.topk s) as [| k ks IH]; cbn [length replicate map].
    + reflexivity.
    + rewrite IH. cbn [Accuracy.ones fold_right]. rewrite float_of_Z_0. reflexivity.
  - induction (Accuracy.topk s) as [| k ks IH]; cbn [length replicate map].
    + reflexivity.
    + rewrite IH. reflexivity.
Qed.

Lemma Accuracy_regroup (s : Accuracy.state) (bs1 bs2 : list (list (list bool))) :
  Forall (fun b => b <> []) bs1 -> Forall (fun b => b <> []) bs2 ->
  mask_size (concat bs1) < 2 ^ 53 ->
  Permutation (concat bs1) (concat bs2) ->
  exists s', feed Accuracy.update_batch bs1 (snd (Accuracy.reset s)) = (Ok tt, s')
             /\ feed Accuracy.update_batch bs2 (snd (Accuracy.reset s)) = (Ok tt, s').
Proof.
  intros Hne1 Hne2 Hsize Hperm. rewrite Accuracy_reset_seen.
  exists (Accuracy.seen (Accuracy.topk s) (Accuracy.maxk s) (concat bs1)). split.
  - apply (Accuracy_feed_seen _ _ bs1 []); assumption.
  - rewrite (Accuracy_seen_permutation _ _ _ _ Hperm).
    apply (Accuracy_feed_seen _ _ bs2 []); [assumption |].
    cbn [app]. rewrite <- (mask_size_permutation _ _ Hperm). exact Hsize.
Qed.

Lemma same_result_intro {St B A R} (update : B -> Py.M St A)
    (accumulate : Py.M St R) (s : St) (bs1 bs2 : list B) :
  (exists s', feed update bs1 s = (Ok tt, s') /\ feed update bs2 s = (Ok tt, s')) ->
  same_result update accumulate s bs1 bs2.
Proof.
  intros [s' [E1 E2]]. exists s'. split; [exact E1 |]. split; [exact E2 |].
  rewrite (bind_ok _ _ _ _ _ E1), (bind_ok _ _ _ _ _ E2). reflexivity.
Qed.

(** C5. For each of the four metrics, two groupings into batches of the same
    samples (the concatenations of the batches are permutations of one
    another: one batch of four samples against four batches of one, say) leave
    the metric in the same state, so [accumulate] returns the same:
    [Precision] (for prediction arrays of either dtype) and [Recall] from
    any state; [Auc] from any state with one slot per bucket, for samples
    whose class-1 probability lies between 0 and 1; [Accuracy] from [reset], for non-empty batches of 0/1 correctness
    masks with fewer than [2^24] rows and cells in all (so that the sum of a
    mask is exact in [float32] as in [float64]). *)
Theorem regrouping_batches_keeps_the_result :
  (forall s bs1 bs2,
      Forall (fun b => b <> []) bs1 -> Forall (fun b => b <> []) bs2 ->
      mask_size (concat bs1) < 2 ^ 24 ->
      Permutation (concat bs1) (concat bs2) ->
      same_result Accuracy.update_batch Accuracy.accumulate
        (snd (Accuracy.reset s)) bs1 bs2)
  /\ (forall d s bs1 bs2,
        Permutation (concat bs1) (concat bs2) ->
        same_result (Precision.update_batch d) Precision.accumulate s bs1 bs2)
  /\ (forall s bs1 bs2,
        Permutation (concat bs1) (concat bs2) ->
        same_result Recall.update_batch Recall.accumulate s bs1 bs2)
  /\ (forall s bs1 bs2,
        Auc.well_formed s -> 0 < Auc.num_thresholds s < 2 ^ 53 ->
        Forall (fun x => Auc.probability (snd (fst x))) (concat bs1) ->
        Permutation (concat bs1) (concat bs2) ->
        same_result Auc.update_batch Auc.accumulate s bs1 bs2).
Proof.
  split.
  { intros s bs1 bs2 H1 H2 Hsize Hperm. apply same_result_intro.
    apply Accuracy_regroup; try assumption.
    apply Z.lt_trans with (2 ^ 24); [exact Hsize | reflexivity]. }
  split.
  { intros d s bs1 bs2 Hperm. apply same_result_intro.
    apply Precision_regroup; assumption. }
  split.
  { intros s bs1 bs2 Hperm. apply same_result_intro.
    apply Recall_regroup; assumption. }
  intros s bs1 bs2 Hwf Hn Hall Hperm. apply same_result_intro.
  apply Auc_regroup; assumption.
Qed.

Lemma regrouping_batches_keeps_the_result_witness :
  same_result Accuracy.update_batch Accuracy.accumulate
    (snd (Accuracy.reset {| Accuracy.topk := [1; 2]; Accuracy.maxk := 2;
                            Accuracy.total := []; Accuracy.count := [] |}))
    [[[true; false]; [false; true]; [false; false]; [true; true]]]
    [[[true; true]]; [[false; false]]; [[true; false]]; [[false; true]]]
  /\ same_result Auc.update_batch Auc.accumulate
       {| Auc.num_thresholds := 3; Auc.stat_pos := [0; 0; 0; 0]%float;
          Auc.stat_neg := [0; 0; 0; 0]%float |}
       [[(0.9%float, 0.1%float, 0); (0.2%float, 0.8%float, 1);
         (0.5%float, 0.5%float, 0); (0%float, 1%float, 1)]]
       [[(0.9%float, 0.1%float, 0)]; [(0.2%float, 0.8%float, 1)];
        [(0.5%float, 0.5%float, 0)]; [(0%float, 1%float, 1)]].
Proof.
  destruct regrouping_batches_keeps_the_result as (Hacc & _ & _ & Hauc).
  split.
  - apply Hacc.
    + repeat constructor; discriminate.
    + repeat constructor; discriminate.
    + vm_compute. reflexivity.
    + cbn [concat app].
      apply Permutation_sym.
      apply (Permutation_cons_app [[true; false]; [false; true]; [false; false]] []).
      apply (Permutation_cons_app [[true; false]; [false; true]] []).
      apply Permutation_refl.
  - apply Hauc.
    + split; reflexivity.
    + split; [reflexivity | vm_compute; reflexivity].
    + cbn [concat app]. repeat constructor; vm_compute; reflexivity.
    + apply Permutation_refl.
Defined.

(** * Further properties of the code

    ** Loops over the samples of a batch *)

Section Loops.

Context {St : Type}.

(** A loop keeps every relation that is a preorder and that each turn keeps,
    whether the loop ends or raises. *)
Lemma for_each_keeps {I} (R : St -> St -> Prop) (xs : list I)
    (body : I -> Py.M St unit) :
  (forall s, R s s) -> (forall s1 s2 s3, R s1 s2 -> R s2 s3 -> R s1 s3) ->
  (forall x s, R s (snd (body x s))) ->
  forall s, R s (snd (Py.for_each xs body s)).
Proof.
  intros Hrefl Htrans Hbody. induction xs as [| x xs IH]; intros s; cbn.
  - apply Hrefl.
  - unfold Py.bind. specialize (Hbody x s).
    destruct (body x s) as [[[] | e] s1]; cbn [snd] in *.
    + eapply Htrans; [exact Hbody | apply IH].
    + exact Hbody.
Qed.

(** A loop whose first turn raises leaves the state as it was. *)
Lemma for_each_raise {I} (xs : list I) (e : exn) (s : St) :
  snd (Py.for_each xs (fun _ => Py.raise e) s) = s.
Proof. destruct xs; reflexivity. Qed.

(** A measure that each turn raises by at most one is raised by at most the
    number of turns. *)
Lemma for_each_grows {I} (m : St -> Z) (xs : list I) (body : I -> Py.M St unit) :
  (forall x s, m s <= m (snd (body x s)) <= m s + 1) ->
  forall s, m s <= m (snd (Py.for_each xs body s)) <= m s + Z.of_nat (length xs).
Proof.
  intros Hbody. induction xs as [| x xs IH]; intros s; cbn [Py.for_each length].
  - cbn. lia.
  - unfold Py.bind. specialize (Hbody x s).
    destruct (body x s) as [[[] | e] s1]; cbn [snd] in *.
    + specialize (IH s1). lia.
    + lia.
Qed.

(** A loop over the indices [0 .. n-1] whose turn at index [i] counts the
    [i]-th sample: as long as there are samples, it counts them in order. *)
Lemma for_each_seq_prefix {X} (step : St -> X -> St) (body : nat -> Py.M St unit)
    (samples : list X) :
  (forall i x s, samples !! i = Some x -> body i s = (Ok tt, step s x)) ->
  forall n s, (n <= length samples)%nat ->
    Py.for_each (seq 0 n) body s = (Ok tt, fold_left step (take n samples) s).
Proof.
  intros Hbody. induction n as [| n IH]; intros s Hn.
  - reflexivity.
  - rewrite seq_S, for_each_app. cbn [Nat.add].
    rewrite (bind_ok _ _ s (fold_left step (take n samples) s) tt)
      by (apply IH; lia).
    destruct (lookup_lt_is_Some_2 samples n ltac:(lia)) as [x Ex].
    rewrite (take_S_r _ _ _ Ex), fold_left_app. cbn [Py.for_each fold_left].
    rewrite (bind_ok _ _ _ _ tt (Hbody n x _ Ex)). reflexivity.
Qed.

(** The same loop going on past the last sample, where its turn raises: the
    samples are counted, then the error comes out. *)
Lemma for_each_seq_stops {X} (step : St -> X -> St) (body : nat -> Py.M St unit)
    (samples : list X) (e : exn) :
  (forall i x s, samples !! i = Some x -> body i s = (Ok tt, step s x)) ->
  (forall s, body (length samples) s = (Raise e, s)) ->
  forall n s, (length samples < n)%nat ->
    Py.for_each (seq 0 n) body s = (Raise e, fold_left step samples s).
Proof.
  intros Hbody Hstop n s Hn.
  replace n with (length samples + S (n - S (length samples)))%nat by lia.
  rewrite seq_app, for_each_app.
  rewrite (bind_ok _ _ s (fold_left step samples s) tt).
  - cbn [seq Py.for_each Nat.add]. apply bind_raise. apply Hstop.
  - rewrite (for_each_seq_prefix step body samples Hbody) by lia.
    rewrite take_ge by lia. reflexivity.
Qed.

End Loops.

Lemma lookup_combine {A B} (l1 : list A) (l2 : list B) (i : nat) (a : A) (b : B) :
  combine l1 l2 !! i = Some (a, b) <-> l1 !! i = Some a /\ l2 !! i = Some b.
Proof.
  revert l2 i. induction l1 as [| x l1 IH]; intros [| y l2] [| i]; cbn;
    try (split; [intros [=] | intros [[=] _]]; fail);
    try (split; [intros [=] | intros [_ [=]]]; fail).
  - split; [intros [= -> ->]; auto | intros [[= ->] [= ->]]; reflexivity].
  - apply IH.
Qed.

(** ** [Precision.update] and [Recall.update] on arrays of any lengths *)

Lemma Precision_update_body_at (d : dtype) (preds : list float)
    (labels : list Z) (i : nat) (sample : float * Z) (s : Precision.state) :
  combine preds labels !! i = Some sample ->
  Precision.update_body (map (Precision.decision_in d) preds) labels i s
  = (Ok tt, Precision.count_sample d s sample).
Proof.
  destruct sample as [p l]. intros [Ep El]%lookup_combine.
  unfold Precision.update_body.
  rewrite (bind_ok _ _ s s (Precision.decision_in d p));
    [| apply getitem_lookup; rewrite lookup_map, Ep; reflexivity].
  rewrite (bind_ok _ _ s s l) by (apply getitem_lookup; exact El).
  unfold Precision.count_sample.
  destruct (Precision.decision_in d p =? 1); [| reflexivity].
  destruct (Precision.decision_in d p =? l); reflexivity.
Qed.

Lemma Recall_update_body_at (preds : list float) (labels : list Z) (i : nat)
    (sample : float * Z) (s : Recall.state) :
  combine preds labels !! i = Some sample ->
  Recall.update_body (map Recall.decision preds) labels i s
  = (Ok tt, Recall.count_sample s sample).
Proof.
  destruct sample as [p l]. intros [Ep El]%lookup_combine.
  unfold Recall.update_body.
  rewrite (bind_ok _ _ s s (Recall.decision p));
    [| apply getitem_lookup; rewrite lookup_map, Ep; reflexivity].
  rewrite (bind_ok _ _ s s l) by (apply getitem_lookup; exact El).
  unfold Recall.count_sample.
  destruct (l =? 1); [| reflexivity].
  destruct (Recall.decision p =? l); reflexivity.
Qed.

Lemma getitem_past_end {St A} (a : list A) (i : nat) (s : St) :
  (length a <= i)%nat -> getitem a i s = (Raise IndexError, s).
Proof.
  intros H. unfold getitem. rewrite (lookup_ge_None_2 a i H). reflexivity.
Qed.

(** X1. [Precision.update] on two arrays, the predictions of dtype float32
    or float64, counts the samples that have both a prediction and a label,
    in order, each decided by [floor(pred + 0.5)] computed in the dtype of
    the predictions. With at least as many predictions as labels it returns,
    and predictions beyond the last label are ignored; with fewer predictions
    than labels it raises [IndexError] at the first label without a
    prediction, the samples before it staying counted. *)
Theorem precision_update_on_arrays (preds : farray) (labels : list Z)
    (s : Precision.state) :
  Precision.update (NdArray preds) (NdArray labels) s
  = (if (length labels <=? length (data preds))%nat
     then Ok tt else Raise IndexError,
     fold_left (Precision.count_sample (dt preds))
       (combine (data preds) labels) s).
Proof.
  rewrite Precision_update_arrays.
  destruct (Nat.leb_spec (length labels) (length (data preds))) as [H | H].
  - rewrite (for_each_seq_prefix (Precision.count_sample (dt preds)) _
               (combine (data preds) labels)).
    + rewrite take_ge by (rewrite length_combine; lia). reflexivity.
    + intros i x s0. apply Precision_update_body_at.
    + rewrite length_combine. lia.
  - apply for_each_seq_stops.
    + intros i x s0. apply Precision_update_body_at.
    + intros s0. unfold Precision.update_body. apply bind_raise.
      apply getitem_past_end. rewrite length_map, length_combine. lia.
    + rewrite length_combine. lia.
Qed.

(** X2. [Recall.update] on two arrays counts the samples that have both a
    prediction and a label, in order. With at least as many predictions as
    labels it returns, and predictions beyond the last label are ignored; with
    fewer predictions than labels it raises [IndexError] at the first label
    without a prediction, the samples before it staying counted. *)
Theorem recall_update_on_arrays (preds : list float) (labels : list Z)
    (s : Recall.state) :
  Recall.update (NdArray preds) (NdArray labels) s
  = (if (length labels <=? length preds)%nat then Ok tt else Raise IndexError,
     fold_left Recall.count_sample (combine preds labels) s).
Proof.
  rewrite Recall_update_arrays.
  destruct (Nat.leb_spec (length labels) (length preds)) as [H | H].
  - rewrite (for_each_seq_prefix Recall.count_sample _ (combine preds labels)).
    + rewrite take_ge by (rewrite length_combine; lia). reflexivity.
    + intros i x s0. apply Recall_update_body_at.
    + rewrite length_combine. lia.
  - apply for_each_seq_stops.
    + intros i x s0. apply Recall_update_body_at.
    + intros s0. unfold Recall.update_body. apply bind_raise.
      apply getitem_past_end. rewrite length_map, length_combine. lia.
    + rewrite length_combine. lia.
Qed.

(** ** The counters of [Precision] and [Recall] only grow *)

Lemma Precision_update_body_grows (preds labels : list Z) (i : nat)
    (s : Precision.state) :
  Precision.tp s <= Precision.tp (snd (Precision.update_body preds labels i s))
  /\ Precision.fp s <= Precision.fp (snd (Precision.update_body preds labels i s))
  /\ Precision.tp (snd (Precision.update_body preds labels i s))
     + Precision.fp (snd (Precision.update_body preds labels i s))
     <= Precision.tp s + Precision.fp s + 1.
Proof.
  unfold Precision.update_body, getitem.
  destruct (preds !! i) as [p |]; [| cbn; lia].
  destruct (labels !! i) as [l |]; [| cbn; lia].
  unfold Py.bind, Py.get, Py.put, Py.ret. cbn iota beta.
  destruct (p =? 1); [| cbn; lia].
  destruct (p =? l); cbn [snd Precision.tp Precision.fp Recall.tp Recall.fn]; lia.
Qed.

Lemma Recall_update_body_grows (preds labels : list Z) (i : nat)
    (s : Recall.state) :
  Recall.tp s <= Recall.tp (snd (Recall.update_body preds labels i s))
  /\ Recall.fn s <= Recall.fn (snd (Recall.update_body preds labels i s))
  /\ Recall.tp (snd (Recall.update_body preds labels i s))
     + Recall.fn (snd (Recall.update_body preds labels i s))
     <= Recall.tp s + Recall.fn s + 1.
Proof.
  unfold Recall.update_body, getitem.
  destruct (preds !! i) as [p |]; [| cbn; lia].
  destruct (labels !! i) as [l |]; [| cbn; lia].
  unfold Py.bind, Py.get, Py.put, Py.ret. cbn iota beta.
  destruct (l =? 1); [| cbn; lia].
  destruct (p =? l); cbn [snd Precision.tp Precision.fp Recall.tp Recall.fn]; lia.
Qed.

(** X3. Whatever its arguments and whether it returns or raises,
    [Precision.update] lowers neither [tp] nor [fp], and [tp + fp] grows by at
    most the number of labels; [Recall.update] does the same to [tp] and
    [fn]. *)
Theorem binary_counters_only_grow :
  (forall preds labels s,
      let s' := snd (Precision.update preds labels s) in
      Precision.tp s <= Precision.tp s' /\ Precision.fp s <= Precision.fp s'
      /\ Precision.tp s' + Precision.fp s'
         <= Precision.tp s + Precision.fp s + samples_of labels)
  /\ (forall preds labels s,
        let s' := snd (Recall.update preds labels s) in
        Recall.tp s <= Recall.tp s' /\ Recall.fn s <= Recall.fn s'
        /\ Recall.tp s' + Recall.fn s'
           <= Recall.tp s + Recall.fn s + samples_of labels).
Proof.
  split; intros preds labels s.
  - assert (Hloop : forall (ps ls : list Z) (n : nat),
               let s' := snd (Py.for_each (seq 0 n) (Precision.update_body ps ls) s) in
               Precision.tp s <= Precision.tp s' /\ Precision.fp s <= Precision.fp s'
               /\ Precision.tp s' + Precision.fp s'
                  <= Precision.tp s + Precision.fp s + Z.of_nat n).
    { intros ps ls n.
      pose proof (for_each_grows Precision.tp (seq 0 n) (Precision.update_body ps ls)
                    ltac:(intros x s0; cbv beta;
                          pose proof (Precision_update_body_grows ps ls x s0); lia) s).
      pose proof (for_each_grows Precision.fp (seq 0 n) (Precision.update_body ps ls)
                    ltac:(intros x s0; cbv beta;
                          pose proof (Precision_update_body_grows ps ls x s0); lia) s).
      pose proof (for_each_grows (fun s => Precision.tp s + Precision.fp s) (seq 0 n)
                    (Precision.update_body ps ls)
                    ltac:(intros x s0; cbv beta;
                          pose proof (Precision_update_body_grows ps ls x s0); lia) s).
      rewrite length_seq in *. cbv zeta. lia. }
    destruct preds as [p | | p |], labels as [l | | l |];
      try (cbn [Precision.update as_numpy Py.bind Py.ret Py.raise snd samples_of];
           lia);
      try (change (Precision.update _ _ s)
             with (Py.for_each (seq 0 (length l))
                     (fun _ : nat => Py.raise (St := Precision.state) IndexError) s);
           rewrite for_each_raise; cbn [samples_of]; lia);
      apply Hloop.
  - assert (Hloop : forall (ps ls : list Z) (n : nat),
               let s' := snd (Py.for_each (seq 0 n) (Recall.update_body ps ls) s) in
               Recall.tp s <= Recall.tp s' /\ Recall.fn s <= Recall.fn s'
               /\ Recall.tp s' + Recall.fn s'
                  <= Recall.tp s + Recall.fn s + Z.of_nat n).
    { intros ps ls n.
      pose proof (for_each_grows Recall.tp (seq 0 n) (Recall.update_body ps ls)
                    ltac:(intros x s0; cbv beta;
                          pose proof (Recall_update_body_grows ps ls x s0); lia) s).
      pose proof (for_each_grows Recall.fn (seq 0 n) (Recall.update_body ps ls)
                    ltac:(intros x s0; cbv beta;
                          pose proof (Recall_update_body_grows ps ls x s0); lia) s).
      pose proof (for_each_grows (fun s => Recall.tp s + Recall.fn s) (seq 0 n)
                    (Recall.update_body ps ls)
                    ltac:(intros x s0; cbv beta;
                          pose proof (Recall_update_body_grows ps ls x s0); lia) s).
      rewrite length_seq in *. cbv zeta. lia. }
    destruct preds as [p | | p |], labels as [l | | l |];
      try (cbn [Recall.update as_numpy Py.bind Py.ret Py.raise snd samples_of];
           lia);
      try (change (Recall.update _ _ s)
             with (Py.for_each (seq 0 (length l))
                     (fun _ : nat => Py.raise (St := Recall.state) IndexError) s);
           rewrite for_each_raise; cbn [samples_of]; lia);
      apply Hloop.
Qed.

(** ** [Accuracy.__init__] *)

Lemma fold_left_max_bounds (ks : list Z) (k : Z) :
  In (fold_left Z.max ks k) (k :: ks)
  /\ Forall (fun x => x <= fold_left Z.max ks k) (k :: ks).
Proof.
  revert k. induction ks as [| x ks IH]; intros k; cbn [fold_left].
  - split; [left; reflexivity | constructor; [lia | constructor]].
  - destruct (IH (Z.max k x)) as [Hin Hall]. split.
    + destruct Hin as [E | Hin].
      * rewrite <- E. destruct (Z.max_spec k x) as [[_ ->] | [_ ->]];
          [right; left | left]; reflexivity.
      * right. right. exact Hin.
    + inversion Hall as [| ? ? Hm Hks]; subst.
      constructor; [lia |]. constructor; [lia | exact Hks].
Qed.

Lemma Accuracy_init_ok (k : Z) (ks : list Z) :
  exists s, Accuracy.init (k :: ks) = Ok s
    /\ Accuracy.topk s = k :: ks
    /\ In (Accuracy.maxk s) (k :: ks)
    /\ Forall (fun x => x <= Accuracy.maxk s) (k :: ks)
    /\ Accuracy.total s = replicate (length (k :: ks)) 0%float
    /\ Accuracy.count s = replicate (length (k :: ks)) 0.
Proof.
  eexists. split; [reflexivity |].
  cbn [Accuracy.reset Py.bind Py.get Py.put snd Accuracy.topk Accuracy.maxk
       Accuracy.total Accuracy.count].
  destruct (fold_left_max_bounds ks k) as [Hin Hall].
  repeat split; assumption.
Qed.

(** X4. [Accuracy(topk)] raises [ValueError] on an empty [topk] (from
    [max(topk)]); on any other it returns a metric whose [maxk] is one of the
    cutoffs and bounds them all, with one zero total and one zero count per
    cutoff. *)
Theorem accuracy_init_cutoffs (topk : list Z) :
  (topk = [] -> exists msg, Accuracy.init topk = Raise (ValueError msg))
  /\ (topk <> [] ->
      exists s, Accuracy.init topk = Ok s
        /\ Accuracy.topk s = topk
        /\ In (Accuracy.maxk s) topk
        /\ Forall (fun k => k <= Accuracy.maxk s) topk
        /\ Accuracy.total s = replicate (length topk) 0%float
        /\ Accuracy.count s = replicate (length topk) 0).
Proof.
  split.
  - intros ->. eexists. reflexivity.
  - intros Hne. destruct topk as [| k ks]; [contradiction |].
    apply Accuracy_init_ok.
Qed.

Lemma accuracy_init_cutoffs_witness :
  exists s, Accuracy.init [1; 5] = Ok s
    /\ Accuracy.topk s = [1; 5]
    /\ In (Accuracy.maxk s) [1; 5]
    /\ Forall (fun k => k <= Accuracy.maxk s) [1; 5]
    /\ Accuracy.total s = replicate (length [1; 5]) 0%float
    /\ Accuracy.count s = replicate (length [1; 5]) 0.
Proof.
  apply (proj2 (accuracy_init_cutoffs [1; 5])). discriminate.
Defined.

(** ** [Accuracy.update] on any batch *)

Section FoldEach.

Context {St : Type}.

(** A loop with a local variable keeps every preorder that each turn keeps. *)
Lemma fold_each_keeps {I A} (R : St -> St -> Prop) (xs : list I)
    (body : A -> I -> Py.M St A) :
  (forall s, R s s) -> (forall s1 s2 s3, R s1 s2 -> R s2 s3 -> R s1 s3) ->
  (forall a x s, R s (snd (body a x s))) ->
  forall a s, R s (snd (Py.fold_each xs a body s)).
Proof.
  intros Hrefl Htrans Hbody. induction xs as [| x xs IH]; intros a s; cbn.
  - apply Hrefl.
  - unfold Py.bind. specialize (Hbody a x s).
    destruct (body a x s) as [[a' | e] s1]; cbn [snd] in *.
    + eapply Htrans; [exact Hbody | apply IH].
    + exact Hbody.
Qed.

End FoldEach.

Lemma same_shape_refl (s : Accuracy.state) : same_shape s s.
Proof. repeat split. Qed.

Lemma same_shape_trans (s1 s2 s3 : Accuracy.state) :
  same_shape s1 s2 -> same_shape s2 s3 -> same_shape s1 s3.
Proof. unfold same_shape. intros (? & ? & ? & ?) (? & ? & ? & ?). repeat split; congruence. Qed.

Lemma Accuracy_update_body_shape (correct : list (list float)) (accs : list float)
    (ik : nat * Z) (s : Accuracy.state) :
  same_shape s (snd (Accuracy.update_body correct accs ik s)).
Proof.
  destruct ik as [i k]. unfold Accuracy.update_body, Py.bind, Py.lift, getitem.
  destruct (py_truediv_int _ _); [| apply same_shape_refl].
  unfold Py.get. destruct (Accuracy.total s !! i) as [t |];
    [| apply same_shape_refl].
  unfold Py.ret, Py.put, Py.raise. cbn [Accuracy.count].
  destruct (Accuracy.count s !! i) as [c |]; cbn [snd]; unfold same_shape;
    cbn [Accuracy.topk Accuracy.maxk Accuracy.total Accuracy.count];
    rewrite ?length_insert; repeat split.
Qed.

(** X5. Whatever its argument and whether it returns or raises,
    [Accuracy.update] keeps the cutoffs [topk], [maxk] and the number of
    totals and of counts. *)
Theorem accuracy_update_keeps_shape (correct : pyarg (list (list float)))
    (s : Accuracy.state) :
  same_shape s (snd (Accuracy.update correct s)).
Proof.
  unfold Accuracy.update.
  assert (H : forall a, same_shape s
            (snd (Py.bind Py.get (fun s0 : Accuracy.state =>
                    Py.bind (Py.fold_each (enumerate (Accuracy.topk s0)) []
                               (Accuracy.update_body a))
                            Accuracy.collapse) s))).
  { intros a. unfold Py.bind at 1. unfold Py.get. unfold Py.bind.
    pose proof (fold_each_keeps same_shape (enumerate (Accuracy.topk s))
                  (Accuracy.update_body a) same_shape_refl same_shape_trans
                  (Accuracy_update_body_shape a) [] s) as Hloop.
    destruct (Py.fold_each _ _ _ s) as [[accs | e] s1]; cbn [snd] in *.
    - rewrite Accuracy_collapse_read_only. exact Hloop.
    - exact Hloop. }
  destruct correct as [a | | a |].
  - apply H.
  - apply same_shape_refl.
  - apply H.
  - apply same_shape_refl.
Qed.

Lemma py_truediv_int_small (x : float) (c : Z) :
  0 < c < 2 ^ 53 -> py_truediv_int x c = Ok (x / float_of_Z c)%float.
Proof.
  intros Hc. unfold py_truediv_int.
  pose proof (py_float_of_int_small c ltac:(lia)) as E.
  rewrite E. cbn [result_bind].
  rewrite (py_float_of_int_nonzero c _ ltac:(lia) E). reflexivity.
Qed.

Section AccuracyAnyBatch.

Variable correct : list (list float).
Hypothesis correct_nonempty : correct <> [].
Hypothesis correct_small : Z.of_nat (length correct) < 2 ^ 53.

(** The loop of [update] over the cutoffs still to do, [ks], whose totals
    are [trest] and whose counts are [crest], when the cutoffs before them
    are done. *)
Lemma Accuracy_update_loop_any (ks : list Z) :
  forall (tdone trest : list float) (cdone crest : list Z) (accs : list float)
         (s : Accuracy.state),
    length tdone = length cdone ->
    length trest = length ks -> length crest = length ks ->
    Accuracy.total s = tdone ++ trest -> Accuracy.count s = cdone ++ crest ->
    Py.fold_each (combine (seq (length tdone) (length ks)) ks) accs
      (Accuracy.update_body correct) s
    = (Ok (accs ++ map (accuracy_of_batch correct) ks),
       {| Accuracy.topk := Accuracy.topk s; Accuracy.maxk := Accuracy.maxk s;
          Accuracy.total :=
            tdone ++ map (fun tk => (fst tk
                                     + np_sum (map (py_slice_to (snd tk)) correct))%float)
                         (combine trest ks);
          Accuracy.count :=
            cdone ++ map (fun c => c + Z.of_nat (length correct)) crest |}).
Proof.
  induction ks as [| k ks IH]; intros tdone trest cdone crest accs s Hlen Ht Hc Et Ec.
  - destruct trest; [| discriminate]. destruct crest; [| discriminate].
    cbn [length seq combine map Py.fold_each]. rewrite app_nil_r.
    rewrite <- Et, <- Ec. destruct s; reflexivity.
  - destruct trest as [| t trest]; [discriminate |].
    destruct crest as [| c crest]; [discriminate |].
    cbn [length seq combine map Py.fold_each fst snd] in *.
    set (num := np_sum (map (py_slice_to k) correct)).
    set (s1 := {| Accuracy.topk := Accuracy.topk s;
                  Accuracy.maxk := Accuracy.maxk s;
                  Accuracy.total := (tdone ++ [(t + num)%float]) ++ trest;
                  Accuracy.count :=
                    (cdone ++ [c + Z.of_nat (length correct)]) ++ crest |}).
    assert (Ebody : Accuracy.update_body correct accs (length tdone, k) s
                    = (Ok (accs ++ [accuracy_of_batch correct k]), s1)).
    { assert (Et' : Accuracy.total s !! length tdone = Some t).
      { rewrite Et, lookup_app_r by lia.
        replace (length tdone - length tdone)%nat with 0%nat by lia. reflexivity. }
      assert (Ec' : Accuracy.count s !! length tdone = Some c).
      { rewrite Ec, Hlen, lookup_app_r by lia.
        replace (length cdone - length cdone)%nat with 0%nat by lia. reflexivity. }
      unfold Accuracy.update_body.
      rewrite (bind_ok _ _ s s (accuracy_of_batch correct k)).
      2:{ unfold Py.lift. rewrite py_truediv_int_small; [reflexivity |].
          destruct correct; [contradiction | cbn [length] in *; lia]. }
      unfold Py.bind, Py.get, Py.put, getitem.
      rewrite Et'. unfold Py.ret at 1.
      cbn [Accuracy.count Accuracy.total Accuracy.topk Accuracy.maxk].
      rewrite Ec'. unfold Py.ret.
      unfold s1. f_equal. f_equal.
      - rewrite Et, insert_app_r_alt by lia.
        replace (length tdone - length tdone)%nat with 0%nat by lia.
        cbn [insert list_insert]. rewrite <- app_assoc. reflexivity.
      - rewrite Ec, Hlen, insert_app_r_alt by lia.
        replace (length cdone - length cdone)%nat with 0%nat by lia.
        cbn [insert list_insert]. rewrite <- app_assoc. reflexivity. }
    rewrite (bind_ok _ _ _ _ _ Ebody).
    replace (S (length tdone)) with (length (tdone ++ [(t + num)%float]))
      by (rewrite length_app; cbn [length]; lia).
    rewrite (IH (tdone ++ [(t + num)%float]) trest
                (cdone ++ [c + Z.of_nat (length correct)]) crest
                (accs ++ [accuracy_of_batch correct k]) s1);
      try reflexivity; try lia.
    + cbn [Accuracy.topk Accuracy.maxk s1]. rewrite <- !app_assoc. reflexivity.
    + rewrite !length_app. cbn [length]. lia.
Qed.

End AccuracyAnyBatch.

Lemma Accuracy_update_array (correct : list (list float))
    (s : Accuracy.state) :
  correct <> [] -> Z.of_nat (length correct) < 2 ^ 53 ->
  length (Accuracy.total s) = length (Accuracy.topk s) ->
  length (Accuracy.count s) = length (Accuracy.topk s) ->
  Accuracy.update (NdArray correct) s
  = (Ok (collapsed (Accuracy.topk s)
           (map (accuracy_of_batch correct) (Accuracy.topk s))),
     {| Accuracy.topk := Accuracy.topk s; Accuracy.maxk := Accuracy.maxk s;
        Accuracy.total :=
          map (fun tk => (fst tk + np_sum (map (py_slice_to (snd tk)) correct))%float)
              (combine (Accuracy.total s) (Accuracy.topk s));
        Accuracy.count :=
          map (fun c => c + Z.of_nat (length correct)) (Accuracy.count s) |}).
Proof.
  intros Hne Hsmall Ht Hc. unfold Accuracy.update.
  rewrite (bind_ok _ _ s s correct) by reflexivity.
  rewrite (bind_ok _ _ s s s) by reflexivity.
  unfold enumerate.
  pose proof (Accuracy_update_loop_any correct Hne Hsmall (Accuracy.topk s)
                [] (Accuracy.total s) [] (Accuracy.count s) [] s
                eq_refl Ht Hc eq_refl eq_refl) as E.
  cbn [length app] in E.
  rewrite (bind_ok _ _ _ _ _ E).
  unfold Accuracy.collapse, collapsed, Py.bind, Py.get, getitem.
  cbn [Accuracy.topk].
  destruct (length (Accuracy.topk s) =? 1)%nat eqn:E1; [| reflexivity].
  apply Nat.eqb_eq in E1.
  destruct (Accuracy.topk s) as [| k [| k' ks]]; try discriminate.
  reflexivity.
Qed.

(** X6. [Accuracy.update] on a correctness mask, a 0/1 matrix, with at least
    one row, for a metric that has seen the masks [prev] since its last
    [reset], where the masks seen and the new one have fewer than [2^24]
    rows and cells together, so that every sum of the source is exact, in
    the float32 of the mask as well as in float64: it returns the accuracy
    of this batch alone at each cutoff [k] (the number of ones among the
    first [k] columns over the number of rows; the value itself for one
    cutoff, the list otherwise), and the metric has then seen the rows of
    [prev] and of this batch: each total holds the number of ones so far,
    each count the number of rows so far, and [topk] and [maxk] are kept. *)
Theorem accuracy_update_on_batch (topk : list Z) (maxk : Z)
    (prev rows : list (list bool)) :
  rows <> [] -> mask_size (prev ++ rows) < 2 ^ 24 ->
  Accuracy.update (NdArray (Accuracy.mask_of rows)) (Accuracy.seen topk maxk prev)
  = (Ok (collapsed topk
           (map (fun k => (float_of_Z (Accuracy.ones k rows)
                           / float_of_Z (Z.of_nat (length rows)))%float) topk)),
     Accuracy.seen topk maxk (prev ++ rows)).
Proof.
  intros Hne Hsize.
  assert (H24 : 2 ^ 24 < 2 ^ 53) by reflexivity.
  pose proof (mask_size_app prev rows) as Happ.
  pose proof (mask_size_nonneg prev) as Hprev.
  assert (Hrows : mask_size rows < 2 ^ 53) by lia.
  assert (Hlen : length (Accuracy.mask_of rows) = length rows)
    by (unfold Accuracy.mask_of; apply length_map).
  destruct (Accuracy_update_seen prev rows Hne
              ltac:(unfold mask_size in Hsize; lia) topk maxk) as [v Ev].
  unfold Accuracy.update_batch in Ev. rewrite Ev.
  rewrite (Accuracy_update_array (Accuracy.mask_of rows)
             (Accuracy.seen topk maxk prev)) in Ev.
  - injection Ev as Ev _. rewrite <- Ev. cbn [Accuracy.seen Accuracy.topk].
    do 3 f_equal. apply map_ext. intros k. unfold accuracy_of_batch.
    rewrite Hlen, np_sum_mask by (unfold mask_size in Hrows; lia).
    reflexivity.
  - intros E. apply Hne. destruct rows; [reflexivity | discriminate].
  - rewrite Hlen. unfold mask_size in Hrows. lia.
  - cbn [Accuracy.seen Accuracy.total Accuracy.topk]. apply length_map.
  - cbn [Accuracy.seen Accuracy.count Accuracy.topk]. apply length_map.
Qed.

Lemma accuracy_update_on_batch_witness :
  Accuracy.update (NdArray (Accuracy.mask_of [[true; false]; [false; true]; [false; false]]))
    (Accuracy.seen [1; 2] 2 [[true; true]])
  = (Ok (collapsed [1; 2]
           (map (fun k => (float_of_Z
                             (Accuracy.ones k [[true; false]; [false; true]; [false; false]])
                           / float_of_Z (Z.of_nat 3))%float) [1; 2])),
     Accuracy.seen [1; 2] 2
       ([[true; true]] ++ [[true; false]; [false; true]; [false; false]])).
Proof.
  apply (accuracy_update_on_batch [1; 2] 2 [[true; true]]
           [[true; false]; [false; true]; [false; false]]).
  - discriminate.
  - reflexivity.
Defined.

(** ** [Accuracy.accumulate] on any counters *)

Lemma Accuracy_accumulate_loop_any (tcs : list (float * Z)) (res : list float)
    (s : Accuracy.state) :
  Forall (fun tc => snd tc < 2 ^ 53) tcs ->
  Py.fold_each tcs res Accuracy.accumulate_body s
  = (Ok (res ++ map accuracy_so_far tcs), s).
Proof.
  intros Hall. revert res. induction Hall as [| [t c] tcs Hc Hall IH]; intros res.
  - cbn. rewrite app_nil_r. reflexivity.
  - cbn [Py.fold_each map]. cbn [snd] in Hc.
    assert (E : Accuracy.accumulate_body res (t, c) s
                = (Ok (res ++ [accuracy_so_far (t, c)]), s)).
    { unfold Accuracy.accumulate_body, accuracy_so_far. cbn [fst snd].
      destruct (Z.ltb_spec 0 c).
      - unfold Py.bind, Py.lift. rewrite py_truediv_int_small by lia. reflexivity.
      - reflexivity. }
    rewrite (bind_ok _ _ _ _ _ E), IH, <- app_assoc. reflexivity.
Qed.

Lemma Accuracy_accumulate_array (s : Accuracy.state) :
  length (Accuracy.total s) = length (Accuracy.topk s) ->
  length (Accuracy.count s) = length (Accuracy.topk s) ->
  Forall (fun c => c < 2 ^ 53) (Accuracy.count s) ->
  Accuracy.accumulate s
  = (Ok (collapsed (Accuracy.topk s)
           (map accuracy_so_far (combine (Accuracy.total s) (Accuracy.count s)))),
     s).
Proof.
  intros Ht Hc Hall. unfold Accuracy.accumulate.
  rewrite (bind_ok _ _ s s s) by reflexivity.
  rewrite (bind_ok _ _ s s
             (map accuracy_so_far (combine (Accuracy.total s) (Accuracy.count s)))).
  - unfold Accuracy.collapse, collapsed, Py.bind, Py.get, getitem.
    destruct (length (Accuracy.topk s) =? 1)%nat eqn:E1; [| reflexivity].
    apply Nat.eqb_eq in E1. rewrite E1 in Ht, Hc.
    destruct (Accuracy.total s) as [| t [| ? ?]]; try discriminate.
    destruct (Accuracy.count s) as [| c [| ? ?]]; try discriminate.
    reflexivity.
  - rewrite Accuracy_accumulate_loop_any; [reflexivity |].
    clear Ht Hc. revert Hall. generalize (Accuracy.total s).
    induction (Accuracy.count s) as [| c cs IH]; intros ts Hall.
    + destruct ts; constructor.
    + destruct ts as [| t ts]; [constructor |].
      inversion Hall; subst. constructor; [assumption | apply IH; assumption].
Qed.

(** X7. [Accuracy.accumulate] on a metric with one total and one count per
    cutoff, the counts below [2^53]: it returns, for each cutoff, its total
    over its count when the count is positive and 0.0 otherwise (also for a
    negative count), as the value itself for one cutoff and as the list
    otherwise, and never raises. *)
Theorem accuracy_accumulate_ratios (s : Accuracy.state) :
  length (Accuracy.total s) = length (Accuracy.topk s) ->
  length (Accuracy.count s) = length (Accuracy.topk s) ->
  Forall (fun c => c < 2 ^ 53) (Accuracy.count s) ->
  Accuracy.accumulate s
  = (Ok (collapsed (Accuracy.topk s)
           (map accuracy_so_far (combine (Accuracy.total s) (Accuracy.count s)))),
     s).
Proof.
  apply Accuracy_accumulate_array.
Qed.

Lemma accuracy_accumulate_ratios_witness :
  Accuracy.accumulate
    {| Accuracy.topk := [1; 2]; Accuracy.maxk := 2;
       Accuracy.total := [3; 0]%float; Accuracy.count := [4; 0] |}
  = (Ok (PyList [(3 / float_of_Z 4)%float; 0%float]),
     {| Accuracy.topk := [1; 2]; Accuracy.maxk := 2;
        Accuracy.total := [3; 0]%float; Accuracy.count := [4; 0] |}).
Proof.
  apply (accuracy_accumulate_ratios
           {| Accuracy.topk := [1; 2]; Accuracy.maxk := 2;
              Accuracy.total := [3; 0]%float; Accuracy.count := [4; 0] |}).
  - reflexivity.
  - reflexivity.
  - repeat constructor.
Defined.

(** ** [Accuracy.compute] *)

Lemma insert_desc_perm (x : nat * float) (l : list (nat * float)) :
  Permutation (Accuracy.insert_desc x l) (x :: l).
Proof.
  induction l as [| y l IH]; cbn [Accuracy.insert_desc].
  - reflexivity.
  - destruct (snd y <=? snd x)%float; [reflexivity |].
    rewrite IH. apply perm_swap.
Qed.

Lemma map_fst_combine_seq {A} (l : list A) (start : nat) :
  map fst (combine (seq start (length l)) l) = seq start (length l).
Proof.
  revert start. induction l as [| x l IH]; intros start; cbn; [reflexivity |].
  rewrite IH. reflexivity.
Qed.

Lemma argsort_desc_perm (row : list float) :
  Permutation (Accuracy.argsort_desc row) (seq 0 (length row)).
Proof.
  unfold Accuracy.argsort_desc, enumerate.
  rewrite <- (map_fst_combine_seq row 0) at 2.
  apply Permutation_map.
  induction (combine (seq 0 (length row)) row) as [| x l IH]; cbn [fold_right].
  - reflexivity.
  - rewrite insert_desc_perm, IH. reflexivity.
Qed.

Lemma py_slice_to_NoDup {A} (k : Z) (l : list A) :
  NoDup l -> NoDup (py_slice_to k l).
Proof.
  intros H. unfold py_slice_to.
  destruct (0 <=? k);
    [rewrite <- (take_drop (Z.to_nat k) l) in H
    | rewrite <- (take_drop (length l - Z.to_nat (- k)) l) in H];
    apply NoDup_app in H; apply H.
Qed.

Lemma py_slice_to_length_nonneg {A} (k : Z) (l : list A) :
  0 <= k -> length (py_slice_to k l) = Nat.min (Z.to_nat k) (length l).
Proof.
  intros H. unfold py_slice_to. destruct (Z.leb_spec 0 k); [| lia].
  apply length_take.
Qed.

Lemma count_true_no_match (l : Z) (ranked : list nat) :
  (forall j, In j ranked -> Z.of_nat j <> l) ->
  Accuracy.count_true (map (fun j => Z.of_nat j =? l) ranked) = 0.
Proof.
  unfold Accuracy.count_true.
  induction ranked as [| j ranked IH]; intros H; cbn [map fold_right].
  - reflexivity.
  - destruct (Z.eqb_spec (Z.of_nat j) l) as [E | _].
    + exfalso. apply (H j); [left; reflexivity | exact E].
    + apply IH. intros j' Hj'. apply H. right. exact Hj'.
Qed.

Lemma count_true_one_match (l : Z) (ranked : list nat) :
  NoDup ranked ->
  Accuracy.count_true (map (fun j => Z.of_nat j =? l) ranked) <= 1.
Proof.
  induction 1 as [| j ranked Hnotin Hnd IH].
  - cbn. lia.
  - change (Accuracy.count_true (map (fun j => Z.of_nat j =? l) (j :: ranked)))
      with (if Z.of_nat j =? l
            then Accuracy.count_true (map (fun j => Z.of_nat j =? l) ranked) + 1
            else Accuracy.count_true (map (fun j => Z.of_nat j =? l) ranked)).
    destruct (Z.eqb_spec (Z.of_nat j) l) as [E | _]; [| exact IH].
    rewrite count_true_no_match; [lia |].
    intros j' Hj' E'. apply Hnotin.
    replace j with j' by lia. apply list_elem_of_In. exact Hj'.
Qed.

Lemma correct_row_mask (ranked : list nat) (l : Z) :
  Accuracy.correct_row ranked [l]
  = Ok (map (fun b : bool => if b then 1%float else 0%float)
            (map (fun j => Z.of_nat j =? l) ranked)).
Proof.
  unfold Accuracy.correct_row. rewrite map_map. reflexivity.
Qed.

(** The rows of [pred == label], for labels of the documented shape. *)
Lemma correct_rows_mask (k : Z) (pred : list (list float)) (label : list (list Z)) :
  Forall2 (fun _ l => length l = 1%nat) pred label ->
  exists rows : list (list bool),
    Accuracy.correct_rows
      (map (fun row => py_slice_to k (Accuracy.argsort_desc row)) pred) label
    = Ok (Accuracy.mask_of rows)
    /\ Forall2 (fun row scores =>
                  length row = length (py_slice_to k (Accuracy.argsort_desc scores)))
               rows pred
    /\ Forall (fun row => Accuracy.count_true row <= 1) rows.
Proof.
  induction 1 as [| scores lab pred label Hlab Hrest IH].
  - exists []. repeat split; constructor.
  - destruct IH as [rows [E [Hshape Hone]]].
    destruct lab as [| l [| ? ?]]; try discriminate.
    exists (map (fun j => Z.of_nat j =? l)
                (py_slice_to k (Accuracy.argsort_desc scores)) :: rows).
    repeat split.
    + cbn [map Accuracy.correct_rows]. rewrite correct_row_mask.
      cbn [result_bind]. rewrite E. reflexivity.
    + constructor; [apply length_map | exact Hshape].
    + constructor; [| exact Hone].
      apply count_true_one_match, py_slice_to_NoDup.
      rewrite (argsort_desc_perm scores). apply NoDup_seq.
Qed.

(** X8. [Accuracy.compute] on scores [pred] and labels of the documented
    shape [[batch_size, 1]]: it returns a tensor that is a 0/1 mask with one
    row per sample, leaves the metric as it was, puts at most one 1 in each
    row (so no sample counts twice under any cutoff), and, for a [maxk] that
    is not negative, gives each row [min(maxk, number of classes)] entries. *)
Theorem accuracy_compute_mask (pred : list (list float)) (label : list (list Z))
    (s : Accuracy.state) :
  Forall2 (fun _ l => length l = 1%nat) pred label ->
  exists rows : list (list bool),
    Accuracy.compute pred label s = (Ok (Tensor (Accuracy.mask_of rows)), s)
    /\ length rows = length pred
    /\ Forall (fun row => Accuracy.count_true row <= 1) rows
    /\ (0 <= Accuracy.maxk s ->
        Forall2 (fun row scores =>
                   length row
                   = Nat.min (Z.to_nat (Accuracy.maxk s)) (length scores))
                rows pred).
Proof.
  intros Hlab.
  destruct (correct_rows_mask (Accuracy.maxk s) pred label Hlab)
    as [rows [E [Hshape Hone]]].
  exists rows. repeat split.
  - unfold Accuracy.compute.
    rewrite (bind_ok _ _ s s s) by reflexivity.
    rewrite (bind_ok _ _ s s (Accuracy.mask_of rows));
      [reflexivity | unfold Py.lift; rewrite E; reflexivity].
  - apply (Forall2_length _ _ _ Hshape).
  - exact Hone.
  - intros Hk. eapply Forall2_impl; [exact Hshape |].
    intros row scores ->. cbv beta.
    rewrite py_slice_to_length_nonneg by exact Hk.
    rewrite (Permutation_length (argsort_desc_perm scores)), length_seq.
    reflexivity.
Qed.

Lemma accuracy_compute_mask_witness :
  exists rows : list (list bool),
    Accuracy.compute example_pred example_label
      {| Accuracy.topk := [1; 2]; Accuracy.maxk := 2;
         Accuracy.total := [0; 0]%float; Accuracy.count := [0; 0] |}
    = (Ok (Tensor (Accuracy.mask_of rows)),
       {| Accuracy.topk := [1; 2]; Accuracy.maxk := 2;
          Accuracy.total := [0; 0]%float; Accuracy.count := [0; 0] |})
    /\ length rows = length example_pred
    /\ Forall (fun row => Accuracy.count_true row <= 1) rows
    /\ (0 <= 2 ->
        Forall2 (fun row scores =>
                   length row = Nat.min (Z.to_nat 2) (length scores))
                rows example_pred).
Proof.
  apply (accuracy_compute_mask example_pred example_label
           {| Accuracy.topk := [1; 2]; Accuracy.maxk := 2;
              Accuracy.total := [0; 0]%float; Accuracy.count := [0; 0] |}).
  repeat constructor.
Defined.

(** ** Strings: messages and names *)


Lemma length_append (s t : string) :
  String.length (s ++ t) = (String.length s + String.length t)%nat.
Proof.
  induction s as [| c s IH]; cbn [String.append String.length Nat.add];
    [reflexivity | rewrite IH; reflexivity].
Qed.

Lemma append_inj_r (s1 s2 t : string) : (s1 ++ t = s2 ++ t)%string -> s1 = s2.
Proof.
  revert s2. induction s1 as [| c s1 IH]; intros [| c2 s2] H;
    cbn [String.append] in H.
  - reflexivity.
  - apply (f_equal String.length) in H. cbn [String.length] in H.
    rewrite length_append in H. lia.
  - apply (f_equal String.length) in H. cbn [String.length] in H.
    rewrite length_append in H. lia.
  - injection H as -> H. f_equal. apply IH, H.
Qed.


(** X9. An abstract method of [Metric] raises [NotImplementedError] with a
    message that tells both the method and the class: the messages of two
    classes differ whenever the class names differ, and the messages of
    [reset], [update], [accumulate] and [name] differ from each other
    whatever the classes. *)
Theorem metric_abstract_methods_name_method_and_class (c1 c2 : string) :
  (Metric.reset c1 = Metric.reset c2 -> c1 = c2)
  /\ (Metric.update c1 = Metric.update c2 -> c1 = c2)
  /\ (Metric.accumulate c1 = Metric.accumulate c2 -> c1 = c2)
  /\ (Metric.name c1 = Metric.name c2 -> c1 = c2)
  /\ Metric.reset c1 <> Metric.update c2
  /\ Metric.reset c1 <> Metric.accumulate c2
  /\ Metric.reset c1 <> Metric.name c2
  /\ Metric.update c1 <> Metric.accumulate c2
  /\ Metric.update c1 <> Metric.name c2
  /\ Metric.accumulate c1 <> Metric.name c2.
Proof.
  unfold Metric.reset, Metric.update, Metric.accumulate, Metric.name.
  repeat split; intros [= H]; apply (append_inj_r c1 c2 "."), H.
Qed.

Lemma metric_abstract_methods_name_method_and_class_witness :
  Metric.accumulate "Auc" = Metric.accumulate "Auc" /\ "Auc"%string = "Auc"%string.
Proof.
  split; [reflexivity |].
  apply (proj1 (proj2 (proj2
           (metric_abstract_methods_name_method_and_class "Auc" "Auc")))).
  reflexivity.
Defined.

(** ** [Accuracy._init_name] and [Accuracy.name] *)




(** ** [__init__] and [reset] *)

Lemma Auc_init_ok (n : Z) :
  -1 <= n ->
  Auc.init n
  = Ok {| Auc.num_thresholds := n;
          Auc.stat_pos := replicate (Z.to_nat (n + 1)) 0%float;
          Auc.stat_neg := replicate (Z.to_nat (n + 1)) 0%float |}.
Proof.
  intros Hn. unfold Auc.init, np_zeros.
  destruct (Z.ltb_spec (n + 1) 0); [lia | reflexivity].
Qed.

Lemma Auc_reset_ok (s : Auc.state) :
  -1 <= Auc.num_thresholds s ->
  Auc.reset s
  = (Ok tt,
     {| Auc.num_thresholds := Auc.num_thresholds s;
        Auc.stat_pos := replicate (Z.to_nat (Auc.num_thresholds s + 1)) 0%float;
        Auc.stat_neg := replicate (Z.to_nat (Auc.num_thresholds s + 1)) 0%float |}).
Proof.
  intros Hn. unfold Auc.reset, np_zeros, Py.bind, Py.get, Py.lift, Py.put.
  destruct (Z.ltb_spec (Auc.num_thresholds s + 1) 0); [lia | reflexivity].
Qed.

(** X11. [Auc(num_thresholds=n)] raises [ValueError] for [n < -1] (from
    [np.zeros] of a negative size). A construction that returns has
    [-1 <= n] and gives a metric with [n + 1] slots in each array, all of
    them 0.0. Whether a construction of a large size returns depends on the
    memory of the machine and is not stated. *)
Theorem auc_init_buckets (n : Z) :
  (n < -1 -> exists msg, Auc.init n = Raise (ValueError msg))
  /\ (forall s, Auc.init n = Ok s ->
        -1 <= n
        /\ Auc.well_formed s /\ Auc.num_thresholds s = n
        /\ Auc.stat_pos s = replicate (Z.to_nat (n + 1)) 0%float
        /\ Auc.stat_neg s = replicate (Z.to_nat (n + 1)) 0%float).
Proof.
  split.
  - intros Hn. unfold Auc.init, np_zeros.
    destruct (Z.ltb_spec (n + 1) 0); [| lia]. eexists. reflexivity.
  - intros s E.
    destruct (Z_lt_le_dec n (-1)) as [Hlt | Hge].
    + exfalso. unfold Auc.init, np_zeros in E.
      destruct (Z.ltb_spec (n + 1) 0); [discriminate | lia].
    + rewrite (Auc_init_ok n Hge) in E. injection E as <-.
      unfold Auc.well_formed. cbn [Auc.num_thresholds Auc.stat_pos Auc.stat_neg].
      rewrite length_replicate. repeat split. exact Hge.
Qed.

Lemma auc_init_buckets_witness :
  exists s, Auc.init 4095 = Ok s
    /\ -1 <= 4095
    /\ Auc.well_formed s /\ Auc.num_thresholds s = 4095
    /\ Auc.stat_pos s = replicate (Z.to_nat (4095 + 1)) 0%float
    /\ Auc.stat_neg s = replicate (Z.to_nat (4095 + 1)) 0%float.
Proof.
  eexists. split; [reflexivity |].
  apply (proj2 (auc_init_buckets 4095)). reflexivity.
Defined.

(** X12. [reset] puts a metric back into the state in which its constructor
    made it: for [Precision] and [Recall] from any state; for [Accuracy] from
    any state with the cutoffs of the constructed one; for [Auc] from any
    state with the constructed number of thresholds. *)
Theorem reset_restores_the_constructed_metric :
  (forall s, Precision.reset s = (Ok tt, Precision.init))
  /\ (forall s, Recall.reset s = (Ok tt, Recall.init))
  /\ (forall topk s0 s,
        Accuracy.init topk = Ok s0 -> same_shape s0 s ->
        Accuracy.reset s = (Ok tt, s0))
  /\ (forall n s0 s,
        Auc.init n = Ok s0 -> Auc.num_thresholds s = n ->
        Auc.reset s = (Ok tt, s0)).
Proof.
  repeat split.
  - intros topk s0 s Einit (Etopk & Emaxk & _).
    destruct topk as [| k ks]; [discriminate |].
    injection Einit as <-.
    cbn [Accuracy.reset Py.bind Py.get Py.put snd Accuracy.topk Accuracy.maxk] in *.
    rewrite Etopk, Emaxk. reflexivity.
  - intros n s0 s Einit En.
    destruct (Z.le_gt_cases (-1) n) as [Hn | Hn].
    + rewrite Auc_init_ok in Einit by exact Hn. injection Einit as <-.
      rewrite Auc_reset_ok by lia. rewrite En. reflexivity.
    + unfold Auc.init, np_zeros in Einit.
      destruct (Z.ltb_spec (n + 1) 0); [discriminate | lia].
Qed.

Lemma reset_restores_the_constructed_metric_witness :
  Accuracy.reset {| Accuracy.topk := [1; 5]; Accuracy.maxk := 5;
                    Accuracy.total := [3; 4]%float; Accuracy.count := [4; 4] |}
  = (Ok tt, {| Accuracy.topk := [1; 5]; Accuracy.maxk := 5;
               Accuracy.total := [0; 0]%float; Accuracy.count := [0; 0] |})
  /\ Auc.reset {| Auc.num_thresholds := 1; Auc.stat_pos := [2; 0]%float;
                  Auc.stat_neg := [1; 1]%float |}
     = (Ok tt, {| Auc.num_thresholds := 1; Auc.stat_pos := [0; 0]%float;
                  Auc.stat_neg := [0; 0]%float |}).
Proof.
  destruct reset_restores_the_constructed_metric as (_ & _ & Hacc & Hauc). split.
  - apply (Hacc [1; 5]); [reflexivity |]. repeat split.
  - apply (Hauc 1); reflexivity.
Defined.

(** ** [Auc.update] keeps the buckets *)

Lemma same_buckets_refl (s : Auc.state) : same_buckets s s.
Proof. repeat split. Qed.

Lemma same_buckets_trans (s1 s2 s3 : Auc.state) :
  same_buckets s1 s2 -> same_buckets s2 s3 -> same_buckets s1 s3.
Proof.
  unfold same_buckets. intros (? & ? & ?) (? & ? & ?). repeat split; congruence.
Qed.

Lemma Auc_increment_length (a a' : list float) (b : Z) :
  Auc.increment a b = Ok a' -> length a' = length a.
Proof.
  unfold Auc.increment. destruct (np_index (length a) b) as [j |]; [| discriminate].
  cbn [result_bind]. destruct (a !! j); [| discriminate].
  intros [= <-]. apply length_insert.
Qed.

Lemma Auc_update_body_buckets (preds : list (list float)) (ilbl : nat * Z)
    (s : Auc.state) :
  same_buckets s (snd (Auc.update_body preds ilbl s)).
Proof.
  destruct ilbl as [i lbl]. unfold Auc.update_body, Py.bind, getitem.
  destruct (preds !! i) as [row |]; [| apply same_buckets_refl].
  unfold Py.ret at 1. destruct (row !! 1%nat) as [value |];
    [| apply same_buckets_refl].
  unfold Py.ret, Py.get, Py.lift, Py.put, Py.raise.
  destruct (Auc.bin_index (Auc.num_thresholds s) value) as [b |];
    [| apply same_buckets_refl].
  destruct (b <=? Auc.num_thresholds s); [| apply same_buckets_refl].
  destruct (negb (lbl =? 0)).
  - destruct (Auc.increment (Auc.stat_pos s) b) as [a |] eqn:E;
      [| apply same_buckets_refl].
    unfold same_buckets. cbn [snd Auc.num_thresholds Auc.stat_pos Auc.stat_neg].
    rewrite (Auc_increment_length _ _ _ E). repeat split.
  - destruct (Auc.increment (Auc.stat_neg s) b) as [a |] eqn:E;
      [| apply same_buckets_refl].
    unfold same_buckets. cbn [snd Auc.num_thresholds Auc.stat_pos Auc.stat_neg].
    rewrite (Auc_increment_length _ _ _ E). repeat split.
Qed.

(** X13. Whatever its arguments and whether it returns or raises,
    [Auc.update] keeps the number of thresholds and the number of slots of
    [stat_pos] and of [stat_neg]; so a metric with one slot per bucket stays
    one. *)
Theorem auc_update_keeps_buckets (preds : pyarg (list (list float)))
    (labels : pyarg (list Z)) (s : Auc.state) :
  same_buckets s (snd (Auc.update preds labels s))
  /\ (Auc.well_formed s -> Auc.well_formed (snd (Auc.update preds labels s))).
Proof.
  assert (H : same_buckets s (snd (Auc.update preds labels s))).
  { unfold Auc.update, as_numpy, Py.bind, Py.ret, Py.raise.
    destruct labels as [l | | l |], preds as [p | | p |];
      try apply same_buckets_refl;
      first [ apply (for_each_keeps same_buckets _ _ same_buckets_refl
                       same_buckets_trans (Auc_update_body_buckets p))
            | apply (for_each_keeps same_buckets _ _ same_buckets_refl
                       same_buckets_trans);
              intros x s0; apply same_buckets_refl ]. }
  split; [exact H |].
  destruct H as (En & Ep & Eneg). unfold Auc.well_formed.
  rewrite En, Ep, Eneg. tauto.
Qed.

Lemma auc_update_keeps_buckets_witness :
  Auc.well_formed
    (snd (Auc.update (NdArray [[0.5; 1.5]%float]) (NdArray [1])
            {| Auc.num_thresholds := 1; Auc.stat_pos := [0; 0]%float;
               Auc.stat_neg := [0; 0]%float |})).
Proof.
  apply (proj2 (auc_update_keeps_buckets (NdArray [[0.5; 1.5]%float]) (NdArray [1])
                  {| Auc.num_thresholds := 1; Auc.stat_pos := [0; 0]%float;
                     Auc.stat_neg := [0; 0]%float |})).
  split; reflexivity.
Defined.

(** ** [Auc.update] at a sample it cannot count *)

Lemma combine_app_same {A B} (l1 l2 : list A) (k1 k2 : list B) :
  length l1 = length k1 ->
  combine (l1 ++ l2) (k1 ++ k2) = combine l1 k1 ++ combine l2 k2.
Proof.
  revert k1. induction l1 as [| x l1 IH]; intros [| y k1] H;
    try discriminate; cbn; [reflexivity |].
  rewrite IH by (cbn in H; lia). reflexivity.
Qed.

(** A loop over enumerated samples counts the samples it can count, in
    order, and goes on with the rest in the state so reached. *)
Lemma for_each_enumerate_run {St X B} (Inv : St -> Prop) (P : X -> Prop)
    (step : St -> X -> St) (proj : X -> B) (body : nat * B -> Py.M St unit) :
  (forall s x, Inv s -> P x -> Inv (step s x)) ->
  forall (good : list X) (pre : nat) (s : St) (tail : list (nat * B)),
    Inv s -> Forall P good ->
    (forall i x s, Inv s -> P x -> good !! i = Some x ->
       body ((pre + i)%nat, proj x) s = (Ok tt, step s x)) ->
    Py.for_each (combine (seq pre (length good)) (map proj good) ++ tail) body s
    = Py.for_each tail body (fold_left step good s).
Proof.
  intros Hstep. induction good as [| x good IH]; intros pre s tail Hs Hall Hbody.
  - reflexivity.
  - inversion Hall as [| ? ? Hx Hgood]; subst.
    cbn [length seq map combine app Py.for_each fold_left].
    pose proof (Hbody 0%nat x s Hs Hx eq_refl) as E.
    rewrite Nat.add_0_r in E. rewrite (bind_ok _ _ _ _ _ E).
    apply IH; [apply Hstep; assumption | exact Hgood |].
    intros i y s0 Hs0 Hy Ei.
    replace (S pre + i)%nat with (pre + S i)%nat by lia.
    apply Hbody; assumption.
Qed.

Lemma Auc_count_sample_thresholds (s : Auc.state) (x : float * float * Z) :
  Auc.num_thresholds (Auc.count_sample s x) = Auc.num_thresholds s.
Proof.
  destruct x as [[p0 v] lbl]. unfold Auc.count_sample.
  destruct (negb (lbl =? 0)); reflexivity.
Qed.

(** X14. [Auc.update] is not all-or-nothing. When a batch holds a sample
    whose bucket index cannot be computed ([int] raises) or exceeds
    [num_thresholds] (the assertion fails), and all samples before it are
    probabilities, [update] raises that error ([AssertionError] for the
    assertion), the samples before the offending one stay counted, and the
    samples after it are not looked at. *)
Theorem auc_update_stops_at_first_bad_sample
    (good rest : list (float * float * Z)) (p0 value : float) (lbl : Z)
    (e : exn) (s : Auc.state) :
  Auc.well_formed s -> 0 < Auc.num_thresholds s < 2 ^ 53 ->
  Forall (fun x => Auc.probability (snd (fst x))) good ->
  match Auc.bin_index (Auc.num_thresholds s) value with
  | Ok b => Auc.num_thresholds s < b /\ e = AssertionError
  | Raise e' => e = e'
  end ->
  Auc.update_batch (good ++ (p0, value, lbl) :: rest) s
  = (Raise e, fold_left Auc.count_sample good s).
Proof.
  intros Hwf Hn Hgood Hbad.
  unfold Auc.update_batch.
  set (batch := good ++ (p0, value, lbl) :: rest).
  set (preds := map (fun x : float * float * Z => [fst (fst x); snd (fst x)]) batch).
  rewrite Auc_update_arrays.
  unfold enumerate, batch at 1 2.
  rewrite !map_app, length_app, length_map, seq_app, combine_app_same
    by (rewrite length_seq, length_map; reflexivity).
  rewrite (for_each_enumerate_run
             (fun s0 => Auc.well_formed s0
                        /\ Auc.num_thresholds s0 = Auc.num_thresholds s)
             (fun x => Auc.probability (snd (fst x)))
             Auc.count_sample snd (Auc.update_body preds)).
  - cbn [length map seq combine Py.for_each Nat.add].
    apply bind_raise.
    assert (Hs' : Auc.num_thresholds (fold_left Auc.count_sample good s)
                  = Auc.num_thresholds s).
    { clear. revert s. induction good as [| x good IH]; intros s; [reflexivity |].
      cbn [fold_left]. rewrite IH. apply Auc_count_sample_thresholds. }
    set (s1 := fold_left Auc.count_sample good s) in *.
    unfold Auc.update_body.
    rewrite (bind_ok _ _ s1 s1 [p0; value]).
    2:{ apply getitem_lookup. unfold preds, batch.
        rewrite lookup_map, lookup_app_r by lia.
        replace (length good - length good)%nat with 0%nat by lia. reflexivity. }
    rewrite (bind_ok _ _ s1 s1 value) by reflexivity.
    rewrite (bind_ok _ _ s1 s1 s1) by reflexivity.
    rewrite Hs'.
    destruct (Auc.bin_index (Auc.num_thresholds s) value) as [b | e'] eqn:Eb.
    + destruct Hbad as [Hb ->].
      rewrite (bind_ok _ _ s1 s1 b) by reflexivity.
      destruct (Z.leb_spec b (Auc.num_thresholds s)); [lia | reflexivity].
    + subst e'. apply bind_raise. reflexivity.
  - intros s0 x [Hwf0 Hn0]. split.
    + apply Auc_count_sample_well_formed, Hwf0.
    + rewrite Auc_count_sample_thresholds. exact Hn0.
  - split; [exact Hwf | reflexivity].
  - exact Hgood.
  - intros i [[q0 v] l] s0 [Hwf0 Hn0] Hv Ei. cbn [fst snd Nat.add] in *.
    apply Auc_update_body_sample; try assumption.
    + rewrite Hn0. exact Hn.
    + unfold preds, batch. rewrite lookup_map, lookup_app_l, Ei;
        [reflexivity | apply (lookup_lt_Some _ _ _ Ei)].
Qed.

Lemma auc_update_stops_at_first_bad_sample_witness :
  Auc.update_batch
    ([(0.5%float, 0.5%float, 1)] ++ (0%float, 1.5%float, 0) :: [(1%float, 0%float, 0)])
    {| Auc.num_thresholds := 4; Auc.stat_pos := [0; 0; 0; 0; 0]%float;
       Auc.stat_neg := [0; 0; 0; 0; 0]%float |}
  = (Raise AssertionError,
     fold_left Auc.count_sample [(0.5%float, 0.5%float, 1)]
       {| Auc.num_thresholds := 4; Auc.stat_pos := [0; 0; 0; 0; 0]%float;
          Auc.stat_neg := [0; 0; 0; 0; 0]%float |}).
Proof.
  apply (auc_update_stops_at_first_bad_sample
           [(0.5%float, 0.5%float, 1)] [(1%float, 0%float, 0)] 0%float 1.5%float 0
           AssertionError).
  - split; reflexivity.
  - cbn [Auc.num_thresholds]. lia.
  - repeat constructor.
  - vm_compute. split; reflexivity.
Defined.

(** ** Bucket indices outside [0 .. num_thresholds] *)

Lemma Prim2SF_nan : Prim2SF nan = S754_nan.
Proof. vm_compute. reflexivity. Qed.

Lemma Prim2SF_infinity : Prim2SF infinity = S754_infinity false.
Proof. vm_compute. reflexivity. Qed.

Lemma Prim2SF_neg_infinity : Prim2SF neg_infinity = S754_infinity true.
Proof. vm_compute. reflexivity. Qed.

(** X15. A probability that is no number is never counted: with a number
    of thresholds between 1 and [2^53], [int(value * num_thresholds)] raises
    [ValueError] for NaN and [OverflowError] for either infinity. *)
Theorem auc_bin_index_not_finite (n : Z) :
  0 < n < 2 ^ 53 ->
  Auc.bin_index n nan = Raise (ValueError "cannot convert float NaN to integer")
  /\ Auc.bin_index n infinity = Raise OverflowError
  /\ Auc.bin_index n neg_infinity = Raise OverflowError.
Proof.
  intros Hn. unfold Auc.bin_index.
  rewrite (py_float_of_int_small n ltac:(lia)). cbn [result_bind].
  destruct n as [| q |]; try lia.
  destruct (float_of_Z_pos q ltac:(lia)) as [m [Em _]].
  unfold py_int_of_float. rewrite !mul_spec, Em.
  rewrite Prim2SF_nan, Prim2SF_infinity, Prim2SF_neg_infinity.
  repeat split.
Qed.

Lemma auc_bin_index_not_finite_witness :
  Auc.bin_index 4095 nan = Raise (ValueError "cannot convert float NaN to integer")
  /\ Auc.bin_index 4095 infinity = Raise OverflowError
  /\ Auc.bin_index 4095 neg_infinity = Raise OverflowError.
Proof.
  apply (auc_bin_index_not_finite 4095). lia.
Defined.

Lemma Auc_increment_from_end (a : list float) (b : Z) :
  - Z.of_nat (length a) <= b < 0 ->
  Auc.increment a b = Ok (Auc.bump a (Z.to_nat (Z.of_nat (length a) + b))).
Proof.
  intros Hb. unfold Auc.increment, np_index, Auc.bump.
  destruct (Z.leb_spec 0 b); [lia |]. cbn [andb].
  destruct (Z.leb_spec (- Z.of_nat (length a)) b); [| lia].
  destruct (Z.ltb_spec b 0); [| lia]. cbn [andb result_bind].
  destruct (lookup_lt_is_Some_2 a (Z.to_nat (Z.of_nat (length a) + b)) ltac:(lia))
    as [x Ex].
  rewrite Ex. reflexivity.
Qed.

Lemma Auc_increment_out_of_range (a : list float) (b : Z) :
  b < - Z.of_nat (length a) -> Auc.increment a b = Raise IndexError.
Proof.
  intros Hb. unfold Auc.increment, np_index.
  destruct (Z.leb_spec 0 b); [lia |]. cbn [andb].
  destruct (Z.leb_spec (- Z.of_nat (length a)) b); [lia | reflexivity].
Qed.

(** X16. The assertion of [Auc.update] bounds the bucket index from above
    only. A sample whose index [b] is negative passes it: for
    [-(num_thresholds + 1) <= b < 0] the sample is counted in slot
    [num_thresholds + 1 + b], that is, from the end of the array, and for
    [b < -(num_thresholds + 1)] the array access raises [IndexError] and the
    state stays as it was. *)
Theorem auc_negative_bucket_index (preds : list (list float)) (i : nat)
    (p0 value : float) (lbl b : Z) (s : Auc.state) :
  Auc.well_formed s -> 0 <= Auc.num_thresholds s ->
  preds !! i = Some [p0; value] ->
  Auc.bin_index (Auc.num_thresholds s) value = Ok b ->
  (- (Auc.num_thresholds s + 1) <= b < 0 ->
   Auc.update_body preds (i, lbl) s
   = (Ok tt,
      let j := Z.to_nat (Auc.num_thresholds s + 1 + b) in
      if negb (lbl =? 0)
      then {| Auc.num_thresholds := Auc.num_thresholds s;
              Auc.stat_pos := Auc.bump (Auc.stat_pos s) j;
              Auc.stat_neg := Auc.stat_neg s |}
      else {| Auc.num_thresholds := Auc.num_thresholds s;
              Auc.stat_pos := Auc.stat_pos s;
              Auc.stat_neg := Auc.bump (Auc.stat_neg s) j |}))
  /\ (b < - (Auc.num_thresholds s + 1) ->
      Auc.update_body preds (i, lbl) s = (Raise IndexError, s)).
Proof.
  intros [Hp Hneg] Hn Erow Eb.
  assert (Hbody : forall Hb : b < 0,
            Auc.update_body preds (i, lbl) s
            = (if negb (lbl =? 0)
               then Py.bind (Py.lift (Auc.increment (Auc.stat_pos s) b))
                      (fun a => Py.put {| Auc.num_thresholds := Auc.num_thresholds s;
                                          Auc.stat_pos := a;
                                          Auc.stat_neg := Auc.stat_neg s |})
               else Py.bind (Py.lift (Auc.increment (Auc.stat_neg s) b))
                      (fun a => Py.put {| Auc.num_thresholds := Auc.num_thresholds s;
                                          Auc.stat_pos := Auc.stat_pos s;
                                          Auc.stat_neg := a |})) s).
  { intros Hb. unfold Auc.update_body.
    rewrite (bind_ok _ _ s s [p0; value]) by (apply getitem_lookup; exact Erow).
    rewrite (bind_ok _ _ s s value) by reflexivity.
    rewrite (bind_ok _ _ s s s) by reflexivity.
    rewrite (bind_ok _ _ s s b) by (unfold Py.lift; rewrite Eb; reflexivity).
    destruct (Z.leb_spec b (Auc.num_thresholds s)); [reflexivity | lia]. }
  split; intros Hb; rewrite Hbody by lia; cbv zeta;
    destruct (negb (lbl =? 0)); unfold Py.bind, Py.lift, Py.put.
  - rewrite Auc_increment_from_end by (rewrite Hp; lia).
    rewrite Hp. do 4 f_equal. lia.
  - rewrite Auc_increment_from_end by (rewrite Hneg; lia).
    rewrite Hneg. do 4 f_equal. lia.
  - rewrite Auc_increment_out_of_range by (rewrite Hp; lia). reflexivity.
  - rewrite Auc_increment_out_of_range by (rewrite Hneg; lia). reflexivity.
Qed.

Lemma auc_negative_bucket_index_witness :
  Auc.update_body [[1.5; -0.5]%float] (0%nat, 1)
    {| Auc.num_thresholds := 4; Auc.stat_pos := [0; 0; 0; 0; 0]%float;
       Auc.stat_neg := [0; 0; 0; 0; 0]%float |}
  = (Ok tt,
     {| Auc.num_thresholds := 4; Auc.stat_pos := [0; 0; 0; 1; 0]%float;
        Auc.stat_neg := [0; 0; 0; 0; 0]%float |}).
Proof.
  apply (proj1 (auc_negative_bucket_index [[1.5; -0.5]%float] 0 1.5%float
                  (-0.5)%float 1 (-2)
                  {| Auc.num_thresholds := 4; Auc.stat_pos := [0; 0; 0; 0; 0]%float;
                     Auc.stat_neg := [0; 0; 0; 0; 0]%float |}
                  ltac:(split; reflexivity) ltac:(cbn; lia) eq_refl
                  ltac:(vm_compute; reflexivity))).
  cbn [Auc.num_thresholds]. lia.
Defined.

(** ** [Auc.accumulate] after samples of one class only *)

Lemma fold_add_zeros (m : nat) (idxs : list nat) :
  fold_left PrimFloat.add
    (map (fun idx => nth idx (replicate m 0%float) 0%float) idxs) 0%float
  = 0%float.
Proof.
  induction idxs as [| idx idxs IH]; cbn [map fold_left]; [reflexivity |].
  replace (nth idx (replicate m 0%float) 0%float) with 0%float.
  - exact IH.
  - destruct (Nat.lt_ge_cases idx m) as [H | H].
    + symmetry. apply nth_lookup_Some with (d := 0%float).
      apply lookup_replicate_2, H.
    + rewrite nth_overflow; [reflexivity | rewrite length_replicate; exact H].
Qed.

Lemma Auc_count_positive_keeps_neg (batch : list (float * float * Z)) (s : Auc.state) :
  Forall (fun x => snd x <> 0) batch ->
  Auc.stat_neg (fold_left Auc.count_sample batch s) = Auc.stat_neg s.
Proof.
  intros H. revert s. induction H as [| [[p0 v] lbl] batch Hl _ IH]; intros s;
    cbn [fold_left]; [reflexivity |].
  rewrite IH. unfold Auc.count_sample. cbn [snd] in Hl.
  destruct (Z.eqb_spec lbl 0); [contradiction | reflexivity].
Qed.

Lemma Auc_count_negative_keeps_pos (batch : list (float * float * Z)) (s : Auc.state) :
  Forall (fun x => snd x = 0) batch ->
  Auc.stat_pos (fold_left Auc.count_sample batch s) = Auc.stat_pos s.
Proof.
  intros H. revert s. induction H as [| [[p0 v] lbl] batch Hl _ IH]; intros s;
    cbn [fold_left]; [reflexivity |].
  rewrite IH. unfold Auc.count_sample. cbn [snd] in Hl. subst lbl. reflexivity.
Qed.

Lemma Auc_fold_well_formed (batch : list (float * float * Z)) (s : Auc.state) :
  Auc.well_formed s -> Auc.well_formed (fold_left Auc.count_sample batch s).
Proof.
  revert s. induction batch as [| x batch IH]; intros s H; [exact H |].
  cbn [fold_left]. apply IH, Auc_count_sample_well_formed, H.
Qed.

(** X17. The degenerate case of the area. On a metric that holds no
    negative sample, a batch of probabilities whose labels are all truthy
    makes [accumulate] return 0.0, whatever it holds of positives; and the
    same on a metric that holds no positive sample, for a batch whose labels
    are all 0. *)
Theorem auc_single_class_is_zero (batch : list (float * float * Z)) (m : nat)
    (s : Auc.state) :
  Auc.well_formed s -> 0 < Auc.num_thresholds s < 2 ^ 53 ->
  Forall (fun x => Auc.probability (snd (fst x))) batch ->
  (Auc.stat_neg s = replicate m 0%float -> Forall (fun x => snd x <> 0) batch ->
   fst (Py.bind (Auc.update_batch batch) (fun _ => Auc.accumulate) s) = Ok 0%float)
  /\ (Auc.stat_pos s = replicate m 0%float -> Forall (fun x => snd x = 0) batch ->
      fst (Py.bind (Auc.update_batch batch) (fun _ => Auc.accumulate) s)
      = Ok 0%float).
Proof.
  intros Hwf Hn Hprob.
  assert (E : Py.bind (Auc.update_batch batch) (fun _ => Auc.accumulate) s
              = (Ok (Auc.accumulate_spec (fold_left Auc.count_sample batch s)),
                 fold_left Auc.count_sample batch s)).
  { rewrite (bind_ok _ _ s (fold_left Auc.count_sample batch s) tt)
      by (apply Auc_update_samples; [split |]; assumption).
    apply Auc_accumulate_refines, Auc_fold_well_formed, Hwf. }
  rewrite E. cbn [fst]. unfold Auc.accumulate_spec.
  destruct (Auc_walk_totals (fold_left Auc.count_sample batch s)) as [Epos Eneg].
  split; intros Hzero Hlab.
  - rewrite Auc_count_positive_keeps_neg, Hzero, fold_add_zeros in Eneg
      by exact Hlab.
    rewrite Eneg. rewrite andb_comm. reflexivity.
  - rewrite Auc_count_negative_keeps_pos, Hzero, fold_add_zeros in Epos
      by exact Hlab.
    rewrite Epos. reflexivity.
Qed.

Lemma auc_single_class_is_zero_witness :
  fst (Py.bind (Auc.update_batch [(0.2%float, 0.8%float, 1); (0.6%float, 0.4%float, 1)])
         (fun _ => Auc.accumulate)
         {| Auc.num_thresholds := 3; Auc.stat_pos := [0; 1; 0; 2]%float;
            Auc.stat_neg := [0; 0; 0; 0]%float |})
  = Ok 0%float.
Proof.
  apply (proj1 (auc_single_class_is_zero
                  [(0.2%float, 0.8%float, 1); (0.6%float, 0.4%float, 1)] 4
                  {| Auc.num_thresholds := 3; Auc.stat_pos := [0; 1; 0; 2]%float;
                     Auc.stat_neg := [0; 0; 0; 0]%float |}
                  ltac:(split; reflexivity) ltac:(cbn; lia)
                  ltac:(repeat constructor))).
  - reflexivity.
  - repeat constructor; discriminate.
Defined.

(** ** The first batch of an [Accuracy] *)

Lemma first_batch_ratios (rows : list (list bool)) (ks : list Z) :
  rows <> [] -> mask_size rows < 2 ^ 53 ->
  map accuracy_so_far
    (combine
       (map (fun tk => (fst tk
                        + np_sum (map (py_slice_to (snd tk)) (Accuracy.mask_of rows)))%float)
            (combine (replicate (length ks) 0%float) ks))
       (map (fun c => c + Z.of_nat (length (Accuracy.mask_of rows)))
            (replicate (length ks) 0)))
  = map (accuracy_of_batch (Accuracy.mask_of rows)) ks.
Proof.
  intros Hne Hsmall. unfold mask_size in Hsmall.
  assert (Hlen : length (Accuracy.mask_of rows) = length rows)
    by (unfold Accuracy.mask_of; apply length_map).
  induction ks as [| k ks IH]; [reflexivity |].
  cbn [length replicate combine map fst snd]. rewrite IH. f_equal.
  unfold accuracy_so_far, accuracy_of_batch. cbn [fst snd].
  rewrite Hlen, Z.add_0_l.
  destruct (Z.ltb_spec 0 (Z.of_nat (length rows))) as [_ | H];
    [| destruct rows; [contradiction | cbn [length] in H; lia]].
  rewrite np_sum_mask by lia.
  pose proof (ones_bounds k rows).
  rewrite <- float_of_Z_0, float_add_int by lia. reflexivity.
Qed.

(** X18. After [reset], the value that the first [update] returns for its
    batch is the value that [accumulate] returns right after it: on a 0/1
    mask with at least one row (and fewer than [2^53] rows and cells) the
    batch accuracy and the accumulated accuracy agree at every cutoff. *)
Theorem accuracy_first_batch_value (s : Accuracy.state) (rows : list (list bool)) :
  rows <> [] -> mask_size rows < 2 ^ 53 ->
  exists v s1,
    Accuracy.update_batch rows (snd (Accuracy.reset s)) = (Ok v, s1)
    /\ Accuracy.accumulate s1 = (Ok v, s1).
Proof.
  intros Hne Hsmall.
  assert (Hlen : length (Accuracy.mask_of rows) = length rows)
    by (unfold Accuracy.mask_of; apply length_map).
  assert (Hrows : Z.of_nat (length rows) < 2 ^ 53)
    by (unfold mask_size in Hsmall; lia).
  unfold Accuracy.update_batch.
  cbn [Accuracy.reset Py.bind Py.get Py.put snd].
  set (s0 := {| Accuracy.topk := Accuracy.topk s; Accuracy.maxk := Accuracy.maxk s;
                Accuracy.total := replicate (length (Accuracy.topk s)) 0%float;
                Accuracy.count := replicate (length (Accuracy.topk s)) 0 |}).
  rewrite (Accuracy_update_array (Accuracy.mask_of rows) s0).
  - do 2 eexists. split; [reflexivity |].
    rewrite Accuracy_accumulate_array;
      cbn [Accuracy.topk Accuracy.maxk Accuracy.total Accuracy.count s0].
    + rewrite first_batch_ratios by assumption. reflexivity.
    + rewrite length_map, length_combine, length_replicate. lia.
    + rewrite length_map, length_replicate. reflexivity.
    + rewrite Hlen. induction (length (Accuracy.topk s)) as [| n IH];
        cbn [replicate map]; constructor; [lia | exact IH].
  - intros E. apply Hne. destruct rows; [reflexivity | discriminate].
  - rewrite Hlen. exact Hrows.
  - apply length_replicate.
  - apply length_replicate.
Qed.

Lemma accuracy_first_batch_value_witness :
  exists v s1,
    Accuracy.update_batch [[true; false]; [false; false]; [false; true]]
      (snd (Accuracy.reset {| Accuracy.topk := [1; 2]; Accuracy.maxk := 2;
                              Accuracy.total := [7; 7]%float;
                              Accuracy.count := [9; 9] |}))
    = (Ok v, s1)
    /\ Accuracy.accumulate s1 = (Ok v, s1).
Proof.
  apply (accuracy_first_batch_value
           {| Accuracy.topk := [1; 2]; Accuracy.maxk := 2;
              Accuracy.total := [7; 7]%float; Accuracy.count := [9; 9] |}
           [[true; false]; [false; false]; [false; true]]).
  - discriminate.
  - reflexivity.
Defined.

(** ** [Auc.trapezoid_area] *)

Lemma SFadd_comm (x y : spec_float) : SFadd prec emax x y = SFadd prec emax y x.
Proof.
  destruct x as [sx | sx | | sx mx ex], y as [sy | sy | | sy my ey];
    try reflexivity; try (destruct sx, sy; reflexivity).
  unfold SFadd. rewrite (Z.min_comm ey ex), Z.add_comm. reflexivity.
Qed.

Lemma float_add_comm (x y : float) : (x + y)%float = (y + x)%float.
Proof.
  apply Prim2SF_inj. rewrite !add_spec. apply SFadd_comm.
Qed.

Lemma SFabs_binary_round_aux (s : bool) (m e : Z) (l : location) :
  SFabs (binary_round_aux prec emax s m e l)
  = SFabs (binary_round_aux prec emax false m e l).
Proof.
  unfold binary_round_aux.
  destruct (shr_fexp prec emax m e l) as [mrs e'].
  destruct (shr_fexp prec emax _ e' loc_Exact) as [mrs'' e''].
  destruct (shr_m mrs''); [reflexivity | | reflexivity].
  destruct (e'' <=? emax - prec); reflexivity.
Qed.

Lemma SFabs_binary_normalize_opp (z e : Z) :
  SFabs (binary_normalize prec emax (- z) e false)
  = SFabs (binary_normalize prec emax z e false).
Proof.
  destruct z as [| p | p]; unfold Z.opp, binary_normalize, binary_round;
    [reflexivity | |];
    destruct (shl_align p e _) as [mz ez];
    [| symmetry]; apply SFabs_binary_round_aux.
Qed.

Lemma SFabs_sub_comm (x y : spec_float) :
  SFabs (SFsub prec emax x y) = SFabs (SFsub prec emax y x).
Proof.
  destruct x as [sx | sx | | sx mx ex], y as [sy | sy | | sy my ey];
    try reflexivity; try (destruct sx, sy; reflexivity).
  unfold SFsub. rewrite (Z.min_comm ey ex).
  rewrite <- SFabs_binary_normalize_opp. f_equal. f_equal. lia.
Qed.

Lemma float_abs_sub_comm (x y : float) : abs (x - y) = abs (y - x).
Proof.
  apply Prim2SF_inj. rewrite !abs_spec, !sub_spec. apply SFabs_sub_comm.
Qed.

(** X19. [Auc.trapezoid_area] does not depend on the order of its two
    points: swapping the abscissas, swapping the ordinates, or swapping the
    points gives the same float. So the area that [accumulate] adds for a
    bucket is the same whether the running totals are passed before or after
    the previous ones. *)
Theorem auc_trapezoid_area_symmetric (x1 x2 y1 y2 : float) :
  Auc.trapezoid_area x1 x2 y1 y2 = Auc.trapezoid_area x2 x1 y1 y2
  /\ Auc.trapezoid_area x1 x2 y1 y2 = Auc.trapezoid_area x1 x2 y2 y1
  /\ Auc.trapezoid_area x1 x2 y1 y2 = Auc.trapezoid_area x2 x1 y2 y1.
Proof.
  unfold Auc.trapezoid_area. repeat split.
  - rewrite (float_abs_sub_comm x1 x2). reflexivity.
  - rewrite (float_add_comm y1 y2). reflexivity.
  - rewrite (float_abs_sub_comm x1 x2), (float_add_comm y1 y2). reflexivity.
Qed.

(** ** The decision of [Recall] on a probability *)

Lemma SFltb_finite_pos (m1 m2 : positive) (e1 e2 : Z) :
  SFltb (S754_finite false m1 e1) (S754_finite false m2 e2)
  = if e1 <? e2 then true
    else if e1 =? e2 then Zpos m1 <? Zpos m2 else false.
Proof.
  unfold SFltb, SFcompare.
  destruct (Z.compare_spec e1 e2) as [He | He | He].
  - subst e2. rewrite Z.ltb_irrefl, Z.eqb_refl.
    rewrite Pos.compare_cont_spec. unfold Pos.switch_Eq.
    destruct (Pos.compare_spec m1 m2) as [Hm | Hm | Hm].
    + subst m2. rewrite Z.ltb_irrefl. reflexivity.
    + symmetry. apply Z.ltb_lt. exact Hm.
    + symmetry. apply Z.ltb_ge. apply Z.lt_le_incl. exact Hm.
  - destruct (Z.ltb_spec e1 e2); [reflexivity | lia].
  - destruct (Z.ltb_spec e1 e2); [lia |].
    destruct (Z.eqb_spec e1 e2); [lia | reflexivity].
Qed.

(** A float of the unit interval: a zero, or a positive mantissa below
    [2^53] at an exponent of at most -52, where only 1.0 has exponent -52. *)
Lemma unit_interval_valid (v : float) :
  (0 <=? v)%float = true -> (v <=? 1)%float = true ->
  (exists s, Prim2SF v = S754_zero s) \/
  (exists m e, Prim2SF v = S754_finite false m e /\ e <= -52 /\
               Zpos m < 2 ^ 53 /\ (e = -52 -> v = 1%float)).
Proof.
  intros H0 H1. pose proof (Prim2SF_valid v) as Hv.
  destruct (unit_interval_SF v H0 H1) as [Hz | [m [e [Ev [He Hm]]]]];
    [left; exact Hz | right].
  exists m, e. rewrite Ev in Hv.
  cbn [SpecFloat.valid_binary] in Hv. unfold bounded, canonical_mantissa in Hv.
  apply andb_prop in Hv as [Hc _]. apply Z.eqb_eq in Hc. rewrite fexp_eq in Hc.
  pose proof (digits2_pos_bounds m) as [Blo Bhi].
  assert (Hd : Zpos (digits2_pos m) <= 53) by lia.
  repeat split; try assumption.
  - assert (2 ^ Zpos (digits2_pos m) <= 2 ^ 53) by (apply Z.pow_le_mono_r; lia).
    lia.
  - intros ->. apply Prim2SF_inj. rewrite Ev, Prim2SF_one.
    assert (Ed : Zpos (digits2_pos m) = 53) by lia.
    rewrite Ed in Blo. replace (53 - 1) with 52 in Blo by reflexivity.
    replace (- -52) with 52 in Hm by reflexivity. rewrite pow2_52 in *.
    f_equal. lia.
Qed.

Lemma astype_int32_zero : astype_int32 zero = 0.
Proof. vm_compute. reflexivity. Qed.

Lemma astype_int32_one : astype_int32 1 = 1.
Proof. vm_compute. reflexivity. Qed.

Lemma Recall_decision_one : Recall.decision 1 = 1.
Proof. vm_compute. reflexivity. Qed.

(** X20. On a probability (a float between 0 and 1) the decision of
    [Recall.update] is 1 when the probability is above 0.5 and 0 otherwise:
    [np.rint] rounds the tie 0.5 to the even 0, so a prediction of exactly
    0.5 is decided negative. *)
Theorem recall_decision_of_probability (p : float) :
  Auc.probability p ->
  Recall.decision p = if (0.5 <? p)%float then 1 else 0.
Proof.
  intros [H0 H1]. rewrite ltb_spec, Prim2SF_half. unfold Recall.decision.
  destruct (unit_interval_valid p H0 H1)
    as [[s Es] | (m & e & Ep & He & Hlt & H52)].
  - unfold np_rint, astype_int32. rewrite Es, Es. reflexivity.
  - rewrite Ep, SFltb_finite_pos.
    destruct (Z.eq_dec e (-52)) as [E52 | Hne].
    + rewrite (H52 E52).
      change (astype_int32 (np_rint 1)) with (Recall.decision 1).
      rewrite Recall_decision_one. subst e. reflexivity.
    + assert (He' : e <= -53) by lia. clear H52 Hne He.
      assert (Hpow : 2 ^ 53 <= 2 ^ (- e)) by (apply Z.pow_le_mono_r; lia).
      unfold np_rint. rewrite Ep.
      destruct (Z.leb_spec 0 e) as [? | _]; [lia |]. cbv zeta.
      rewrite Z.shiftr_div_pow2 by lia.
      rewrite (Z.div_small (Zpos m) (2 ^ (- e))) by lia.
      rewrite Z.shiftl_0_l, Z.sub_0_r. cbn [Z.even Z.add].
      assert (Ehalf : 2 ^ (- e) = 2 * 2 ^ (- e - 1)).
      { rewrite <- Z.pow_succ_r by lia. f_equal. lia. }
      destruct (Z.ltb_spec (Zpos m) (2 ^ (- e - 1))) as [Hm | Hm].
      * rewrite Z.eqb_refl. cbv iota. rewrite astype_int32_zero.
        destruct (Z.ltb_spec (-53) e); [lia |].
        destruct (Z.eqb_spec (-53) e) as [<- | _]; [| reflexivity].
        replace (- -53 - 1) with 52 in Hm by reflexivity. rewrite pow2_52 in Hm.
        destruct (Z.ltb_spec 4503599627370496 (Zpos m)); [lia | reflexivity].
      * destruct (Z.ltb_spec (2 ^ (- e - 1)) (Zpos m)) as [Hm' | Hm'].
        -- assert (e = -53).
           { destruct (Z.eq_dec e (-53)) as [E | E]; [exact E | exfalso].
             assert (2 ^ 53 <= 2 ^ (- e - 1)) by (apply Z.pow_le_mono_r; lia).
             lia. }
           subst e.
           replace (- -53 - 1) with 52 in Hm' by reflexivity.
           rewrite pow2_52 in Hm'.
           cbn [cond_Zopp]. rewrite !Z.add_0_l. change (1 =? 0) with false. cbv iota.
           rewrite float_of_Z_1, astype_int32_one.
           rewrite Z.ltb_irrefl, Z.eqb_refl.
           destruct (Z.ltb_spec 4503599627370496 (Zpos m)); [reflexivity | lia].
        -- rewrite Z.eqb_refl. cbv iota. rewrite astype_int32_zero.
           destruct (Z.ltb_spec (-53) e); [lia |].
           destruct (Z.eqb_spec (-53) e) as [<- | _]; [| reflexivity].
           replace (- -53 - 1) with 52 in Hm, Hm' by reflexivity.
           rewrite pow2_52 in Hm, Hm'.
           destruct (Z.ltb_spec 4503599627370496 (Zpos m)); [lia | reflexivity].
Qed.

Lemma recall_decision_of_probability_witness :
  Recall.decision 0.5 = (if (0.5 <? 0.5)%float then 1 else 0)
  /\ Recall.decision 0.75 = (if (0.5 <? 0.75)%float then 1 else 0).
Proof.
  split.
  - apply (recall_decision_of_probability 0.5). split; reflexivity.
  - apply (recall_decision_of_probability 0.75). split; reflexivity.
Defined.

(** ** [Auc.update] on arrays of different lengths *)

(** X21. [Auc.update] walks the labels. With more rows of predictions than
    labels, the rows beyond the last label are ignored; with fewer, [update]
    raises [IndexError] at the first label without a row, and the samples
    before it stay counted. *)
Theorem auc_update_on_arrays (good : list (float * float * Z))
    (extra : list (list float)) (lbl : Z) (more : list Z) (s : Auc.state) :
  Auc.well_formed s -> 0 < Auc.num_thresholds s < 2 ^ 53 ->
  Forall (fun x => Auc.probability (snd (fst x))) good ->
  Auc.update (NdArray (map (fun x => [fst (fst x); snd (fst x)]) good ++ extra))
             (NdArray (map snd good)) s
  = (Ok tt, fold_left Auc.count_sample good s)
  /\ Auc.update (NdArray (map (fun x => [fst (fst x); snd (fst x)]) good))
                (NdArray (map snd good ++ lbl :: more)) s
     = (Raise IndexError, fold_left Auc.count_sample good s).
Proof.
  intros Hwf Hn Hgood.
  assert (Hrun : forall (preds : list (list float)) (tail : list (nat * Z)),
             (forall i x, good !! i = Some x ->
                          preds !! i = Some [fst (fst x); snd (fst x)]) ->
             Py.for_each (combine (seq 0 (length good)) (map snd good) ++ tail)
               (Auc.update_body preds) s
             = Py.for_each tail (Auc.update_body preds)
                 (fold_left Auc.count_sample good s)).
  { intros preds tail Hpreds.
    apply (for_each_enumerate_run
             (fun s0 => Auc.well_formed s0
                        /\ Auc.num_thresholds s0 = Auc.num_thresholds s)
             (fun x => Auc.probability (snd (fst x)))
             Auc.count_sample snd (Auc.update_body preds)).
    - intros s0 x [Hwf0 Hn0]. split.
      + apply Auc_count_sample_well_formed, Hwf0.
      + rewrite Auc_count_sample_thresholds. exact Hn0.
    - split; [exact Hwf | reflexivity].
    - exact Hgood.
    - intros i [[q0 v] l] s0 [Hwf0 Hn0] Hv Ei. cbn [fst snd Nat.add] in *.
      apply Auc_update_body_sample; try assumption.
      + rewrite Hn0. exact Hn.
      + apply (Hpreds i _ Ei). }
  split; rewrite Auc_update_arrays.
  - set (preds := map (fun x : float * float * Z => [fst (fst x); snd (fst x)]) good
                  ++ extra).
    unfold enumerate. rewrite length_map.
    rewrite <- (app_nil_r (combine _ _)), Hrun; [reflexivity |].
    intros i x Ei. unfold preds.
    rewrite lookup_app_l by (rewrite length_map; apply (lookup_lt_Some _ _ _ Ei)).
    rewrite lookup_map, Ei. reflexivity.
  - set (preds := map (fun x : float * float * Z => [fst (fst x); snd (fst x)]) good).
    unfold enumerate.
    rewrite length_app, length_map, seq_app, combine_app_same
      by (rewrite length_seq, length_map; reflexivity).
    rewrite Hrun.
    + cbn [length seq combine Py.for_each Nat.add].
      apply bind_raise. unfold Auc.update_body. apply bind_raise.
      apply getitem_past_end. unfold preds. rewrite length_map. lia.
    + intros i x Ei. unfold preds. rewrite lookup_map, Ei. reflexivity.
Qed.

Lemma auc_update_on_arrays_witness :
  Auc.update (NdArray (map (fun x => [fst (fst x); snd (fst x)])
                           [(0.5%float, 0.5%float, 1)] ++ [[0.1; 0.9]%float]))
             (NdArray (map snd [(0.5%float, 0.5%float, 1)]))
    {| Auc.num_thresholds := 4; Auc.stat_pos := [0; 0; 0; 0; 0]%float;
       Auc.stat_neg := [0; 0; 0; 0; 0]%float |}
  = (Ok tt,
     fold_left Auc.count_sample [(0.5%float, 0.5%float, 1)]
       {| Auc.num_thresholds := 4; Auc.stat_pos := [0; 0; 0; 0; 0]%float;
          Auc.stat_neg := [0; 0; 0; 0; 0]%float |}).
Proof.
  apply (proj1 (auc_update_on_arrays [(0.5%float, 0.5%float, 1)]
                  [[0.1; 0.9]%float] 0 []
                  {| Auc.num_thresholds := 4;
                     Auc.stat_pos := [0; 0; 0; 0; 0]%float;
                     Auc.stat_neg := [0; 0; 0; 0; 0]%float |}
                  ltac:(split; reflexivity) ltac:(cbn; lia)
                  ltac:(repeat constructor))).
Defined.
